(** * convert_to_tsv: a shallow embedding of [scripts/convert_to_tsv.py]

    The script turns ImageNet / COCO / VOC style datasets into TSV files.
    This development embeds its functions ([listarchive], [guess_phase],
    [guess_label], [gather_images], [get_coco_bboxes], [get_boxes] and the
    emitting loop of [main]) and states the properties of the design
    document about them.

    Conventions of the embedding.
    - Python [str] values are Rocq [string]s; only ASCII text is covered
      (on ASCII, [\d], [\w] and [str.lower] are the classes written below).
    - Python [int] is [Z]; a label is a [str] or an [int] ([LabelId]).
    - A raised exception is the [Raise] branch of [result].
    - [os.path] is [posixpath].
    - The file system, the archive libraries, the JSON / XML parsers and the
      WordNet [Synsetizer] are not part of the script: they are the fields of
      the [OS] interface and the [syn_cache] parameter. *)

From Stdlib Require Import ZArith QArith Qround String Ascii List Bool Lia.
From stdpp Require Import base option list strings pretty gmap.

Import ListNotations.
Local Open Scope string_scope.
Local Open Scope list_scope.

(* ================================================================== *)
(** ** Exceptions and results

    [Diverges] is not an exception: it stands for a call that never
    returns, which ends everything that would follow it just as an
    exception nobody catches does. *)

Inductive exn : Type :=
| TypeError
| AttributeError
| KeyError
| IndexError
| ValueError
| RecursionError
| OSError
| PyException (msg : string)
| Diverges.

Inductive result (A : Type) : Type :=
| Ok (a : A)
| Raise (e : exn).
Arguments Ok {A} a.
Arguments Raise {A} e.

Definition bind {A B} (m : result A) (k : A -> result B) : result B :=
  match m with
  | Ok a => k a
  | Raise e => Raise e
  end.

Declare Scope result_scope.
Delimit Scope result_scope with result.
Notation "'do' x <- m ; k" := (bind m (fun x => k))
  (at level 10, x pattern, m at level 100, k at level 200) : result_scope.
Local Open Scope result_scope.

(* ================================================================== *)
(** ** Python strings *)

Module Py.

Definition code (c : ascii) : nat := nat_of_ascii c.

Definition is_digit (c : ascii) : bool :=
  Nat.leb 48 (code c) && Nat.leb (code c) 57.

Definition is_upper (c : ascii) : bool :=
  Nat.leb 65 (code c) && Nat.leb (code c) 90.

Definition is_lower (c : ascii) : bool :=
  Nat.leb 97 (code c) && Nat.leb (code c) 122.

(** [\w] on ASCII text: letters, digits and the underscore. *)
Definition is_word (c : ascii) : bool :=
  is_digit c || is_upper c || is_lower c || Ascii.eqb c "_".

(** [.] without DOTALL: anything but a newline. *)
Definition is_any (c : ascii) : bool := negb (Nat.eqb (code c) 10).

Definition lower_char (c : ascii) : ascii :=
  if is_upper c then ascii_of_nat (code c + 32) else c.

(** [s.lower()] *)
Fixpoint lower (s : string) : string :=
  match s with
  | EmptyString => EmptyString
  | String c s' => String (lower_char c) (lower s')
  end.

(** [s.replace(a, b)] for one-character [a] and [b] *)
Fixpoint replace (a b : ascii) (s : string) : string :=
  match s with
  | EmptyString => EmptyString
  | String c s' => String (if Ascii.eqb c a then b else c) (replace a b s')
  end.

(** [s.split(sep)] for a one-character separator: never empty, keeps
    empty fields. *)
Fixpoint split (sep : ascii) (s : string) : list string :=
  match s with
  | EmptyString => [EmptyString]
  | String c s' =>
      match split sep s' with
      | [] => [EmptyString]
      | w :: ws =>
          if Ascii.eqb c sep then EmptyString :: w :: ws
          else String c w :: ws
      end
  end.

(** [s.startswith(p)] *)
Definition startswith (s p : string) : bool := String.prefix p s.

(** [s.endswith(p)] *)
Definition endswith (s p : string) : bool :=
  let n := String.length s in
  let k := String.length p in
  Nat.leb k n && String.eqb (String.substring (n - k) k s) p.

(** [needle in hay] for two strings *)
Fixpoint contains (needle hay : string) : bool :=
  String.prefix needle hay ||
  match hay with
  | EmptyString => false
  | String _ hay' => contains needle hay'
  end.

(** [bool(s)]: a string is truthy when it is not empty. *)
Definition truthy (s : string) : bool :=
  match s with EmptyString => false | _ => true end.

(** [(s[:i], s[i:])] for [i = s.rfind(c)], when [c] occurs in [s]. *)
Fixpoint rfind_split (c : ascii) (s : string) : option (string * string) :=
  match s with
  | EmptyString => None
  | String a s' =>
      match rfind_split c s' with
      | Some (h, t) => Some (String a h, t)
      | None => if Ascii.eqb a c then Some (EmptyString, s) else None
      end
  end.

(** [s.rstrip(c)] *)
Fixpoint rstrip (c : ascii) (s : string) : string :=
  match s with
  | EmptyString => EmptyString
  | String a s' =>
      match rstrip c s' with
      | EmptyString => if Ascii.eqb a c then EmptyString else String a EmptyString
      | r => String a r
      end
  end.

Fixpoint all_chars (p : ascii -> bool) (s : string) : bool :=
  match s with
  | EmptyString => true
  | String a s' => p a && all_chars p s'
  end.

Definition digit_value (c : ascii) : Z := Z.of_nat (code c) - 48.

Fixpoint int_digits (acc : Z) (s : string) : result Z :=
  match s with
  | EmptyString => Ok acc
  | String c s' =>
      if is_digit c then int_digits (10 * acc + digit_value c) s'
      else Raise ValueError
  end.

(** [int(s)] for a string of decimal digits (the only use in the script). *)
Definition int (s : string) : result Z :=
  match s with
  | EmptyString => Raise ValueError
  | _ => int_digits 0 s
  end.

End Py.

(* ================================================================== *)
(** ** os.path (posixpath) *)

Module OsPath.

(** [(p[:i], p[i:])] with [i = p.rfind('/') + 1] *)
Definition cut (p : string) : string * string :=
  match Py.rfind_split "/" p with
  | Some (h, String _ t) => (h +:+ "/", t)
  | _ => (EmptyString, p)
  end.

Definition strip_head (head : string) : string :=
  if Py.truthy head && negb (Py.all_chars (Ascii.eqb "/") head)
  then Py.rstrip "/" head else head.

(** [os.path.split] *)
Definition split (p : string) : string * string :=
  let '(head, tail) := cut p in (strip_head head, tail).

(** [os.path.basename] *)
Definition basename (p : string) : string := snd (cut p).

(** [os.path.dirname] *)
Definition dirname (p : string) : string := strip_head (fst (cut p)).

(** [os.path.splitext]: the extension starts at the last dot of the last
    component, unless only dots precede it there. *)
Definition splitext (p : string) : string * string :=
  let '(head, tail) := cut p in
  match Py.rfind_split "." tail with
  | Some (stem, ext) =>
      if Py.all_chars (Ascii.eqb ".") stem then (p, EmptyString)
      else (head +:+ stem, ext)
  | None => (p, EmptyString)
  end.

(** [os.path.join(a, b)] *)
Definition join (a b : string) : string :=
  if Py.startswith b "/" then b
  else if negb (Py.truthy a) || Py.endswith a "/" then a +:+ b
  else a +:+ "/" +:+ b.

End OsPath.


(* ================================================================== *)
(** ** Regular expressions

    The two label patterns and the extension patterns of the script are
    run by a backtracking matcher with the priorities of Python's [re]:
    greedy repetition first, an optional part tried before it is skipped,
    named groups recorded on the way.  [re.match] anchors at the start of
    the text and accepts any rest, unless the pattern ends in [$]. *)

Module Re.

Inductive regex : Type :=
| Chr (c : ascii)                        (* a literal character *)
| Cls (p : ascii -> bool)                (* a class: [\d], [\w], [.] *)
| Seq (r1 r2 : regex)
| Opt (r : regex)                        (* [r?] *)
| Star (p : ascii -> bool)               (* [cls*] *)
| Rep (n : nat) (p : ascii -> bool)      (* [cls{n}] *)
| Grp (name : option string) (r : regex) (* [(?P<name>r)] or [(r)] *)
| Eos.                                   (* [$] *)

(** [cls+] *)
Definition Plus (p : ascii -> bool) : regex := Seq (Cls p) (Star p).

Fixpoint Lit (s : string) : regex :=
  match s with
  | EmptyString => Rep 0 (fun _ => true)
  | String c EmptyString => Chr c
  | String c s' => Seq (Chr c) (Lit s')
  end.

(** The groups that took part in the match, most recent first. *)
Definition groups : Type := list (string * string).

(** [match.group(name)]: [None] for a group that did not take part. *)
Fixpoint group (name : string) (g : groups) : option string :=
  match g with
  | [] => None
  | (n, v) :: g' => if String.eqb n name then Some v else group name g'
  end.

Definition record (name : option string) (v : string) (g : groups) : groups :=
  match name with
  | Some n => (n, v) :: g
  | None => g
  end.

(** The part of [s] consumed when [s'] is what is left of it. *)
Definition consumed (s s' : string) : string :=
  String.substring 0 (String.length s - String.length s') s.

Definition same_char (icase : bool) (a b : ascii) : bool :=
  if icase then Ascii.eqb (Py.lower_char a) (Py.lower_char b)
  else Ascii.eqb a b.

Section Matcher.
Context {A : Type}.

(** Greedy [cls*]: the longest run first, then shorter ones. *)
Fixpoint star (p : ascii -> bool) (k : string -> option A) (s : string)
  : option A :=
  match s with
  | String c s' =>
      if p c then
        match star p k s' with
        | Some r => Some r
        | None => k s
        end
      else k s
  | EmptyString => k s
  end.

Fixpoint rep (n : nat) (p : ascii -> bool) (k : string -> option A)
  (s : string) : option A :=
  match n with
  | O => k s
  | S n' =>
      match s with
      | String c s' => if p c then rep n' p k s' else None
      | EmptyString => None
      end
  end.
End Matcher.

Fixpoint run (icase : bool) (r : regex) (s : string) (g : groups)
  (k : string -> groups -> option groups) : option groups :=
  match r with
  | Chr c =>
      match s with
      | String a s' => if same_char icase a c then k s' g else None
      | EmptyString => None
      end
  | Cls p =>
      match s with
      | String a s' => if p a then k s' g else None
      | EmptyString => None
      end
  | Seq r1 r2 => run icase r1 s g (fun s' g' => run icase r2 s' g' k)
  | Opt r' =>
      match run icase r' s g k with
      | Some m => Some m
      | None => k s g
      end
  | Star p => star p (fun s' => k s' g) s
  | Rep n p => rep n p (fun s' => k s' g) s
  | Grp name r' =>
      run icase r' s g (fun s' g' => k s' (record name (consumed s s') g'))
  | Eos =>
      (* the end of the text, or just before a final newline *)
      match s with
      | EmptyString => k s g
      | String c EmptyString => if Nat.eqb (Py.code c) 10 then k s g else None
      | _ => None
      end
  end.

(** [pattern.match(s)] *)
Definition match_ (r : regex) (s : string) : option groups :=
  run false r s [] (fun _ g => Some g).

(** [re.match(pattern, s, flags=re.IGNORECASE)] *)
Definition match_icase (r : regex) (s : string) : option groups :=
  run true r s [] (fun _ g => Some g).

End Re.

(* ================================================================== *)
(** ** Module constants *)

Definition _valid_extensions : list string := [".jpg"; ".png"].
Definition _valid_phases : list string := ["train"; "test"; "val"].

(** The synset pattern: the group LABEL, [n] and eight digits; an optional
    group EXT, [_] and digits; an optional [_] and group META of word
    characters. *)
Definition _synset_label_pattern : Re.regex :=
  Re.Seq (Re.Grp (Some "LABEL") (Re.Seq (Re.Chr "n") (Re.Rep 8 Py.is_digit)))
 (Re.Seq (Re.Opt (Re.Grp (Some "EXT") (Re.Seq (Re.Chr "_") (Re.Plus Py.is_digit))))
         (Re.Opt (Re.Grp None
                    (Re.Seq (Re.Chr "_") (Re.Grp (Some "META") (Re.Plus Py.is_word)))))).

(** The COCO file-name pattern: an optional group META, [COCO_] and then
    any run of characters, the group LABEL of twelve digits, and [$]. *)
Definition _coco_label_pattern : Re.regex :=
  Re.Seq (Re.Opt (Re.Grp (Some "META") (Re.Seq (Re.Lit "COCO_") (Re.Star Py.is_any))))
 (Re.Seq (Re.Grp (Some "LABEL") (Re.Rep 12 Py.is_digit)) Re.Eos).

(* ================================================================== *)
(** ** Labels and the synset service *)

(** A label is a synset string, a COCO integer id, or what the synset
    service answered (a string). *)
Inductive LabelId : Type :=
| LStr (s : string)
| LInt (n : Z).

Global Instance LabelId_eq_dec : EqDecision LabelId.
Proof. solve_decision. Defined.

Global Instance LabelId_countable : Countable LabelId.
Proof.
  refine (inj_countable'
            (fun l => match l with LStr s => inl s | LInt n => inr n end)
            (fun x => match x with inl s => LStr s | inr n => LInt n end) _).
  intros []; reflexivity.
Defined.

(** [synset_offset(term, hint)] of a [Synsetizer] object. *)
Definition Synsetizer : Type := string -> string -> result string.

(* ================================================================== *)
(** ** guess_phase *)

(** [any(name in s.lower() for name in _valid_phases)] *)
Definition names_phase (s : string) : bool :=
  existsb (fun name => Py.contains name (Py.lower s)) _valid_phases.

(** The elements the two guessing loops walk through:
    [reversed(path.replace("\\", "/").split("/"))]. *)
Definition elements (path : string) : list string :=
  rev (Py.split "/" (Py.replace "\" "/" path)).

Fixpoint guess_phase_loop (elems : list string) : string :=
  match elems with
  | [] => EmptyString
  | elem :: rest =>
      if negb (Py.truthy elem) then guess_phase_loop rest
      else if names_phase elem then elem
      else guess_phase_loop rest
  end.

Definition guess_phase (path : string) : string :=
  guess_phase_loop (elements path).

(* ================================================================== *)
(** ** guess_label *)

Definition LabelInfo : Type := LabelId * string * string.

(** [a + b] where [b] may be [None] *)
Definition str_add (a : string) (b : option string) : result string :=
  match b with
  | Some b' => Ok (a +:+ b')
  | None => Raise TypeError
  end.

(** [s or ''] for an optional string *)
Definition or_empty (s : option string) : string :=
  match s with
  | Some v => if Py.truthy v then v else EmptyString
  | None => EmptyString
  end.

(** What the body of the first loop does on an element the synset pattern
    matched with groups [m]. *)
Definition synset_result (m : Re.groups) : result LabelInfo :=
  let label := default EmptyString (Re.group "LABEL" m) in
  do sum <- str_add label (Re.group "EXT" m);
  let full_label := or_empty (Some sum) in
  Ok (LStr label, full_label, "IN_" +:+ or_empty (Re.group "META" m)).

(** The first loop: [None] when it ends without returning. *)
Fixpoint synset_loop (elems : list string) : option (result LabelInfo) :=
  match elems with
  | [] => None
  | elem :: rest =>
      if negb (Py.truthy elem) then synset_loop rest
      else
        match Re.match_ _synset_label_pattern elem with
        | Some m => Some (synset_result m)
        | None => synset_loop rest
        end
  end.

Section Labels.
Variable _syn_cache : option Synsetizer.

(** [_syn_cache.synset_offset(term, hint)] *)
Definition synset_offset (term hint : string) : result string :=
  match _syn_cache with
  | Some syn => syn term hint
  | None => Raise AttributeError
  end.

Definition guess_label (path : string) : result LabelInfo :=
  match synset_loop (elements path) with
  | Some r => r
  | None =>
      let elem := fst (OsPath.splitext (OsPath.basename path)) in
      match Re.match_ _coco_label_pattern elem with
      | Some m =>
          let label := default EmptyString (Re.group "LABEL" m) in
          let full_label := label in
          do n <- Py.int label;
          Ok (LInt n, full_label, "COCO_" +:+ or_empty (Re.group "META" m))
      | None =>
          (* use the immediate directory as label *)
          let parent := OsPath.dirname path in
          do label <- synset_offset (OsPath.basename parent) (OsPath.basename elem);
          Ok (LStr label, label, label)
      end
  end.
End Labels.

(* ================================================================== *)
(** ** The outside world

    What the script asks of the operating system and of the libraries it
    imports.  A [World] is the state of the file system. *)

(** One entry of the [annotations] array of a COCO file. *)
Record CocoAnnotation : Type := {
  ann_image_id : Z;
  ann_category_id : Z;
  ann_bbox : list Z
}.

(** One entry of the [categories] array of a COCO file. *)
Record CocoCategory : Type := {
  cat_id : Z;
  cat_name : string;
  cat_supercategory : string
}.

Record CocoContent : Type := {
  annotations_of : list CocoAnnotation;
  categories_of : list CocoCategory
}.

(** One [object] element of a VOC file: the text of its [name], what
    [int(obj.find('difficult').text)] gives, and for each [bndbox] what
    reading [xmin, ymin, xmax, ymax] as integers gives.  The last two are
    only evaluated when the loop of [get_xml_rects] reaches them. *)
Record VocObject : Type := {
  obj_name : string;
  obj_difficult : result Z;
  obj_bndboxes : list (result (list Z))
}.

Class OS (World : Type) : Type := {
  (** [os.path.isdir] *)
  isdir : World -> string -> bool;
  (** [os.path.exists] *)
  path_exists : World -> string -> bool;
  (** [os.listdir] *)
  listdir : World -> string -> result (list string);
  (** [os.getcwd], which [os.path.abspath] consults *)
  getcwd : World -> string;
  (** [makedirs(name, exist_ok=True)] *)
  makedirs : World -> string -> result World;
  (** [os.remove] *)
  remove : World -> string -> result World;
  (** the member names of [tarfile.open(path).getmembers()] *)
  tar_getmembers : World -> string -> result (list string);
  (** [tarfile.open(path).extractall(dest)] *)
  tar_extractall : World -> string -> string -> result World;
  (** [ZipFile(path).extractall(dest)] *)
  zip_extractall : World -> string -> string -> result World;
  (** [json.load(open(path))] of a file of the COCO format, one in which
      the keys and integers that lines 258-266 read are there.  On any
      other file [get_coco_bboxes] raises at one of those lines; the model
      has [Raise] for it here. *)
  json_load : World -> string -> result CocoContent;
  (** [ElementTree.parse(path).findall('object')] *)
  xml_objects : World -> string -> result (list VocObject)
}.

(* ================================================================== *)
(** ** gather_images *)

(** An entry of [imagedata]: the tuple [(s0, label, full_label, meta)]. *)
Record ImageRecord : Type := {
  img_path : string;
  img_label : LabelId;
  img_full_label : string;
  img_meta : string
}.

(** [imagedata]: a dict from phase names to lists, in insertion order. *)
Definition ImageData : Type := list (string * list ImageRecord).

(** [max_keep_per_label] comes from [argparse] with [type=float]. *)
Inductive pyfloat : Type :=
| Finite (q : Q)
| PosInf
| NegInf
| NaN.

(** [n >= x] for an [int] and a [float] *)
Definition int_ge (n : Z) (x : pyfloat) : bool :=
  match x with
  | Finite q => Qle_bool q (inject_Z n)
  | PosInf => false
  | NegInf => true
  | NaN => false
  end.

Record GatherState : Type := {
  imagedata : ImageData;
  counts : gmap LabelId Z;
  printed : list string
}.

(** [imagedata[phase].append(r)] when the key is there, and
    [imagedata[phase] = [r]] (a new last key) when it is not. *)
Fixpoint add_image (phase : string) (r : ImageRecord) (d : ImageData) : ImageData :=
  match d with
  | [] => [(phase, [r])]
  | (k, v) :: d' =>
      if String.eqb k phase then (k, v ++ [r]) :: d'
      else (k, v) :: add_image phase r d'
  end.

(** The loop [for phase in imagedata.keys(): for name in _valid_phases: ...]:
    the [break] leaves the inner loop only, so [phase] ends as the last key,
    or keeps its value when there is no key. *)
Fixpoint assume_loop (keys : list string) (phase : string) : string :=
  match keys with
  | [] => phase
  | key :: rest =>
      let _broke := names_phase key in
      assume_loop rest key
  end.

Definition assumed_message (phase s0 : string) : string :=
  "Phase " +:+ phase +:+ " was assumed when processing " +:+ s0.

(** Lines 208-213: [None] is the [continue] of a label at its cap. *)
Definition count_label (label : LabelId) (cap : pyfloat) (c : gmap LabelId Z)
  : option (gmap LabelId Z) :=
  match c !! label with
  | None => Some (<[label := 1%Z]> c)
  | Some n =>
      if int_ge n cap then None
      else Some (<[label := (n + 1)%Z]> c)
  end.

(** Lines 215-227, for an image that is kept. *)
Definition place_image (s0 phase : string) (info : LabelInfo) (st : GatherState)
  (c : gmap LabelId Z) : GatherState :=
  let '(label, full_label, meta) := info in
  let r := {| img_path := s0; img_label := label;
              img_full_label := full_label; img_meta := meta |} in
  if negb (Py.truthy phase) then
    let phase1 := assume_loop (map fst (imagedata st)) phase in
    let phase2 := if negb (Py.truthy phase1) then "training" else phase1 in
    {| imagedata := add_image phase2 r (imagedata st);
       counts := c;
       printed := printed st ++ [assumed_message phase2 s0] |}
  else
    {| imagedata := add_image phase r (imagedata st);
       counts := c;
       printed := printed st |}.

(** [s0.startswith(".") or s0.startswith("$")]: hidden files and
    directories. *)
Definition hidden (s0 : string) : bool :=
  Py.startswith s0 "." || Py.startswith s0 "$".

(** [os.path.splitext(s0)[1].lower() in _valid_extensions] *)
Definition has_valid_extension (s0 : string) : bool :=
  let file_extension := snd (OsPath.splitext s0) in
  existsb (String.eqb (Py.lower file_extension)) _valid_extensions.

Section Gathering.
Context {World : Type} {os : OS World}.
Variable _syn_cache : option Synsetizer.
Variable w : World.

(** Lines 202-227: the body of the loop for an entry that is not a
    directory. *)
Definition gather_file (s0 phase : string) (cap : pyfloat) (st : GatherState)
  : result GatherState :=
  if negb (has_valid_extension s0) then Ok st
  else
    do info <- guess_label _syn_cache s0;
    match count_label (fst (fst info)) cap (counts st) with
    | None => Ok st
    | Some c => Ok (place_image s0 phase info st c)
    end.

(** The loop over [os.listdir(root_path)]; [recurse] is the recursive
    call. *)
Fixpoint gather_loop (recurse : string -> GatherState -> result GatherState)
  (root_path : string) (names : list string) (cap : pyfloat)
  (st : GatherState) : result GatherState :=
  match names with
  | [] => Ok st
  | s0 :: rest =>
      if hidden s0 then gather_loop recurse root_path rest cap st
      else
        let s0 := OsPath.join root_path s0 in
        let phase := guess_phase s0 in
        do st' <- (if isdir w s0 then recurse s0 st
                   else gather_file s0 phase cap st);
        gather_loop recurse root_path rest cap st'
  end.

(** [gather_images(root_path, imagedata, counts, max_keep_per_label)];
    [depth] is the number of nested calls the interpreter still allows. *)
Fixpoint gather_images (depth : nat) (root_path : string) (cap : pyfloat)
  (st : GatherState) : result GatherState :=
  match depth with
  | O => Raise RecursionError
  | S depth' =>
      do names <- listdir w root_path;
      gather_loop (fun s0 st' => gather_images depth' s0 cap st')
        root_path names cap st
  end.
End Gathering.

(* ================================================================== *)
(** ** Path normalisation, as [is_within_directory] uses it *)

Module AbsPath.

(** The loop of [posixpath.normpath]; [stack] is [new_comps], last
    component first. *)
Fixpoint norm_loop (rooted : bool) (comps stack : list string) : list string :=
  match comps with
  | [] => stack
  | comp :: rest =>
      if String.eqb comp "" || String.eqb comp "." then
        norm_loop rooted rest stack
      else if negb (String.eqb comp "..")
              || (negb rooted && match stack with [] => true | _ => false end)
              || match stack with top :: _ => String.eqb top ".." | [] => false end
      then norm_loop rooted rest (comp :: stack)
      else
        match stack with
        | _ :: stack' => norm_loop rooted rest stack'
        | [] => norm_loop rooted rest stack
        end
  end.

(** [os.path.normpath] *)
Definition normpath (path : string) : string :=
  if negb (Py.truthy path) then "."
  else
    let initial_slashes :=
      if Py.startswith path "/" then
        if Py.startswith path "//" && negb (Py.startswith path "///")
        then "//" else "/"
      else "" in
    let comps := rev (norm_loop (Py.truthy initial_slashes)
                        (Py.split "/" path) []) in
    let joined := initial_slashes +:+ String.concat "/" comps in
    if Py.truthy joined then joined else ".".

(** [os.path.abspath], with the current directory [cwd] *)
Definition abspath (cwd path : string) : string :=
  if Py.startswith path "/" then normpath path
  else normpath (OsPath.join cwd path).

(** [os.path.commonprefix([a, b])]: character by character. *)
Fixpoint commonprefix (a b : string) : string :=
  match a, b with
  | String x a', String y b' =>
      if Ascii.eqb x y then String x (commonprefix a' b') else EmptyString
  | _, _ => EmptyString
  end.

End AbsPath.

(* ================================================================== *)
(** ** Generators

    [listarchive] is a generator.  A [Gen] is everything one call can still
    do: end, yield a path and go on when asked again, or raise.  Each
    [Yield] keeps the world as it is at that moment; the consumers of the
    script only read files between two resumptions. *)

Inductive Gen (World : Type) : Type :=
| Done (w : World)
| Yield (path : string) (w : World) (rest : Gen World)
| Throw (e : exn).
Arguments Done {World} w.
Arguments Yield {World} path w rest.
Arguments Throw {World} e.

(** What follows a generator that ended. *)
Fixpoint gen_then {World} (g : Gen World) (k : World -> Gen World) : Gen World :=
  match g with
  | Done w => k w
  | Yield p w rest => Yield p w (gen_then rest k)
  | Throw e => Throw e
  end.

(** [for s0 in names: for sub_path in f(s0): yield sub_path] *)
Fixpoint gen_each {World} (f : World -> string -> Gen World)
  (names : list string) (w : World) : Gen World :=
  match names with
  | [] => Done w
  | s0 :: rest => gen_then (f w s0) (gen_each f rest)
  end.

(** All the paths of a generator run to its end. *)
Fixpoint yielded {World} (g : Gen World) : list string :=
  match g with
  | Yield p _ rest => p :: yielded rest
  | _ => []
  end.

(** How a generator run to its end finishes. *)
Fixpoint outcome {World} (g : Gen World) : result World :=
  match g with
  | Done w => Ok w
  | Yield _ _ rest => outcome rest
  | Throw e => Raise e
  end.

(** A list comprehension [[s0 for s0 in names if f(s0)]] whose test may
    raise. *)
Fixpoint filter_raising (f : string -> result bool) (names : list string)
  : result (list string) :=
  match names with
  | [] => Ok []
  | s0 :: rest =>
      do keep <- f s0;
      do rest' <- filter_raising f rest;
      Ok (if keep then s0 :: rest' else rest')
  end.

(* ================================================================== *)
(** ** listarchive *)

(** The loop [while '.' in shortname: ...] that builds the compound
    extension.  [None]: the loop never ends, which happens when
    [splitext] has nothing to peel off a name whose dots are all leading
    ones. *)
Fixpoint peel_ext (n : nat) (shortname ext : string) : option string :=
  if Py.contains "." shortname then
    match n with
    | O => None
    | S n' =>
        let '(shortname', shortext) := OsPath.splitext shortname in
        if Py.truthy shortext then peel_ext n' shortname' (shortext +:+ ext)
        else None
    end
  else Some ext.

Definition compound_ext (basename ext : string) : option string :=
  peel_ext (String.length basename) basename ext.

Definition archive_exts : list string := [".tar"; ".tar.gz"; ".zip"].

Definition path_traversal : exn :=
  PyException "Attempted Path Traversal in Tar File".

Section Archives.
Context {World : Type} {os : OS World}.

(** [is_within_directory(directory, target)] *)
Definition is_within_directory (w : World) (directory target : string) : bool :=
  let abs_directory := AbsPath.abspath (getcwd w) directory in
  let abs_target := AbsPath.abspath (getcwd w) target in
  let prefix := AbsPath.commonprefix abs_directory abs_target in
  String.eqb prefix abs_directory.

(** The checking loop of [safe_extract]. *)
Fixpoint check_members (w : World) (path : string) (members : list string)
  : result unit :=
  match members with
  | [] => Ok tt
  | name :: rest =>
      let member_path := OsPath.join path name in
      if negb (is_within_directory w path member_path)
      then Raise path_traversal
      else check_members w path rest
  end.

(** [safe_extract(tar, path)] for the archive at [archive] *)
Definition safe_extract (w : World) (archive path : string) : result World :=
  do members <- tar_getmembers w archive;
  do _ <- check_members w path members;
  tar_extractall w archive path.

(** Lines 98-123: make the directory and unpack the archive into it. *)
Definition extract (w : World) (path ext extracted_path : string) : result World :=
  do w1 <- makedirs w extracted_path;
  if existsb (String.eqb ext) [".tar"; ".tar.gz"] then
    safe_extract w1 path extracted_path
  else if existsb (String.eqb ext) [".zip"] then
    zip_extractall w1 path extracted_path
  else Ok w1.

Definition lift {A} (r : result A) (k : A -> Gen World) : Gen World :=
  match r with
  | Ok a => k a
  | Raise e => Throw e
  end.

(** Lines 58-67: the entries to visit and the filter to hand down. *)
Definition select (filter_func : option (string -> result bool))
  (names : list string)
  : result (list string * option (string -> result bool)) :=
  let sub_paths := List.filter (fun s0 => negb (hidden s0)) names in
  match filter_func with
  | Some f =>
      do filtered <- filter_raising f sub_paths;
      match filtered with
      | _ :: _ => Ok (filtered, None)   (* once matched, recurse all the way *)
      | [] =>
          if Nat.ltb 1 (length sub_paths)
          then Ok ([], filter_func)      (* more than one item, none matching *)
          else Ok (sub_paths, filter_func)
      end
  | None => Ok (sub_paths, filter_func)
  end.

(** [listarchive(path, is_root, extension_pattern, filter_func)];
    [depth] is the number of nested calls the interpreter still allows. *)
Fixpoint listarchive (depth : nat) (w : World) (path : string) (is_root : bool)
  (extension_pattern : Re.regex)
  (filter_func : option (string -> result bool)) : Gen World :=
  match depth with
  | O => Throw RecursionError
  | S depth' =>
      if isdir w path then
        lift (listdir w path) (fun names =>
        lift (select filter_func names) (fun '(sub_paths, new_filter_func) =>
        gen_each (fun w' s0 =>
                    listarchive depth' w' (OsPath.join path s0) false
                      extension_pattern new_filter_func)
                 sub_paths w))
      else
        let '(local_path, fname) := OsPath.split path in
        let '(basename, ext0) := OsPath.splitext fname in
        match compound_ext basename (Py.lower ext0) with
        | None => Throw Diverges
        | Some ext =>
            if negb (existsb (String.eqb ext) archive_exts) then
              match Re.match_icase extension_pattern ext with
              | Some _ => Yield path w (Done w)
              | None => Done w
              end
            else
              let extracted_path :=
                OsPath.join local_path ("extracted_" +:+ basename) in
              if path_exists w extracted_path then
                listarchive depth' w extracted_path false
                  extension_pattern filter_func
              else
                (* extract if not yet extracted *)
                lift (extract w path ext extracted_path) (fun w1 =>
                gen_then
                  (listarchive depth' w1 extracted_path false
                     extension_pattern filter_func)
                  (fun w2 =>
                     (* remove intermediate extracted archives *)
                     if negb is_root then lift (remove w2 path) Done
                     else Done w2))
        end
  end.
End Archives.

(* ================================================================== *)
(** ** Boxes *)

(** The dict [{'class': label, 'rect': rect}]. *)
Record Box : Type := {
  box_class : LabelId;
  box_rect : list Z
}.

(** [str(n)] *)
Definition str_of_Z (n : Z) : string := pretty n.

(** A label as [str.format] shows it. *)
Definition show_label (label : LabelId) : string :=
  match label with
  | LStr s => s
  | LInt n => str_of_Z n
  end.

Definition dquote : string := String (ascii_of_nat 34) EmptyString.
Definition tab : string := String (ascii_of_nat 9) EmptyString.
Definition newline : string := String (ascii_of_nat 10) EmptyString.

(** [bbox[i] += bbox[j] - 1] *)
Definition add_at (i j : nat) (bbox : list Z) : result (list Z) :=
  match bbox !! i, bbox !! j with
  | Some a, Some b => Ok (<[i := (a + (b - 1))%Z]> bbox)
  | _, _ => Raise IndexError
  end.

(** Lines 269-270: from [x, y, w, h] to the rect, in place. *)
Definition to_rect (bbox : list Z) : result (list Z) :=
  do bbox1 <- add_at 2 0 bbox;
  add_at 3 1 bbox1.

(** Lines 271-274 *)
Definition add_box (image_id : Z) (b : Box) (bboxes : gmap Z (list Box))
  : gmap Z (list Box) :=
  match bboxes !! image_id with
  | None => <[image_id := [b]]> bboxes
  | Some l => <[image_id := l ++ [b]]> bboxes
  end.

(** The dict comprehension of line 259. *)
Definition category_table (cats : list CocoCategory) : gmap Z (string * string) :=
  fold_left (fun m cat => <[cat_id cat := (cat_name cat, cat_supercategory cat)]> m)
    cats ∅.

Section Boxes.
Context {World : Type} {os : OS World}.
Variable _syn_cache : option Synsetizer.

(** The loop of [get_coco_bboxes] over the annotations. *)
Fixpoint coco_loop (categories : gmap Z (string * string))
  (anns : list CocoAnnotation) (bboxes : gmap Z (list Box))
  : result (gmap Z (list Box)) :=
  match anns with
  | [] => Ok bboxes
  | ann :: rest =>
      let image_id := ann_image_id ann in
      let cat_id := ann_category_id ann in
      match categories !! cat_id with
      | None => Raise KeyError
      | Some (name, parent) =>
          do label <- synset_offset _syn_cache name parent;
          do bbox <- to_rect (ann_bbox ann);
          coco_loop categories rest
            (add_box image_id {| box_class := LStr label; box_rect := bbox |} bboxes)
      end
  end.

(** [get_coco_bboxes(path)] *)
Definition get_coco_bboxes (w : World) (path : string)
  : result (gmap Z (list Box)) :=
  do content <- json_load w path;
  coco_loop (category_table (categories_of content)) (annotations_of content) ∅.

(** [name != label] for the text of a [name] element *)
Definition name_differs (name : string) (label : LabelId) : bool :=
  match label with
  | LStr s => negb (String.eqb name s)
  | LInt _ => true
  end.

Fixpoint all_ok {A} (l : list (result A)) : result (list A) :=
  match l with
  | [] => Ok []
  | r :: rest => do a <- r; do rest' <- all_ok rest; Ok (a :: rest')
  end.

(** The loop of [get_xml_rects]: the rects and the lines printed. *)
Fixpoint xml_loop (path : string) (label : LabelId) (objs : list VocObject)
  (rects : list (list Z)) (out : list string)
  : result (list (list Z) * list string) :=
  match objs with
  | [] => Ok (rects, out)
  | obj :: rest =>
      let name := obj_name obj in
      if name_differs name label then
        xml_loop path label rest rects
          (out ++ ["Ignore label " +:+ dquote +:+ name +:+ dquote +:+ " != "
                     +:+ show_label label +:+ " in " +:+ path])
      else
        do diff <- obj_difficult obj;
        if negb (Z.eqb diff 0) then
          xml_loop path label rest rects
            (out ++ ["Ignore difficult label " +:+ dquote +:+ show_label label
                       +:+ dquote +:+ " in " +:+ path])
        else
          do boxes <- all_ok (obj_bndboxes obj);
          xml_loop path label rest (rects ++ boxes) out
  end.

(** [get_xml_rects(path, label)] *)
Definition get_xml_rects (w : World) (path : string) (label : LabelId)
  : result (list (list Z) * list string) :=
  do objs <- xml_objects w path;
  xml_loop path label objs [] [].

(** ** get_boxes *)

(** What a [for] loop over a generator finds: the first path its test
    accepts, nothing, or the exception of the generator. *)
Inductive Scan : Type :=
| Hit (path : string) (w : World)
| Miss (w : World)
| Fail (e : exn).

Fixpoint scan (test : string -> bool) (g : Gen World) : Scan :=
  match g with
  | Done w => Miss w
  | Yield path w rest => if test path then Hit path w else scan test rest
  | Throw e => Fail e
  end.

(** [for ann_path in annotations: for path in listarchive(ann_path, ...)]
    up to the first path the test accepts. *)
Fixpoint scan_sources (depth : nat) (extension_pattern : Re.regex)
  (filter_func : option (string -> result bool)) (test : string -> bool)
  (annotations : list string) (w : World) : Scan :=
  match annotations with
  | [] => Miss w
  | ann_path :: rest =>
      match scan test (listarchive depth w ann_path true
                         extension_pattern filter_func) with
      | Hit path w' => Hit path w'
      | Miss w' => scan_sources depth extension_pattern filter_func test rest w'
      | Fail e => Fail e
      end
  end.

(** [label in elem] for a string [elem] *)
Definition label_in (label : LabelId) (elem : string) : result bool :=
  match label with
  | LStr s => Ok (Py.contains s elem)
  | LInt _ => Raise TypeError
  end.

(** [voc_ann_filter]; it returns [True] or [None]. *)
Definition voc_ann_filter (label : LabelId) (elem : string) : result bool :=
  label_in label elem.

(** [label in phase_cache[fname]] and [phase_cache[fname][label]] *)
Definition boxes_of (label : LabelId) (bboxes : gmap Z (list Box))
  : option (list Box) :=
  match label with
  | LInt n => bboxes !! n
  | LStr _ => None
  end.

Definition wordnet_not_found : exn := PyException "Wordnet not found.".

Record BoxesResult : Type := {
  boxes : list Box;
  cache_after : gmap string (gmap Z (list Box));
  world_after : World;
  lines : list string
}.

(** The test of line 297. *)
Definition is_instances_of (phase path : string) : bool :=
  let fname := OsPath.basename path in
  Py.contains "instances" fname && Py.contains phase fname.

(** The test of line 312. *)
Definition is_annotation_of (full_label path : string) : bool :=
  Py.startswith (OsPath.basename path) full_label.

(** Lines 305-316: the search for a VOC file and the full-image box. *)
Definition voc_boxes (depth : nat) (full_label : string) (label : LabelId)
  (annotations : list string)
  (phase_cache : gmap string (gmap Z (list Box))) (w : World)
  : result BoxesResult :=
  match scan_sources depth (Re.Lit ".xml") (Some (voc_ann_filter label))
          (is_annotation_of full_label) annotations w with
  | Hit path w' =>
      do found <- get_xml_rects w' path label;
      Ok {| boxes := map (fun rect => {| box_class := label; box_rect := rect |})
                       (fst found);
            cache_after := phase_cache; world_after := w';
            lines := snd found |}
  | Miss w' =>
      (* full image as a box *)
      Ok {| boxes := [{| box_class := label; box_rect := [0; 0; 0; 0]%Z |}];
            cache_after := phase_cache; world_after := w'; lines := [] |}
  | Fail e => Raise e
  end.

(** [get_boxes(phase, full_label, label, meta, annotations, phase_cache)] *)
Definition get_boxes (depth : nat) (phase full_label : string)
  (label : LabelId) (meta : string) (annotations : list string)
  (phase_cache : gmap string (gmap Z (list Box))) (w : World)
  : result BoxesResult :=
  if Py.startswith meta "COCO_" then
    match _syn_cache with
    | None => Raise wordnet_not_found
    | Some _ =>
        match scan_sources depth (Re.Lit ".json") None
                (is_instances_of phase) annotations w with
        | Hit path w' =>
            let fname := OsPath.basename path in
            do cache' <- match phase_cache !! fname with
                         | Some _ => Ok phase_cache
                         | None =>
                             do parsed <- get_coco_bboxes w' path;
                             Ok (<[fname := parsed]> phase_cache)
                         end;
            match boxes_of label (default ∅ (cache' !! fname)) with
            | None =>
                (* COCO needs category id from the annotation file *)
                Ok {| boxes := []; cache_after := cache';
                      world_after := w'; lines := [] |}
            | Some bs =>
                Ok {| boxes := bs; cache_after := cache';
                      world_after := w'; lines := [] |}
            end
        | Miss w' => voc_boxes depth full_label label annotations phase_cache w'
        | Fail e => Raise e
        end
    end
  else voc_boxes depth full_label label annotations phase_cache w.
End Boxes.

(* ================================================================== *)
(** ** main: the emitting loops

    [json.dumps] and [os.path.relpath] are library functions; the two
    files of a phase are the texts written to them. *)

Section Main.
Context {World : Type} {os : OS World}.
Variable _syn_cache : option Synsetizer.
Variable json_dumps : list Box -> string.
Variable relpath : string -> string -> string.

(** What the loop over the images of one phase carries along. *)
Record Emit : Type := {
  tsv_file : string;
  idx_file : string;
  phase_cache : gmap string (gmap Z (list Box));
  world : World;
  stdout : list string
}.

(** Lines 356-363: the body of the loop for one image. *)
Definition emit_image (depth : nat) (root_path phase : string)
  (annotation : list string) (v : ImageRecord) (e : Emit) : result Emit :=
  let path := img_path v in
  let label := img_label v in
  let full_label := img_full_label v in
  let meta := img_meta v in
  let rel := Py.replace "\" "/" (relpath path root_path) in
  do r <- get_boxes _syn_cache depth phase full_label label meta annotation
            (phase_cache e) (world e);
  match boxes r with
  | [] =>
      Ok {| tsv_file := tsv_file e; idx_file := idx_file e;
            phase_cache := cache_after r; world := world_after r;
            stdout := stdout e ++ lines r ++ ["No annotation for " +:+ path] |}
  | _ :: _ =>
      Ok {| tsv_file := tsv_file e +:+ full_label +:+ tab
                          +:+ json_dumps (boxes r) +:+ tab +:+ rel +:+ newline;
            idx_file := idx_file e
                          +:+ str_of_Z (Z.of_nat (String.length (tsv_file e)))
                          +:+ newline;
            phase_cache := cache_after r; world := world_after r;
            stdout := stdout e ++ lines r |}
  end.

Fixpoint emit_images (depth : nat) (root_path phase : string)
  (annotation : list string) (vs : list ImageRecord) (e : Emit) : result Emit :=
  match vs with
  | [] => Ok e
  | v :: rest =>
      do e' <- emit_image depth root_path phase annotation v e;
      emit_images depth root_path phase annotation rest e'
  end.

(** The files of one phase: its name, the TSV text, the line index. *)
Definition PhaseFiles : Type := string * string * string.

Record Run : Type := {
  files : list PhaseFiles;
  run_world : World;
  run_stdout : list string
}.

(** Lines 349-363: the loop over the phases. *)
Fixpoint emit_phases (depth : nat) (root_path : string) (multi_phase : bool)
  (annotation : list string) (images : ImageData) (r : Run) : result Run :=
  match images with
  | [] => Ok r
  | (phase, vs) :: rest =>
      let out := if multi_phase then run_stdout r ++ ["Phase: " +:+ phase]
                 else run_stdout r in
      do e <- emit_images depth root_path phase annotation vs
                {| tsv_file := EmptyString; idx_file := EmptyString;
                   phase_cache := ∅; world := run_world r; stdout := out |};
      emit_phases depth root_path multi_phase annotation rest
        {| files := files r ++ [(phase, tsv_file e, idx_file e)];
           run_world := world e; run_stdout := stdout e |}
  end.

Definition empty_state : GatherState :=
  {| imagedata := []; counts := ∅; printed := [] |}.

(** [main()] after the arguments are parsed: the files written, and the
    pair [(images, counts)] it returns. *)
Definition main (depth : nat) (w : World) (root_path : string)
  (max_keep_per_label : pyfloat) (annotation : list string)
  : result (Run * (ImageData * gmap LabelId Z)) :=
  do st <- gather_images _syn_cache w depth root_path max_keep_per_label
             empty_state;
  let images := imagedata st in
  let multi_phase := Nat.ltb 1 (length images) in
  do r <- emit_phases depth root_path multi_phase annotation images
            {| files := []; run_world := w; run_stdout := printed st |};
  Ok (r, (images, counts st)).
End Main.

(* ================================================================== *)
(** ** A small world to run the script in

    A file system as a table from paths to nodes, with the classic
    behaviour of the archive libraries: each member is written where
    [os.path.join(dest, name)] resolves. *)

Module Demo.

Inductive Node : Type :=
| Dir (names : list string)
| File
| Tar (members : list string)
| Zip (members : list string)
| Json (content : CocoContent)
| Xml (objs : list VocObject).

Definition FS : Type := list (string * Node).

Fixpoint find (p : string) (fs : FS) : option Node :=
  match fs with
  | [] => None
  | (q, n) :: fs' => if String.eqb q p then Some n else find p fs'
  end.

(** [extractall] of this file system: every member becomes a file where
    the joined path resolves, with no check of the member names, and the
    destination lists the members that have no directory part. *)
Definition unpack (fs : FS) (dest : string) (members : list string) : FS :=
  List.filter (fun kv => negb (String.eqb (fst kv) dest)) fs
    ++ (dest, Dir (List.filter (fun m => negb (Py.contains "/" m)) members))
    :: map (fun m => (AbsPath.normpath (OsPath.join dest m), File)) members.

Global Instance os : OS FS := {|
  isdir fs p := match find p fs with Some (Dir _) => true | _ => false end;
  path_exists fs p := match find p fs with Some _ => true | None => false end;
  listdir fs p :=
    match find p fs with Some (Dir names) => Ok names | _ => Raise OSError end;
  getcwd _ := "/";
  makedirs fs p :=
    match find p fs with
    | Some (Dir _) => Ok fs
    | Some _ => Raise OSError
    | None => Ok (fs ++ [(p, Dir [])])
    end;
  remove fs p :=
    match find p fs with
    | Some (Dir _) | None => Raise OSError
    | Some _ => Ok (List.filter (fun kv => negb (String.eqb (fst kv) p)) fs)
    end;
  tar_getmembers fs p :=
    match find p fs with Some (Tar ms) => Ok ms | _ => Raise OSError end;
  tar_extractall fs p dest :=
    match find p fs with
    | Some (Tar ms) => Ok (unpack fs dest ms)
    | _ => Raise OSError
    end;
  zip_extractall fs p dest :=
    match find p fs with
    | Some (Zip ms) => Ok (unpack fs dest ms)
    | _ => Raise OSError
    end;
  json_load fs p :=
    match find p fs with Some (Json c) => Ok c | _ => Raise OSError end;
  xml_objects fs p :=
    match find p fs with Some (Xml objs) => Ok objs | _ => Raise OSError end
|}.

(** A synset service that answers with the term it is asked about. *)
Definition syn : Synsetizer := fun term _ => Ok ("syn:" +:+ term).

(** Five images of one synset in one directory. *)
Definition five : list string :=
  ["n00000001_1.jpg"; "n00000001_2.jpg"; "n00000001_3.jpg";
   "n00000001_4.jpg"; "n00000001_5.jpg"].

(** One synset under two phases. *)
Definition two_phases : FS :=
  [("/data", Dir ["train"; "val"]);
   ("/data/train", Dir ["n00000001_1.jpg"]);
   ("/data/val", Dir ["n00000001_2.jpg"])].

(** A COCO annotation file with boxes for image 1 only. *)
Definition instances : CocoContent :=
  {| annotations_of :=
       [{| ann_image_id := 1; ann_category_id := 7;
           ann_bbox := [10; 20; 30; 40]%Z |}];
     categories_of :=
       [{| cat_id := 7; cat_name := "cheese"; cat_supercategory := "food" |}] |}.

Definition coco_world : FS :=
  [("/ann", Dir ["instances_train2017.json"; "captions_train2017.json"]);
   ("/ann/instances_train2017.json", Json instances);
   ("/ann/captions_train2017.json", Json instances);
   ("/voc", Dir [])].

(** An archive with a member that names a sibling of the destination. *)
Definition evil_member : string := "../extracted_a_evil/x".

Definition evil_world : FS :=
  [("/data", Dir ["a.tar"]); ("/data/a.tar", Tar [evil_member])].

(** A directory of VOC annotations, one subdirectory per synset. *)
Definition voc_world : FS :=
  [("/voc", Dir ["n00000001"; "n00000002"; ".git"]);
   ("/voc/n00000001", Dir ["n00000001_1.xml"; "n00000001_2.xml"]);
   ("/voc/n00000002", Dir ["n00000002_1.xml"]);
   ("/one", Dir ["Annotation"; ".cache"]);
   ("/one/Annotation", Dir ["n00000001"; "n00000002"]);
   ("/one/Annotation/n00000001", Dir ["n00000001_1.xml"]);
   ("/one/Annotation/n00000002", Dir ["n00000002_1.xml"])].

End Demo.

(* ================================================================== *)
(** ** Vocabulary of the statements *)

(** A component of a path that the synset pattern matches. *)
Definition synset_component (path elem : string) : Prop :=
  In elem (elements path) /\ is_Some (Re.match_ _synset_label_pattern elem).

(** All the keys of [imagedata] contain one of the phase tokens. *)
Definition keys_name_phases (d : ImageData) : Prop :=
  Forall (fun kv => names_phase (fst kv) = true) d.

(** The number of images kept, over all phases. *)
Definition image_count (d : ImageData) : nat :=
  list_sum (map (fun kv => length (snd kv)) d).

(** The paths of the images kept, phase after phase. *)
Definition kept_paths (d : ImageData) : list string :=
  concat (map (fun kv => map img_path (snd kv)) d).

(** The number of images of one label kept, over all phases. *)
Definition label_total (label : LabelId) (d : ImageData) : nat :=
  list_sum (map (fun kv =>
                   length (List.filter (fun r => bool_decide (img_label r = label))
                             (snd kv))) d).

(** [target] is [directory] itself or lies below it, component by
    component: what staying inside the destination means. *)
Definition inside (directory target : string) : bool :=
  String.eqb target directory || Py.startswith target (directory +:+ "/").

(** [name] is an image of [label] in the directory [root]: an entry that
    is not hidden, not a directory, has an image extension, and whose path
    resolves to that label. *)
Definition image_of {World : Type} {os : OS World}
  (_syn_cache : option Synsetizer) (w : World)
  (root : string) (label : LabelId) (name : string) : Prop :=
  hidden name = false
  /\ isdir w (OsPath.join root name) = false
  /\ has_valid_extension (OsPath.join root name) = true
  /\ exists full_label meta,
       guess_label _syn_cache (OsPath.join root name)
       = Ok (label, full_label, meta).


(** What the counter of a label must be when [n] of its images are kept. *)
Definition counter_for (n : nat) : option Z :=
  match n with
  | O => None
  | S _ => Some (Z.of_nat n)
  end.

(** Each counter is the number of images of its label kept over all the
    phases, and none exceeds the cap [c]. *)
Definition counters_are_totals (c : Z) (st : GatherState) : Prop :=
  forall label,
    counts st !! label = counter_for (label_total label (imagedata st))
    /\ (Z.of_nat (label_total label (imagedata st)) <= c)%Z.

(** What a regular expression may match: [Matches icase r s rest g g']
    says that [r] can consume [s] in front of [rest], taking the groups
    from [g] to [g'].  Priorities (greedy first) are not part of it. *)
Inductive Matches (icase : bool) :
  Re.regex -> string -> string -> Re.groups -> Re.groups -> Prop :=
| M_chr c a rest g :
    Re.same_char icase a c = true ->
    Matches icase (Re.Chr c) (String a EmptyString) rest g g
| M_cls (p : ascii -> bool) a rest g :
    p a = true ->
    Matches icase (Re.Cls p) (String a EmptyString) rest g g
| M_seq r1 r2 s1 s2 rest g g1 g2 :
    Matches icase r1 s1 (s2 +:+ rest) g g1 ->
    Matches icase r2 s2 rest g1 g2 ->
    Matches icase (Re.Seq r1 r2) (s1 +:+ s2) rest g g2
| M_opt_taken r s rest g g' :
    Matches icase r s rest g g' ->
    Matches icase (Re.Opt r) s rest g g'
| M_opt_skipped r rest g :
    Matches icase (Re.Opt r) EmptyString rest g g
| M_star (p : ascii -> bool) s rest g :
    Py.all_chars p s = true ->
    Matches icase (Re.Star p) s rest g g
| M_rep n (p : ascii -> bool) s rest g :
    String.length s = n ->
    Py.all_chars p s = true ->
    Matches icase (Re.Rep n p) s rest g g
| M_grp name r s rest g g' :
    Matches icase r s rest g g' ->
    Matches icase (Re.Grp name r) s rest g (Re.record name s g')
| M_eos rest g :
    rest = EmptyString \/ rest = String (ascii_of_nat 10) EmptyString ->
    Matches icase Re.Eos EmptyString rest g g.

(** Decimal digits only. *)
Definition all_digits (s : string) : Prop := Py.all_chars Py.is_digit s = true.

(** All the records of [imagedata], bucket after bucket. *)
Definition all_images (d : ImageData) : list ImageRecord :=
  concat (map snd d).

(** An image as gathering files it under [phase]: an image extension, the
    label, full label and meta that [guess_label] gives for its path, and
    the phase its path names, if it names one. *)
Definition filed_under (_syn_cache : option Synsetizer) (phase : string)
  (r : ImageRecord) : Prop :=
  has_valid_extension (img_path r) = true
  /\ guess_label _syn_cache (img_path r)
     = Ok (img_label r, img_full_label r, img_meta r)
  /\ (guess_phase (img_path r) = phase
      \/ guess_phase (img_path r) = EmptyString).

(** [b] continues [a]: every bucket of [a] is still there, with its images
    first and in the same order, the phases of [a] come first and in the
    same order, what was printed is still the beginning of the output, and
    no counter has gone down. *)
Definition continues (a b : GatherState) : Prop :=
  (forall phase rs, In (phase, rs) (imagedata a) ->
                    exists more, In (phase, rs ++ more) (imagedata b))
  /\ (exists new_phases,
         map fst (imagedata b) = map fst (imagedata a) ++ new_phases)
  /\ (exists out, printed b = printed a ++ out)
  /\ (forall label n, counts a !! label = Some n ->
                      exists n', counts b !! label = Some n' /\ (n <= n')%Z).

(** The buckets gathering builds: distinct phases, none without an image,
    every image filed as [filed_under] says. *)
Definition well_filed (_syn_cache : option Synsetizer) (st : GatherState)
  : Prop :=
  NoDup (map fst (imagedata st))
  /\ Forall (fun kv => snd kv <> []) (imagedata st)
  /\ forall phase rs r,
       In (phase, rs) (imagedata st) -> In r rs ->
       filed_under _syn_cache phase r.

(** The number of annotations of one image in a COCO file. *)
Definition count_image (id : Z) (anns : list CocoAnnotation) : nat :=
  length (List.filter (fun a => Z.eqb (ann_image_id a) id) anns).

(** The objects of a VOC file that [get_xml_rects] keeps for [label]: the
    name is the label and the difficult flag is zero. *)
Definition wanted (label : LabelId) (obj : VocObject) : bool :=
  negb (name_differs (obj_name obj) label)
  && match obj_difficult obj with
     | Ok d => Z.eqb d 0
     | Raise _ => false
     end.

(** The values of the results that are not exceptions. *)
Fixpoint oks {A : Type} (l : list (result A)) : list A :=
  match l with
  | [] => []
  | Ok a :: rest => a :: oks rest
  | Raise _ :: rest => oks rest
  end.

(** An object whose [difficult] and [bndbox] elements all read as
    integers. *)
Definition readable (obj : VocObject) : Prop :=
  (exists d, obj_difficult obj = Ok d)
  /\ Forall (fun b => exists rect, b = Ok rect) (obj_bndboxes obj).

(** A VOC file with three objects, reachable through a directory and
    given directly as an annotation source. *)
Definition cheese_objects : list VocObject :=
  [{| obj_name := "n00000001"; obj_difficult := Ok 0%Z;
      obj_bndboxes := [Ok [1; 2; 3; 4]%Z] |};
   {| obj_name := "n00000002"; obj_difficult := Ok 0%Z;
      obj_bndboxes := [Ok [5; 6; 7; 8]%Z] |};
   {| obj_name := "n00000001"; obj_difficult := Ok 1%Z;
      obj_bndboxes := [Ok [9; 9; 9; 9]%Z] |}].

Definition xml_world : Demo.FS :=
  [("/x", Demo.Dir ["n00000001_1.xml"]);
   ("/x/n00000001_1.xml", Demo.Xml cheese_objects);
   ("/y/000000000001.xml", Demo.Xml cheese_objects)].

(** The paths a generator yields, each with the world at that moment. *)
Fixpoint yields {World : Type} (g : Gen World) : list (string * World) :=
  match g with
  | Yield p w rest => (p, w) :: yields rest
  | _ => []
  end.

(** The compound extension [listarchive] computes for a path that is not
    a directory (lines 76-82); [None] when the loop does not end. *)
Definition file_extension (path : string) : option string :=
  let '(_, fname) := OsPath.split path in
  let '(basename, ext0) := OsPath.splitext fname in
  compound_ext basename (Py.lower ext0).

(** The test [is_within_directory] makes for one member, written on the
    two absolute paths. *)
Definition member_passes {World : Type} {os : OS World} (w : World)
  (path name : string) : bool :=
  String.prefix (AbsPath.abspath (getcwd w) path)
    (AbsPath.abspath (getcwd w) (OsPath.join path name)).

(** An archive with a harmless member and one that climbs out. *)
Definition traversal_world : Demo.FS :=
  [("/data/b.tar", Demo.Tar ["ok.txt"; "../../evil"])].

(** The text of a file made of [rows] written one after the other. *)
Fixpoint join_rows (rows : list string) : string :=
  match rows with
  | [] => EmptyString
  | row :: rest => row +:+ join_rows rest
  end.

(** Where each row starts in that text, the first one at [start]. *)
Fixpoint offsets (start : nat) (rows : list string) : list nat :=
  match rows with
  | [] => []
  | row :: rest => start :: offsets (start + String.length row) rest
  end.

(** The line index of given offsets: one decimal number per line. *)
Definition index_lines (offs : list nat) : string :=
  join_rows (map (fun o => str_of_Z (Z.of_nat o) +:+ newline) offs).

(** The two files of a phase agree: the TSV text is made of rows that end
    in a newline, and the line index lists where each of them starts. *)
Definition indexed (f : PhaseFiles) : Prop :=
  exists rows,
    snd (fst f) = join_rows rows
    /\ snd f = index_lines (offsets 0 rows)
    /\ Forall (fun row => exists body, row = body +:+ newline) rows.

(** A data set of one image with its VOC annotation. *)
Definition tiny_dataset : Demo.FS :=
  [("/data", Demo.Dir ["train"]);
   ("/data/train", Demo.Dir ["n00000001_1.jpg"]);
   ("/x", Demo.Dir ["n00000001_1.xml"]);
   ("/x/n00000001_1.xml", Demo.Xml cheese_objects)].

(** An entry that gathering looks at: not hidden, and a directory or a
    file with an image extension. *)
Definition looked_at {World : Type} {os : OS World} (w : World)
  (root_path s0 : string) : bool :=
  negb (hidden s0)
  && (isdir w (OsPath.join root_path s0)
      || has_valid_extension (OsPath.join root_path s0)).

(** An annotation that [get_coco_bboxes] can turn into a box: its category
    is in the table, the synset service answers for it, and its bbox has
    four elements or more. *)
Definition parsable (_syn_cache : option Synsetizer)
  (categories : gmap Z (string * string)) (ann : CocoAnnotation) : Prop :=
  (exists name parent label,
      categories !! ann_category_id ann = Some (name, parent)
      /\ synset_offset _syn_cache name parent = Ok label)
  /\ (4 <= length (ann_bbox ann))%nat.

(** [d'] is [d] with [r] filed under [phase]: at the end of the bucket
    of [phase] when [d] has that key, and in a new last bucket when it has
    not; nothing else changes. *)
Definition appended (phase : string) (r : ImageRecord) (d d' : ImageData)
  : Prop :=
  (~ In phase (map fst d) /\ d' = d ++ [(phase, [r])])
  \/ (exists before old after,
        d = before ++ (phase, old) :: after
        /\ ~ In phase (map fst before)
        /\ d' = before ++ (phase, old ++ [r]) :: after).

(** Annotation sources without any [.json] file: an empty directory and
    two VOC files given directly, the second named after image 6818. *)
Definition no_instances_world : Demo.FS :=
  [("/empty", Demo.Dir []);
   ("/y/n00000001_1.xml", Demo.Xml cheese_objects);
   ("/y/000000006818.xml", Demo.Xml cheese_objects)].

Definition no_instances_sources : list string :=
  ["/empty"; "/y/n00000001_1.xml"; "/y/000000006818.xml"].

(** A COCO file whose second annotation has a bbox of three numbers,
    between two annotations that are in order. *)
Definition short_bbox_instances : CocoContent :=
  {| annotations_of :=
       [{| ann_image_id := 1; ann_category_id := 7;
           ann_bbox := [10; 20; 30; 40]%Z |};
        {| ann_image_id := 2; ann_category_id := 7;
           ann_bbox := [10; 20; 30]%Z |};
        {| ann_image_id := 3; ann_category_id := 7;
           ann_bbox := [1; 2; 3; 4]%Z |}];
     categories_of :=
       [{| cat_id := 7; cat_name := "cheese"; cat_supercategory := "food" |}] |}.

Definition short_bbox_world : Demo.FS :=
  [("/ann/instances_val2017.json", Demo.Json short_bbox_instances)].

(* ================================================================== *)
(** * Label resolution *)

Lemma or_empty_some (v : string) : or_empty (Some v) = v.
Proof. destruct v; reflexivity. Qed.

(** With an EXT group the synset branch returns the triple of the design. *)
Lemma synset_result_with_ext (m : Re.groups) (label ext : string) :
  Re.group "LABEL" m = Some label ->
  Re.group "EXT" m = Some ext ->
  synset_result m
  = Ok (LStr label, label +:+ ext, "IN_" +:+ or_empty (Re.group "META" m)).
Proof.
  intros Hl He. unfold synset_result. rewrite Hl, He.
  unfold str_add, bind. rewrite or_empty_some. reflexivity.
Qed.

(** Without one, [label + None] raises before [or ''] is looked at. *)
Lemma synset_result_without_ext (m : Re.groups) :
  Re.group "EXT" m = None -> synset_result m = Raise TypeError.
Proof. intros He. unfold synset_result. now rewrite He. Qed.

Lemma synset_loop_hit (elems : list string) (elem : string) :
  In elem elems ->
  is_Some (Re.match_ _synset_label_pattern elem) ->
  is_Some (synset_loop elems).
Proof.
  induction elems as [|e rest IH]; intros Hin Hm; [destruct Hin|].
  simpl. destruct (Py.truthy e) eqn:Ht; simpl.
  - destruct (Re.match_ _synset_label_pattern e) eqn:He; [eauto|].
    destruct Hin as [->|Hin]; [|now apply IH].
    rewrite He in Hm. destruct Hm as [? Hm]. discriminate Hm.
  - destruct Hin as [->|Hin]; [|now apply IH].
    destruct elem; [|discriminate Ht].
    destruct Hm as [? Hm]. vm_compute in Hm. discriminate Hm.
Qed.

(** C1, at the second path of the docstring of [gather_images]: the
    directory [n04422727] matches the synset pattern without an EXT group,
    and label resolution raises [TypeError] instead of returning the label
    alone as full label, whatever the synset service is. *)
Theorem guess_label_synset_without_ext (sc : option Synsetizer) :
  guess_label sc "/root_path/training/n04422727/blue_cheese.jpg"
  = Raise TypeError.
Proof. reflexivity. Qed.

(** C9: when a component of the path matches the synset pattern, label
    resolution gives the same outcome with any two synset services,
    an absent one included: it does not ask the service. *)
Theorem guess_label_synset_ignores_service
  (path elem : string) (sc1 sc2 : option Synsetizer) :
  synset_component path elem ->
  guess_label sc1 path = guess_label sc2 path.
Proof.
  intros [Hin Hm]. unfold guess_label.
  destruct (synset_loop_hit _ _ Hin Hm) as [r ->]. reflexivity.
Qed.

Lemma guess_label_synset_ignores_service_witness :
  synset_component "/root_path/training/n04422727_43.jpg" "n04422727_43.jpg"
  /\ guess_label None "/root_path/training/n04422727_43.jpg"
     = guess_label (Some Demo.syn) "/root_path/training/n04422727_43.jpg".
Proof.
  assert (H : synset_component "/root_path/training/n04422727_43.jpg"
                "n04422727_43.jpg").
  { split; [vm_compute; auto | vm_compute; eauto]. }
  split; [exact H|].
  exact (guess_label_synset_ignores_service _ _ None (Some Demo.syn) H).
Defined.

(* ================================================================== *)
(** * COCO boxes *)

Lemma to_rect_xywh (x y w h : Z) :
  to_rect [x; y; w; h] = Ok [x; y; (w + (x - 1))%Z; (h + (y - 1))%Z].
Proof. reflexivity. Qed.

Lemma add_box_keeps (id id' : Z) (b : Box) (m : gmap Z (list Box)) (bs : list Box) :
  m !! id' = Some bs ->
  exists bs', add_box id b m !! id' = Some (bs ++ bs').
Proof.
  intros H. unfold add_box. destruct (decide (id = id')) as [->|Hne].
  - rewrite H, lookup_insert_eq. eauto.
  - destruct (m !! id); rewrite lookup_insert_ne by done;
      exists []; now rewrite app_nil_r.
Qed.

Lemma add_box_has (id : Z) (b : Box) (m : gmap Z (list Box)) :
  exists bs, add_box id b m !! id = Some (bs ++ [b]).
Proof.
  unfold add_box. destruct (m !! id) as [l|].
  - exists l. now rewrite lookup_insert_eq.
  - exists []. now rewrite lookup_insert_eq.
Qed.

Section CocoLoop.
Variable _syn_cache : option Synsetizer.
Variable categories : gmap Z (string * string).

Lemma coco_loop_keeps (anns : list CocoAnnotation) :
  forall acc res id bs,
    coco_loop _syn_cache categories anns acc = Ok res ->
    acc !! id = Some bs ->
    exists bs', res !! id = Some (bs ++ bs').
Proof.
  induction anns as [|ann rest IH]; intros acc res id bs Hrun Hacc.
  - injection Hrun as <-. exists []. now rewrite app_nil_r.
  - simpl in Hrun.
    destruct (categories !! ann_category_id ann) as [[name parent]|];
      [|discriminate].
    destruct (synset_offset _syn_cache name parent) as [label|]; [|discriminate].
    destruct (to_rect (ann_bbox ann)) as [bbox|]; [|discriminate].
    simpl in Hrun.
    destruct (add_box_keeps (ann_image_id ann) id
                {| box_class := LStr label; box_rect := bbox |} acc bs Hacc)
      as [bs1 H1].
    destruct (IH _ _ _ _ Hrun H1) as [bs2 H2].
    exists (bs1 ++ bs2). now rewrite app_assoc.
Qed.

Lemma coco_loop_converts (anns : list CocoAnnotation) :
  forall acc res ann x y w h,
    coco_loop _syn_cache categories anns acc = Ok res ->
    In ann anns ->
    ann_bbox ann = [x; y; w; h] ->
    exists bs cls,
      res !! ann_image_id ann = Some bs
      /\ In {| box_class := cls;
               box_rect := [x; y; (x + w - 1)%Z; (y + h - 1)%Z] |} bs.
Proof.
  induction anns as [|a rest IH]; intros acc res ann x y w h Hrun Hin Hbox;
    [destruct Hin|].
  simpl in Hrun.
  destruct (categories !! ann_category_id a) as [[name parent]|]; [|discriminate].
  destruct (synset_offset _syn_cache name parent) as [label|]; [|discriminate].
  destruct (to_rect (ann_bbox a)) as [bbox|] eqn:Hrect; [|discriminate].
  simpl in Hrun.
  destruct Hin as [->|Hin]; [|eapply IH; eauto].
  rewrite Hbox, to_rect_xywh in Hrect. injection Hrect as <-.
  destruct (add_box_has (ann_image_id ann)
              {| box_class := LStr label;
                 box_rect := [x; y; (w + (x - 1))%Z; (h + (y - 1))%Z] |} acc)
    as [bs0 H0].
  destruct (coco_loop_keeps _ _ _ _ _ Hrun H0) as [bs1 H1].
  exists ((bs0 ++ [{| box_class := LStr label;
                      box_rect := [x; y; (w + (x - 1))%Z; (h + (y - 1))%Z] |}])
            ++ bs1), (LStr label).
  split; [exact H1|].
  apply in_or_app. left. apply in_or_app. right. left.
  repeat (f_equal; try lia).
Qed.
End CocoLoop.

(** C10: the two in-place additions turn a bbox [x, y, w, h] into the rect
    [x, y, x+w-1, y+h-1]; [10, 20, 30, 40] becomes [10, 20, 39, 59]; and
    when a COCO file is parsed, every annotation with such a bbox is among
    the boxes of its image with that rect. *)
Theorem coco_bbox_to_rect {World : Type} {os : OS World}
  (_syn_cache : option Synsetizer) (w : World) (path : string) :
  (forall x y bw bh : Z,
     to_rect [x; y; bw; bh] = Ok [x; y; (x + bw - 1)%Z; (y + bh - 1)%Z])
  /\ to_rect [10; 20; 30; 40]%Z = Ok [10; 20; 39; 59]%Z
  /\ (forall content parsed ann x y bw bh,
        json_load w path = Ok content ->
        get_coco_bboxes _syn_cache w path = Ok parsed ->
        In ann (annotations_of content) ->
        ann_bbox ann = [x; y; bw; bh] ->
        exists bs cls,
          parsed !! ann_image_id ann = Some bs
          /\ In {| box_class := cls;
                   box_rect := [x; y; (x + bw - 1)%Z; (y + bh - 1)%Z] |} bs).
Proof.
  split; [|split].
  - intros x y bw bh. rewrite to_rect_xywh. repeat (f_equal; try lia).
  - reflexivity.
  - intros content parsed ann x y bw bh Hload Hparse Hin Hbox.
    unfold get_coco_bboxes in Hparse. rewrite Hload in Hparse. simpl in Hparse.
    eapply coco_loop_converts; eauto.
Qed.

Lemma coco_bbox_to_rect_witness :
  exists parsed bs cls,
    get_coco_bboxes (Some Demo.syn) Demo.coco_world "/ann/instances_train2017.json"
    = Ok parsed
    /\ parsed !! 1%Z = Some bs
    /\ In {| box_class := cls; box_rect := [10; 20; 39; 59]%Z |} bs.
Proof.
  destruct (coco_bbox_to_rect (Some Demo.syn) Demo.coco_world
              "/ann/instances_train2017.json") as (_ & _ & H).
  destruct (get_coco_bboxes (Some Demo.syn) Demo.coco_world
              "/ann/instances_train2017.json") as [parsed|e] eqn:Hp;
    [|vm_compute in Hp; discriminate Hp].
  destruct (H Demo.instances parsed
              {| ann_image_id := 1; ann_category_id := 7;
                 ann_bbox := [10; 20; 30; 40]%Z |} 10%Z 20%Z 30%Z 40%Z
              eq_refl eq_refl (or_introl eq_refl) eq_refl)
    as (bs & cls & Hb & Hin).
  exists parsed, bs, cls. auto.
Defined.

(* ================================================================== *)
(** * Gathering *)

Lemma int_ge_integer (n c : Z) :
  int_ge n (Finite (inject_Z c)) = (c <=? n)%Z.
Proof. unfold int_ge, Qle_bool. simpl. now rewrite !Z.mul_1_r. Qed.

(** ** What [add_image] does to the measures of [imagedata] *)

Lemma image_count_add (phase : string) (r : ImageRecord) (d : ImageData) :
  image_count (add_image phase r d) = S (image_count d).
Proof.
  unfold image_count. induction d as [|[k v] d IH]; simpl; [reflexivity|].
  destruct (String.eqb k phase); simpl.
  - rewrite length_app. simpl. lia.
  - rewrite IH. lia.
Qed.


Lemma label_total_add (label : LabelId) (phase : string) (r : ImageRecord)
  (d : ImageData) :
  label_total label (add_image phase r d)
  = (label_total label d
     + if bool_decide (img_label r = label) then 1 else 0)%nat.
Proof.
  unfold label_total. induction d as [|[k v] d IH]; simpl.
  - destruct (bool_decide (img_label r = label)); reflexivity.
  - destruct (String.eqb k phase); simpl.
    + rewrite List.filter_app, length_app. simpl.
      destruct (bool_decide (img_label r = label)); simpl; lia.
    + rewrite IH. lia.
Qed.

Lemma keys_add (phase : string) (r : ImageRecord) (d : ImageData) :
  keys_name_phases d ->
  names_phase phase = true ->
  keys_name_phases (add_image phase r d).
Proof.
  unfold keys_name_phases. intros Hd Hp.
  induction d as [|[k v] d IH]; simpl.
  - repeat constructor. exact Hp.
  - inversion Hd as [|? ? Hk Hd']; subst.
    destruct (String.eqb k phase); constructor; auto.
Qed.

(** ** The phase that is assumed *)

Lemma assume_loop_in (keys : list string) (phase : string) :
  keys <> [] -> In (assume_loop keys phase) keys.
Proof.
  revert phase. induction keys as [|k rest IH]; intros phase Hne; [congruence|].
  simpl. destruct rest as [|k' rest'].
  - left. reflexivity.
  - right. apply IH. discriminate.
Qed.

Lemma guess_phase_loop_names (elems : list string) :
  guess_phase_loop elems = EmptyString
  \/ names_phase (guess_phase_loop elems) = true.
Proof.
  induction elems as [|e rest IH]; simpl; [now left|].
  destruct (Py.truthy e); simpl; [|exact IH].
  destruct (names_phase e) eqn:He; [now right|exact IH].
Qed.

Lemma truthy_names_phase (s : string) : names_phase s = true -> Py.truthy s = true.
Proof. destruct s; [vm_compute; discriminate|reflexivity]. Qed.

Section GatherFacts.
Context {World : Type} {os : OS World}.
Variable _syn_cache : option Synsetizer.
Variable w : World.

(** ** One image *)

Lemma gather_file_image (s0 phase : string) (cap : pyfloat) (st : GatherState)
  (label : LabelId) (full_label meta : string) :
  has_valid_extension s0 = true ->
  guess_label _syn_cache s0 = Ok (label, full_label, meta) ->
  gather_file _syn_cache s0 phase cap st
  = match count_label label cap (counts st) with
    | None => Ok st
    | Some c => Ok (place_image s0 phase (label, full_label, meta) st c)
    end.
Proof. intros Hx Hl. unfold gather_file. rewrite Hx, Hl. reflexivity. Qed.

Lemma place_image_counts s0 phase info st c :
  counts (place_image s0 phase info st c) = c.
Proof.
  destruct info as [[l f] m]. unfold place_image.
  destruct (negb (Py.truthy phase)); reflexivity.
Qed.

Lemma place_image_count s0 phase info st c :
  image_count (imagedata (place_image s0 phase info st c))
  = S (image_count (imagedata st)).
Proof.
  destruct info as [[l f] m]. unfold place_image.
  destruct (negb (Py.truthy phase)); simpl; apply image_count_add.
Qed.


Lemma place_image_total s0 phase label full_label meta st c l :
  label_total l (imagedata (place_image s0 phase (label, full_label, meta) st c))
  = (label_total l (imagedata st)
     + if bool_decide (label = l) then 1 else 0)%nat.
Proof.
  unfold place_image.
  destruct (negb (Py.truthy phase)); simpl; apply label_total_add.
Qed.

Lemma place_image_keys s0 phase info st c :
  keys_name_phases (imagedata st) ->
  phase = EmptyString \/ names_phase phase = true ->
  keys_name_phases (imagedata (place_image s0 phase info st c)).
Proof.
  intros Hk Hp. destruct info as [[l f] m]. unfold place_image.
  destruct (Py.truthy phase) eqn:Ht; simpl.
  - apply keys_add; [exact Hk|].
    destruct Hp as [->|Hp]; [discriminate Ht|exact Hp].
  - destruct phase; [|discriminate Ht].
    apply keys_add; [exact Hk|].
    destruct (imagedata st) as [|kv d] eqn:Hd; [reflexivity|].
    assert (Hin : In (assume_loop (map fst (kv :: d)) EmptyString)
                    (map fst (kv :: d)))
      by (apply assume_loop_in; discriminate).
    apply in_map_iff in Hin as (kv' & Heq & Hin).
    unfold keys_name_phases in Hk. rewrite Forall_forall in Hk.
    apply list_elem_of_In in Hin. specialize (Hk _ Hin).
    rewrite Heq in Hk. rewrite (truthy_names_phase _ Hk). exact Hk.
Qed.

(** ** What gathering preserves *)

Section Preservation.
Variable P : GatherState -> Prop.
Variable cap : pyfloat.
Hypothesis file_step :
  forall s0 st st',
    P st -> gather_file _syn_cache s0 (guess_phase s0) cap st = Ok st' -> P st'.

Lemma gather_loop_preserves
  (recurse : string -> GatherState -> result GatherState)
  (root : string) :
  (forall s0 st st', P st -> recurse s0 st = Ok st' -> P st') ->
  forall names st st',
    P st ->
    gather_loop _syn_cache w recurse root names cap st = Ok st' ->
    P st'.
Proof.
  intros Hrec. induction names as [|s0 rest IH]; intros st st' HP Hrun.
  - injection Hrun as <-. exact HP.
  - simpl in Hrun. destruct (hidden s0); [now apply (IH st)|].
    destruct (isdir w (OsPath.join root s0)).
    + destruct (recurse (OsPath.join root s0) st) as [st1|] eqn:H1;
        [|discriminate]. simpl in Hrun. apply (IH st1); eauto.
    + destruct (gather_file _syn_cache (OsPath.join root s0)
                  (guess_phase (OsPath.join root s0)) cap st) as [st1|] eqn:H1;
        [|discriminate]. simpl in Hrun. apply (IH st1); eauto.
Qed.

Lemma gather_images_preserves (depth : nat) :
  forall root st st',
    P st ->
    gather_images _syn_cache w depth root cap st = Ok st' ->
    P st'.
Proof.
  induction depth as [|depth IH]; intros root st st' HP Hrun;
    [discriminate|].
  simpl in Hrun. destruct (listdir w root) as [names|]; [|discriminate].
  simpl in Hrun.
  apply (gather_loop_preserves
           (fun s0 s => gather_images _syn_cache w depth s0 cap s) root
           (fun s0 s s' Hs Hr => IH s0 s s' Hs Hr) names st st' HP Hrun).
Qed.
End Preservation.

(** All through gathering, the keys of [imagedata] contain a phase
    token; [main] starts it with no key at all. *)
Lemma gather_file_keys (cap : pyfloat) (s0 : string) (st st' : GatherState) :
  keys_name_phases (imagedata st) ->
  gather_file _syn_cache s0 (guess_phase s0) cap st = Ok st' ->
  keys_name_phases (imagedata st').
Proof.
  intros Hk Hrun. unfold gather_file in Hrun.
  destruct (negb (has_valid_extension s0)); [injection Hrun as <-; exact Hk|].
  destruct (guess_label _syn_cache s0) as [info|]; [|discriminate].
  simpl in Hrun.
  destruct (count_label (fst (fst info)) cap (counts st));
    injection Hrun as <-; [|exact Hk].
  apply place_image_keys; [exact Hk|]. apply guess_phase_loop_names.
Qed.

Lemma gather_images_keys (depth : nat) (root : string) (cap : pyfloat)
  (st st' : GatherState) :
  keys_name_phases (imagedata st) ->
  gather_images _syn_cache w depth root cap st = Ok st' ->
  keys_name_phases (imagedata st').
Proof.
  apply (gather_images_preserves (fun s => keys_name_phases (imagedata s)) cap).
  intros s0 s s'. apply gather_file_keys.
Qed.

Lemma last_default (keys : list string) (d d' : string) :
  keys <> [] -> List.last keys d = List.last keys d'.
Proof.
  induction keys as [|key rest IH]; intros Hne; [congruence|].
  destruct rest as [|k2 rest]; [reflexivity|].
  change (List.last (k2 :: rest) d = List.last (k2 :: rest) d').
  apply IH. discriminate.
Qed.

Lemma assume_loop_last (keys : list string) (phase : string) :
  assume_loop keys phase = List.last keys phase.
Proof.
  revert phase. induction keys as [|key rest IH]; intros phase; [reflexivity|].
  cbn [assume_loop]. rewrite IH. destruct rest as [|k2 rest]; [reflexivity|].
  change (List.last (k2 :: rest) key = List.last (k2 :: rest) phase).
  apply last_default. discriminate.
Qed.

Lemma add_image_appended (phase : string) (r : ImageRecord) (d : ImageData) :
  appended phase r d (add_image phase r d).
Proof.
  induction d as [|[k v] d IH]; cbn [add_image].
  - left. split; [intros []|reflexivity].
  - destruct (String.eqb k phase) eqn:E.
    + apply String.eqb_eq in E. subst k. right. exists [], v, d.
      split; [reflexivity|]. split; [intros []|reflexivity].
    + apply String.eqb_neq in E.
      destruct IH as [[Hn ->]|(before & old & after & -> & Hn & ->)].
      * left. split; [|reflexivity]. cbn [map fst In].
        intros [H|H]; [congruence|auto].
      * right. exists ((k, v) :: before), old, after.
        split; [reflexivity|]. split; [|reflexivity]. cbn [map fst In].
        intros [H|H]; [congruence|auto].
Qed.

(** C2: an image that is kept and whose path names no phase is filed
    under the last phase already in [imagedata], which contains a phase
    token as every key does, and under ["training"] when [imagedata] has
    no key.  The image goes to the end of the list of that phase (a new
    last phase when it is ["training"] with no key), nothing else in
    [imagedata] changes, and the line [Phase ... was assumed when
    processing ...] is printed.  The keys are those gathering put there
    ([gather_images_keys]). *)
Theorem assumed_phase_is_observed_or_training
  (s0 : string) (cap : pyfloat) (st : GatherState)
  (label : LabelId) (full_label meta : string) (c : gmap LabelId Z) :
  keys_name_phases (imagedata st) ->
  guess_phase s0 = EmptyString ->
  has_valid_extension s0 = true ->
  guess_label _syn_cache s0 = Ok (label, full_label, meta) ->
  count_label label cap (counts st) = Some c ->
  exists phase st',
    gather_file _syn_cache s0 (guess_phase s0) cap st = Ok st'
    /\ phase = List.last (map fst (imagedata st)) "training"
    /\ ((exists key, In key (map fst (imagedata st)) /\ names_phase key = true) ->
        In phase (map fst (imagedata st)) /\ names_phase phase = true)
    /\ (~ (exists key, In key (map fst (imagedata st)) /\ names_phase key = true) ->
        phase = "training")
    /\ appended phase
         {| img_path := s0; img_label := label;
            img_full_label := full_label; img_meta := meta |}
         (imagedata st) (imagedata st')
    /\ counts st' = c
    /\ printed st'
       = printed st
           ++ ["Phase " +:+ phase +:+ " was assumed when processing " +:+ s0].
Proof.
  intros Hk Hp Hx Hl Hc.
  rewrite (gather_file_image _ _ _ _ _ _ _ Hx Hl), Hc, Hp.
  unfold place_image. cbn [Py.truthy negb].
  rewrite assume_loop_last.
  destruct (imagedata st) as [|kv d] eqn:Hd.
  - exists "training". eexists. split; [reflexivity|].
    cbn [map List.last Py.truthy negb imagedata counts printed].
    split; [reflexivity|]. split; [intros (key & [] & _)|].
    split; [reflexivity|]. split; [apply add_image_appended|].
    split; reflexivity.
  - set (keys := map fst (kv :: d)).
    assert (Hlast : List.last keys EmptyString = List.last keys "training")
      by (apply last_default; discriminate).
    set (phase := List.last keys "training") in *.
    assert (Hin : In phase keys).
    { rewrite <- Hlast, <- assume_loop_last.
      apply assume_loop_in. discriminate. }
    assert (Hn : names_phase phase = true).
    { apply in_map_iff in Hin as (kv' & Heq & Hin).
      unfold keys_name_phases in Hk. rewrite Forall_forall in Hk.
      apply list_elem_of_In in Hin. specialize (Hk _ Hin).
      now rewrite Heq in Hk. }
    exists phase. eexists. rewrite Hlast. rewrite (truthy_names_phase _ Hn).
    cbn [negb]. split; [reflexivity|].
    cbn [imagedata counts printed].
    split; [reflexivity|]. split; [auto|].
    split; [intros Hno; exfalso; apply Hno; exists phase; auto|].
    split; [apply add_image_appended|]. split; reflexivity.
Qed.
End GatherFacts.

Lemma assumed_phase_is_observed_or_training_witness :
  let old := {| img_path := "/data/val/n00000002_1.jpg";
                img_label := LStr "n00000002";
                img_full_label := "n00000002_1"; img_meta := "IN_" |} in
  let new := {| img_path := "/data/n00000001_7.jpg";
                img_label := LStr "n00000001";
                img_full_label := "n00000001_7"; img_meta := "IN_" |} in
  let st := {| imagedata := [("train", [old]); ("val", [old]); ("test", [])];
               counts := <[LStr "n00000002" := 2%Z]> ∅;
               printed := ["earlier"] |} in
  let s0 := "/data/n00000001_7.jpg" in
  keys_name_phases (imagedata st)
  /\ guess_phase s0 = EmptyString
  /\ gather_file None s0 (guess_phase s0) (Finite 1) st
     = Ok {| imagedata := [("train", [old]); ("val", [old]); ("test", [new])];
             counts := <[LStr "n00000001" := 1%Z]>
                         (<[LStr "n00000002" := 2%Z]> ∅);
             printed :=
               ["earlier";
                "Phase test was assumed when processing /data/n00000001_7.jpg"] |}
  /\ exists phase st',
       gather_file None s0 (guess_phase s0) (Finite 1) st = Ok st'
       /\ phase = List.last (map fst (imagedata st)) "training"
       /\ ((exists key, In key (map fst (imagedata st)) /\ names_phase key = true) ->
           In phase (map fst (imagedata st)) /\ names_phase phase = true)
       /\ (~ (exists key, In key (map fst (imagedata st)) /\ names_phase key = true) ->
           phase = "training")
       /\ appended phase new (imagedata st) (imagedata st')
       /\ counts st' = <[LStr "n00000001" := 1%Z]> (<[LStr "n00000002" := 2%Z]> ∅)
       /\ printed st'
          = printed st
              ++ ["Phase " +:+ phase +:+ " was assumed when processing " +:+ s0].
Proof.
  intros old new st s0.
  assert (Hk : keys_name_phases (imagedata st)) by (repeat constructor).
  split; [exact Hk|]. split; [reflexivity|].
  split; [vm_compute; reflexivity|].
  exact (assumed_phase_is_observed_or_training None s0 (Finite 1) st
           (LStr "n00000001") "n00000001_7" "IN_"
           (<[LStr "n00000001" := 1%Z]> (<[LStr "n00000002" := 2%Z]> ∅))
           Hk eq_refl eq_refl eq_refl eq_refl).
Defined.

Section CapFacts.
Context {World : Type} {os : OS World}.
Variable _syn_cache : option Synsetizer.
Variable w : World.
Variable recurse : string -> GatherState -> result GatherState.
Variable root : string.
Variable label : LabelId.

(** One turn of the loop on an image of [label]. *)
Lemma gather_loop_image (name : string) :
  image_of _syn_cache w root label name ->
  exists full_label meta,
  forall cap rest st,
    gather_loop _syn_cache w recurse root (name :: rest) cap st
    = match count_label label cap (counts st) with
      | None => gather_loop _syn_cache w recurse root rest cap st
      | Some c =>
          gather_loop _syn_cache w recurse root rest cap
            (place_image (OsPath.join root name)
               (guess_phase (OsPath.join root name))
               (label, full_label, meta) st c)
      end.
Proof.
  intros (Hh & Hd & Hx & fl & m & Hl). exists fl, m. intros cap rest st.
  simpl. rewrite Hh, Hd, (gather_file_image _ _ _ _ _ _ _ _ Hx Hl).
  destruct (count_label label cap (counts st)); reflexivity.
Qed.





End CapFacts.


#[local] Arguments place_image : simpl never.

Section SharedCounter.
Context {World : Type} {os : OS World}.
Variable _syn_cache : option Synsetizer.
Variable w : World.
Variable c : Z.
Hypothesis cap_positive : (1 <= c)%Z.

Lemma counter_for_some (n : nat) (j : Z) :
  counter_for n = Some j -> j = Z.of_nat n /\ (0 < n)%nat.
Proof. destruct n; [discriminate|]. intros [= <-]. split; [reflexivity|lia]. Qed.

Lemma counter_for_none (n : nat) : None = counter_for n -> n = 0%nat.
Proof. destruct n; [reflexivity|discriminate]. Qed.

Lemma counter_for_succ (n : nat) :
  counter_for (n + 1) = Some (Z.of_nat n + 1)%Z.
Proof. rewrite Nat.add_1_r. unfold counter_for. f_equal. lia. Qed.

Lemma gather_file_totals (s0 phase : string) (st st' : GatherState) :
  counters_are_totals c st ->
  gather_file _syn_cache s0 phase (Finite (inject_Z c)) st = Ok st' ->
  counters_are_totals c st'.
Proof.
  intros Hinv Hrun. unfold gather_file in Hrun.
  destruct (negb (has_valid_extension s0)); [injection Hrun as <-; exact Hinv|].
  destruct (guess_label _syn_cache s0) as [[[l0 fl] m]|]; [|discriminate].
  cbn [bind fst] in Hrun. unfold count_label in Hrun.
  destruct (Hinv l0) as [Hcnt Hle].
  destruct (counts st !! l0) as [j|] eqn:Hj.
  - rewrite int_ge_integer in Hrun.
    destruct (Z.leb_spec c j) as [Hcj|Hcj];
      injection Hrun as <-; [exact Hinv|].
    symmetry in Hcnt. apply counter_for_some in Hcnt as [-> Hpos].
    intros l. rewrite place_image_counts, place_image_total.
    destruct (Hinv l) as [Hl Hlle]. case_bool_decide as Heq.
    + subst l. rewrite lookup_insert_eq, counter_for_succ. split; [reflexivity|lia].
    + rewrite lookup_insert_ne by exact Heq. rewrite Nat.add_0_r. auto.
  - injection Hrun as <-. apply counter_for_none in Hcnt.
    intros l. rewrite place_image_counts, place_image_total.
    destruct (Hinv l) as [Hl Hlle]. case_bool_decide as Heq.
    + subst l. rewrite lookup_insert_eq, Hcnt. split; [reflexivity|simpl; lia].
    + rewrite lookup_insert_ne by exact Heq. rewrite Nat.add_0_r. auto.
Qed.

(** C8: there is one counter per label for the whole run, not one per
    phase.  After gathering from the empty mappings [main] starts with,
    under an integer cap [c >= 1], the counter of every label is the number
    of its images kept in all the phases together, and that number is at
    most [c]; and an image whose label has reached the cap is dropped
    whatever its phase is. *)
Theorem cap_is_shared_by_all_phases
  (depth : nat) (root : string) (st' : GatherState) :
  gather_images _syn_cache w depth root (Finite (inject_Z c)) empty_state = Ok st' ->
  (forall label,
      counts st' !! label = counter_for (label_total label (imagedata st'))
      /\ (Z.of_nat (label_total label (imagedata st')) <= c)%Z)
  /\ (forall s0 phase label full_label meta st n,
        guess_label _syn_cache s0 = Ok (label, full_label, meta) ->
        counts st !! label = Some n ->
        (c <= n)%Z ->
        gather_file _syn_cache s0 phase (Finite (inject_Z c)) st = Ok st).
Proof.
  intros Hrun. split.
  - apply (gather_images_preserves _syn_cache w (counters_are_totals c)
             (Finite (inject_Z c))
             (fun s0 st st1 => gather_file_totals s0 (guess_phase s0) st st1)
             depth root empty_state st'); [|exact Hrun].
    intros label. split; [reflexivity|].
    change (Z.of_nat 0 <= c)%Z. lia.
  - intros s0 phase label fl m st n Hl Hn Hcn. unfold gather_file.
    destruct (negb (has_valid_extension s0)); [reflexivity|].
    rewrite Hl. cbn [bind fst]. unfold count_label. rewrite Hn, int_ge_integer.
    destruct (Z.leb_spec c n); [reflexivity|lia].
Qed.
End SharedCounter.

Lemma cap_is_shared_by_all_phases_witness :
  (1 <= 1)%Z
  /\ exists st',
       gather_images (os := Demo.os) None Demo.two_phases 10 "/data"
         (Finite (inject_Z 1)) empty_state = Ok st'
       /\ (forall label,
             counts st' !! label = counter_for (label_total label (imagedata st'))
             /\ (Z.of_nat (label_total label (imagedata st')) <= 1)%Z)
       /\ (forall s0 phase label full_label meta st n,
             guess_label None s0 = Ok (label, full_label, meta) ->
             counts st !! label = Some n ->
             (1 <= n)%Z ->
             gather_file None s0 phase (Finite (inject_Z 1)) st = Ok st).
Proof.
  split; [lia|].
  destruct (gather_images (os := Demo.os) None Demo.two_phases 10 "/data"
              (Finite (inject_Z 1)) empty_state) as [st'|e] eqn:Hrun;
    [|vm_compute in Hrun; discriminate Hrun].
  exists st'. split; [reflexivity|].
  exact (cap_is_shared_by_all_phases (os := Demo.os) None Demo.two_phases 1%Z
           ltac:(lia) 10 "/data" st' Hrun).
Defined.

(* ================================================================== *)
(** * Enumeration *)

Lemma filter_raising_pure (f : string -> bool) (names : list string) :
  filter_raising (fun s0 => Ok (f s0)) names = Ok (List.filter f names).
Proof.
  induction names as [|s0 rest IH]; [reflexivity|].
  simpl. rewrite IH. simpl. destruct (f s0); reflexivity.
Qed.

Lemma gen_then_done {World : Type} (g : Gen World) : gen_then g Done = g.
Proof. induction g as [| p w0 rest IH |]; simpl; [| rewrite IH |]; reflexivity. Qed.

Section Directories.
Context {World : Type} {os : OS World}.

(** C7: a directory visited with a filter.  Its entries are the listed
    names that are not hidden.  When the filter accepts at least one of
    them, only the accepted ones are visited, in order, and without a
    filter; when it accepts none and there are several entries, nothing is
    visited and nothing is yielded; when there is exactly one entry, it is
    visited whether the filter accepts it or not (still with the filter in
    the latter case). *)
Theorem filtered_directory_visit
  (depth : nat) (w : World) (path : string) (is_root : bool)
  (extension_pattern : Re.regex) (f : string -> bool) (names : list string) :
  isdir w path = true ->
  listdir w path = Ok names ->
  let filter_func := Some (fun s0 => Ok (f s0)) in
  let entries := List.filter (fun s0 => negb (hidden s0)) names in
  let matching := List.filter f entries in
  let visit flt := fun w' s0 =>
    listarchive depth w' (OsPath.join path s0) false extension_pattern flt in
  let run := listarchive (S depth) w path is_root extension_pattern filter_func in
  (matching <> [] -> run = gen_each (visit None) matching w)
  /\ (matching = [] -> (1 < length entries)%nat ->
      run = Done w /\ yielded run = [])
  /\ (forall s0, entries = [s0] ->
      run = visit (if f s0 then None else filter_func) w s0).
Proof.
  intros Hdir Hls filter_func entries matching visit run.
  assert (Hrun : run = lift (select filter_func names)
                         (fun '(sub_paths, flt) => gen_each (visit flt) sub_paths w)).
  { unfold run. simpl. rewrite Hdir, Hls. reflexivity. }
  assert (Hsel : select filter_func names
                 = match matching with
                   | _ :: _ => Ok (matching, None)
                   | [] => if Nat.ltb 1 (length entries)
                           then Ok ([], filter_func)
                           else Ok (entries, filter_func)
                   end).
  { unfold select, filter_func. rewrite filter_raising_pure. reflexivity. }
  rewrite Hrun, Hsel. split; [|split].
  - intros Hne. destruct matching; [congruence|reflexivity].
  - intros -> Hlen. apply Nat.ltb_lt in Hlen. rewrite Hlen. split; reflexivity.
  - intros s0 Hone. unfold matching. rewrite Hone. simpl.
    destruct (f s0); simpl; apply gen_then_done.
Qed.
End Directories.

Lemma filtered_directory_visit_witness :
  let f := Py.contains "n00000001" in
  let run := listarchive (os := Demo.os) 3 Demo.voc_world "/voc" true
               (Re.Lit ".xml") (Some (fun s0 => Ok (f s0))) in
  isdir Demo.voc_world "/voc" = true
  /\ listdir Demo.voc_world "/voc" = Ok ["n00000001"; "n00000002"; ".git"]
  /\ run = gen_each (fun w' s0 =>
                       listarchive (os := Demo.os) 2 w' (OsPath.join "/voc" s0)
                         false (Re.Lit ".xml") None)
             ["n00000001"] Demo.voc_world
  /\ yielded run
     = ["/voc/n00000001/n00000001_1.xml"; "/voc/n00000001/n00000001_2.xml"].
Proof.
  intros f run. split; [reflexivity|]. split; [reflexivity|]. split.
  - destruct (filtered_directory_visit (os := Demo.os) 2 Demo.voc_world "/voc"
                true (Re.Lit ".xml") f ["n00000001"; "n00000002"; ".git"]
                eq_refl eq_refl) as [H _].
    apply H. discriminate.
  - reflexivity.
Defined.

(* ================================================================== *)
(** * Extraction *)

(** C3, at the archive [/data/a.tar] with the single member
    [../extracted_a_evil/x]: the member resolves to
    [/data/extracted_a_evil/x], outside the destination
    [/data/extracted_a], yet [is_within_directory] accepts it, because
    [os.path.commonprefix] compares characters and the destination is a
    prefix of its sibling's name; so [safe_extract] raises nothing, the
    enumeration of the archive ends normally, and with an [extractall]
    that writes members where they resolve the file is written outside.
    For a [.zip] archive [extract] checks no member at all. *)
Theorem sibling_member_escapes_the_check :
  let dest := "/data/extracted_a" in
  (forall (World : Type) (os : OS World) (w : World),
      inside dest (AbsPath.abspath (getcwd w) (OsPath.join dest Demo.evil_member))
      = false
      /\ is_within_directory w dest (OsPath.join dest Demo.evil_member) = true
      /\ check_members w dest [Demo.evil_member] = Ok tt)
  /\ (exists fs',
        outcome (listarchive (os := Demo.os) 3 Demo.evil_world "/data/a.tar" true
                   (Re.Lit ".xml") None) = Ok fs'
        /\ Demo.find "/data/extracted_a_evil/x" fs' = Some Demo.File
        /\ inside dest "/data/extracted_a_evil/x" = false)
  /\ (forall (World : Type) (os : OS World) (w : World) (path : string),
        extract w path ".zip" dest
        = bind (makedirs w dest) (fun w1 => zip_extractall w1 path dest)).
Proof.
  intros dest. split; [|split].
  - intros World os w. repeat split; reflexivity.
  - eexists. split; [vm_compute; reflexivity|]. split; reflexivity.
  - intros World os w path. reflexivity.
Qed.

(* ================================================================== *)
(** * Boxes of an image *)

Lemma voc_filter_needs_a_string (n : Z) (elem : string) :
  voc_ann_filter (LInt n) elem = Raise TypeError.
Proof. reflexivity. Qed.

(** With an integer label every object of a VOC file is ignored, with
    one printed line each. *)
Lemma xml_loop_ignores_all (path : string) (n : Z) (objs : list VocObject) :
  forall rects out,
    xml_loop path (LInt n) objs rects out
    = Ok (rects,
          out ++ map (fun o => "Ignore label " +:+ dquote +:+ obj_name o
                               +:+ dquote +:+ " != " +:+ str_of_Z n
                               +:+ " in " +:+ path) objs).
Proof.
  induction objs as [|o rest IH]; intros rects out;
    cbn [xml_loop name_differs map].
  - now rewrite app_nil_r.
  - rewrite IH, <- app_assoc. reflexivity.
Qed.

Section BoxFacts.
Context {World : Type} {os : OS World}.
Variable syn : Synsetizer.
Variable json_dumps : list Box -> string.
Variable relpath : string -> string -> string.

(** C4: for an image with COCO meta and integer label [n], when the search
    finds an [instances] file of the phase and the parsed file (taken from
    the cache, or parsed and put there) has no key [n], [get_boxes]
    returns the empty list, not the full-image box, and the emitter writes
    no row and no index line for the image: it prints the notice and goes
    on. *)
Theorem coco_image_without_boxes_is_skipped
  (depth : nat) (root_path phase : string) (annotation : list string)
  (v : ImageRecord) (e : Emit) (n : Z) (path : string) (w' : World)
  (parsed : gmap Z (list Box)) :
  Py.startswith (img_meta v) "COCO_" = true ->
  img_label v = LInt n ->
  scan_sources depth (Re.Lit ".json") None (is_instances_of phase) annotation
    (world e) = Hit path w' ->
  (phase_cache e !! OsPath.basename path = Some parsed
   \/ (phase_cache e !! OsPath.basename path = None
       /\ get_coco_bboxes (Some syn) w' path = Ok parsed)) ->
  parsed !! n = None ->
  (exists r,
      get_boxes (Some syn) depth phase (img_full_label v) (img_label v)
        (img_meta v) annotation (phase_cache e) (world e) = Ok r
      /\ boxes r = []
      /\ cache_after r !! OsPath.basename path = Some parsed)
  /\ (exists e',
        emit_image (Some syn) json_dumps relpath depth root_path phase
          annotation v e = Ok e'
        /\ tsv_file e' = tsv_file e
        /\ idx_file e' = idx_file e
        /\ stdout e' = stdout e ++ ["No annotation for " +:+ img_path v]).
Proof.
  intros Hmeta Hlabel Hscan Hparsed Hkey.
  assert (Hget : exists r,
             get_boxes (Some syn) depth phase (img_full_label v) (img_label v)
               (img_meta v) annotation (phase_cache e) (world e) = Ok r
             /\ boxes r = [] /\ lines r = []
             /\ cache_after r !! OsPath.basename path = Some parsed).
  { unfold get_boxes. rewrite Hmeta, Hscan, Hlabel.
    destruct Hparsed as [Hc|[Hc Hp]]; rewrite Hc.
    - cbn [bind]. rewrite Hc. cbn [from_option id boxes_of]. rewrite Hkey.
      eexists. split; [reflexivity|]. repeat split. exact Hc.
    - rewrite Hp. cbn [bind]. rewrite lookup_insert_eq.
      cbn [from_option id boxes_of]. rewrite Hkey.
      eexists. split; [reflexivity|]. repeat split. apply lookup_insert_eq. }
  destruct Hget as (r & Hr & Hb & Hl & Hc). split.
  - exists r. auto.
  - unfold emit_image. rewrite Hr. cbn [bind]. rewrite Hb, Hl.
    eexists. split; [reflexivity|]. repeat split.
Qed.

(** C5, as the code has it.  For an image with COCO meta and integer
    label [n], when the enumeration of every annotation source ends
    without a [.json] file whose name contains [instances] and the phase:
    with no synset service [get_boxes] raises [Wordnet not found] before any
    search; with a service it goes on with the search for a VOC file,
    carrying the integer as label, and its outcome is that of this search.
    It returns the one full-image box when the search ends without a file;
    when the search finds a file it reads the objects and ignores every
    one of them, since no name equals an integer, so it returns the empty
    list and prints one line per object; and it raises what the search
    raises. *)
Theorem coco_without_instances_falls_through
  (depth : nat) (phase full_label : string) (n : Z) (meta : string)
  (annotations : list string) (cache : gmap string (gmap Z (list Box)))
  (w w1 : World) :
  Py.startswith meta "COCO_" = true ->
  scan_sources depth (Re.Lit ".json") None
    (fun path => Py.contains "instances" (OsPath.basename path)
                 && Py.contains phase (OsPath.basename path))
    annotations w = Miss w1 ->
  let voc_search :=
    scan_sources depth (Re.Lit ".xml") (Some (voc_ann_filter (LInt n)))
      (fun path => Py.startswith (OsPath.basename path) full_label)
      annotations w1 in
  let result :=
    get_boxes (Some syn) depth phase full_label (LInt n) meta annotations
      cache w in
  get_boxes None depth phase full_label (LInt n) meta annotations cache w
  = Raise wordnet_not_found
  /\ (forall w2,
        voc_search = Miss w2 ->
        result
        = Ok {| boxes := [{| box_class := LInt n; box_rect := [0; 0; 0; 0]%Z |}];
                cache_after := cache; world_after := w2; lines := [] |})
  /\ (forall path w2,
        voc_search = Hit path w2 ->
        result
        = (do objs <- xml_objects w2 path;
           Ok {| boxes := []; cache_after := cache; world_after := w2;
                 lines := map (fun o => "Ignore label " +:+ dquote
                                        +:+ obj_name o +:+ dquote +:+ " != "
                                        +:+ str_of_Z n +:+ " in " +:+ path)
                            objs |}))
  /\ (forall e, voc_search = Fail e -> result = Raise e).
Proof.
  intros Hmeta Hscan voc_search result.
  assert (Hscan' : scan_sources depth (Re.Lit ".json") None
                     (is_instances_of phase) annotations w = Miss w1)
    by exact Hscan.
  assert (Hfall : result
                  = voc_boxes depth full_label (LInt n) annotations cache w1).
  { unfold result, get_boxes. now rewrite Hmeta, Hscan'. }
  assert (Hvoc : voc_search
                 = scan_sources depth (Re.Lit ".xml")
                     (Some (voc_ann_filter (LInt n)))
                     (is_annotation_of full_label) annotations w1)
    by reflexivity.
  split; [unfold get_boxes; now rewrite Hmeta|].
  rewrite Hfall, Hvoc. unfold voc_boxes. clear. repeat split.
  - intros w2 ->. reflexivity.
  - intros path w2 ->. unfold get_xml_rects.
    destruct (xml_objects w2 path) as [objs|e]; [|reflexivity].
    cbn [bind]. rewrite xml_loop_ignores_all. reflexivity.
  - intros e ->. reflexivity.
Qed.
End BoxFacts.

Lemma coco_image_without_boxes_is_skipped_witness :
  let v := {| img_path := "/data/train2017/000000006818.jpg";
              img_label := LInt 6818; img_full_label := "000000006818";
              img_meta := "COCO_" |} in
  let e := {| tsv_file := EmptyString; idx_file := EmptyString;
              phase_cache := ∅; world := Demo.coco_world; stdout := [] |} in
  let json := "/ann/instances_train2017.json" in
  let parsed : gmap Z (list Box) :=
    <[1%Z := [{| box_class := LStr "syn:cheese";
                 box_rect := [10; 20; 39; 59]%Z |}]]> ∅ in
  scan_sources (os := Demo.os) 5 (Re.Lit ".json") None
    (is_instances_of "train2017") ["/ann"] (world e) = Hit json Demo.coco_world
  /\ get_coco_bboxes (os := Demo.os) (Some Demo.syn) Demo.coco_world json
     = Ok parsed
  /\ parsed !! 6818%Z = None
  /\ (exists r,
        get_boxes (os := Demo.os) (Some Demo.syn) 5 "train2017" (img_full_label v)
          (img_label v) (img_meta v) ["/ann"] (phase_cache e) (world e) = Ok r
        /\ boxes r = []
        /\ cache_after r !! OsPath.basename json = Some parsed)
  /\ (exists e',
        emit_image (os := Demo.os) (Some Demo.syn) (fun _ => "[]")
          (fun p _ => p) 5 "/data" "train2017" ["/ann"] v e = Ok e'
        /\ tsv_file e' = tsv_file e
        /\ idx_file e' = idx_file e
        /\ stdout e' = stdout e ++ ["No annotation for " +:+ img_path v]).
Proof.
  intros v e json parsed.
  assert (Hscan : scan_sources (os := Demo.os) 5 (Re.Lit ".json") None
                    (is_instances_of "train2017") ["/ann"] (world e)
                  = Hit json Demo.coco_world) by reflexivity.
  assert (Hparse : get_coco_bboxes (os := Demo.os) (Some Demo.syn)
                     Demo.coco_world json = Ok parsed)
    by (vm_compute; reflexivity).
  assert (Hkey : parsed !! 6818%Z = None) by (vm_compute; reflexivity).
  split; [exact Hscan|]. split; [exact Hparse|]. split; [exact Hkey|].
  exact (coco_image_without_boxes_is_skipped (os := Demo.os) Demo.syn
           (fun _ => "[]") (fun p _ => p) 5 "/data" "train2017" ["/ann"] v e
           6818%Z json Demo.coco_world parsed eq_refl eq_refl Hscan
           (or_intror (conj eq_refl Hparse)) Hkey).
Defined.

Lemma coco_without_instances_falls_through_witness :
  Py.startswith "COCO_" "COCO_" = true
  /\ scan_sources (os := Demo.os) 5 (Re.Lit ".json") None
       (fun path => Py.contains "instances" (OsPath.basename path)
                    && Py.contains "train2017" (OsPath.basename path))
       no_instances_sources no_instances_world
     = Miss no_instances_world
  /\ scan_sources (os := Demo.os) 5 (Re.Lit ".xml")
       (Some (voc_ann_filter (LInt 6818)))
       (fun path => Py.startswith (OsPath.basename path) "000000006818")
       no_instances_sources no_instances_world
     = Hit "/y/000000006818.xml" no_instances_world
  /\ get_boxes (os := Demo.os) (Some Demo.syn) 5 "train2017" "000000006818"
       (LInt 6818) "COCO_" no_instances_sources ∅ no_instances_world
     = Ok {| boxes := []; cache_after := ∅; world_after := no_instances_world;
             lines := map (fun name => "Ignore label " +:+ dquote +:+ name
                                       +:+ dquote
                                       +:+ " != 6818 in /y/000000006818.xml")
                        ["n00000001"; "n00000002"; "n00000001"] |}.
Proof.
  split; [reflexivity|]. split; [reflexivity|]. split; [reflexivity|].
  destruct (coco_without_instances_falls_through (os := Demo.os) Demo.syn 5
              "train2017" "000000006818" 6818%Z "COCO_" no_instances_sources ∅
              no_instances_world no_instances_world eq_refl eq_refl)
    as (_ & _ & Hhit & _).
  exact (Hhit "/y/000000006818.xml" no_instances_world eq_refl).
Defined.

(** C5, where the claim fails.  No source has a [.json] file, and yet
    [get_boxes] returns the empty list when a synset service is there (the
    search finds the VOC file named after the image and ignores its
    objects), and fails with [Wordnet not found] when there is none. *)
Lemma coco_without_instances_returns_empty :
  Py.startswith "COCO_" "COCO_" = true
  /\ scan_sources (os := Demo.os) 5 (Re.Lit ".json") None
       (is_instances_of "train2017") no_instances_sources no_instances_world
     = Miss no_instances_world
  /\ (exists r,
        get_boxes (os := Demo.os) (Some Demo.syn) 5 "train2017" "000000006818"
          (LInt 6818) "COCO_" no_instances_sources ∅ no_instances_world
        = Ok r
        /\ boxes r = [])
  /\ get_boxes (os := Demo.os) None 5 "train2017" "000000006818"
       (LInt 6818) "COCO_" no_instances_sources ∅ no_instances_world
     = Raise wordnet_not_found.
Proof.
  split; [reflexivity|]. split; [reflexivity|].
  split; [|reflexivity].
  eexists. split; [vm_compute; reflexivity|reflexivity].
Qed.

(** The full-image box, when the VOC search too ends without a file. *)
Example coco_without_any_file_gets_the_full_image :
  get_boxes (os := Demo.os) (Some Demo.syn) 5 "train2017" "000000006818"
    (LInt 6818) "COCO_" ["/voc"] ∅ Demo.coco_world
  = Ok {| boxes := [{| box_class := LInt 6818; box_rect := [0; 0; 0; 0]%Z |}];
          cache_after := ∅; world_after := Demo.coco_world; lines := [] |}.
Proof. reflexivity. Qed.

(* ================================================================== *)
(** * The examples of the docstrings, run *)

Example label_of_synset_file :
  guess_label None "/root_path/training/n04422727_43.jpg"
  = Ok (LStr "n04422727", "n04422727_43", "IN_").
Proof. reflexivity. Qed.

Example label_of_synset_file_with_meta :
  guess_label None "/root_path/training/n04422727_42_bluecheese.jpg"
  = Ok (LStr "n04422727", "n04422727_42", "IN_bluecheese").
Proof. reflexivity. Qed.

Example label_of_nested_synset_file :
  guess_label None "/root_path/training/cheeses/n04422727_41.jpg"
  = Ok (LStr "n04422727", "n04422727_41", "IN_").
Proof. reflexivity. Qed.

Example label_of_coco_file :
  guess_label None "/root_path/training/COCO_val2014_000000006818.jpg"
  = Ok (LInt 6818, "000000006818", "COCO_COCO_val2014_").
Proof. reflexivity. Qed.

Example label_from_directory_needs_the_service :
  guess_label None "/root_path/training/cheese/blue.jpg" = Raise AttributeError
  /\ guess_label (Some Demo.syn) "/root_path/training/cheese/blue.jpg"
     = Ok (LStr "syn:cheese", "syn:cheese", "syn:cheese").
Proof. split; reflexivity. Qed.

Example phase_of_directory :
  guess_phase "/root_path/training/n04422727_43.jpg" = "training".
Proof. reflexivity. Qed.

Example phase_of_file_name :
  guess_phase "/root_path/n04422727_41_training.jpg" = "n04422727_41_training.jpg".
Proof. reflexivity. Qed.

Example compound_extension :
  compound_ext "Annotation.tar" ".gz" = Some ".tar.gz"
  /\ compound_ext "instances_train2017" ".json" = Some ".json"
  /\ compound_ext ".hidden" ".tar" = None.
Proof. repeat split; reflexivity. Qed.

Example five_images_cap_two :
  exists st,
    gather_images (os := Demo.os) None [("/data/train", Demo.Dir Demo.five)] 4
      "/data/train" (Finite (inject_Z 2)) empty_state = Ok st
    /\ kept_paths (imagedata st)
       = ["/data/train/n00000001_1.jpg"; "/data/train/n00000001_2.jpg"].
Proof. eexists. split; [vm_compute; reflexivity|reflexivity]. Qed.

Example voc_search_with_integer_label_raises :
  get_boxes (os := Demo.os) (Some Demo.syn) 5 "train2017" "000000006818"
    (LInt 6818) "COCO_" ["/voc"] ∅ Demo.voc_world
  = Raise TypeError.
Proof. reflexivity. Qed.

(* ================================================================== *)
(** * Further properties: strings and the matcher *)

#[local] Arguments String.append : simpl nomatch.

Lemma length_append (a b : string) :
  String.length (a +:+ b) = (String.length a + String.length b)%nat.
Proof. induction a as [|c a IH]; simpl; [reflexivity|now rewrite IH]. Qed.

Lemma append_assoc (a b c : string) : (a +:+ b) +:+ c = a +:+ (b +:+ c).
Proof. induction a as [|x a IH]; simpl; [reflexivity|now rewrite IH]. Qed.

Lemma append_nil_r (a : string) : a +:+ EmptyString = a.
Proof. induction a as [|x a IH]; simpl; [reflexivity|now rewrite IH]. Qed.

Lemma substring_prefix (a b : string) :
  String.substring 0 (String.length a) (a +:+ b) = a.
Proof.
  induction a as [|c a IH]; simpl.
  - destruct b; reflexivity.
  - now rewrite IH.
Qed.

Lemma consumed_append (a b : string) : Re.consumed (a +:+ b) b = a.
Proof.
  unfold Re.consumed. rewrite length_append.
  replace (String.length a + String.length b - String.length b)%nat
    with (String.length a) by lia.
  apply substring_prefix.
Qed.

Lemma prefix_append (a b : string) : String.prefix a (a +:+ b) = true.
Proof.
  induction a as [|c a IH]; simpl.
  - destruct b; reflexivity.
  - rewrite IH. now destruct (ascii_dec c c).
Qed.

Lemma prefix_split (a s : string) :
  String.prefix a s = true -> exists b, s = a +:+ b.
Proof.
  revert s. induction a as [|c a IH]; intros s H.
  - exists s. reflexivity.
  - destruct s as [|d s]; [discriminate H|]. simpl in H.
    destruct (ascii_dec c d) as [->|]; [|discriminate H].
    destruct (IH s H) as [b ->]. exists b. reflexivity.
Qed.

(** ** Inversion of the matcher *)

Lemma star_some {A : Type} (p : ascii -> bool) (k : string -> option A)
  (s : string) (r : A) :
  Re.star p k s = Some r ->
  exists s1 s', s = s1 +:+ s' /\ Py.all_chars p s1 = true /\ k s' = Some r.
Proof.
  revert r. induction s as [|c s IH]; intros r H; simpl in H.
  - exists EmptyString, EmptyString. auto.
  - destruct (p c) eqn:Hp.
    + destruct (Re.star p k s) as [r'|] eqn:Hs.
      * injection H as <-. destruct (IH r' eq_refl) as (s1 & s' & -> & Ha & Hk).
        exists (String c s1), s'. simpl. rewrite Hp. auto.
      * exists EmptyString, (String c s). auto.
    + exists EmptyString, (String c s). auto.
Qed.

Lemma rep_some {A : Type} (n : nat) (p : ascii -> bool) (k : string -> option A)
  (s : string) (r : A) :
  Re.rep n p k s = Some r ->
  exists s1 s',
    s = s1 +:+ s' /\ String.length s1 = n /\ Py.all_chars p s1 = true
    /\ k s' = Some r.
Proof.
  revert s. induction n as [|n IH]; intros s H; simpl in H.
  - exists EmptyString, s. auto.
  - destruct s as [|c s]; [discriminate H|].
    destruct (p c) eqn:Hp; [|discriminate H].
    destruct (IH s H) as (s1 & s' & -> & Hl & Ha & Hk).
    exists (String c s1), s'. simpl. rewrite Hp, Hl. auto.
Qed.

Lemma run_chr (c : ascii) (s : string) (g : Re.groups)
  (k : string -> Re.groups -> option Re.groups) (m : Re.groups) :
  Re.run false (Re.Chr c) s g k = Some m ->
  exists s', s = String c s' /\ k s' g = Some m.
Proof.
  destruct s as [|a s]; simpl; [discriminate|].
  destruct (Ascii.eqb_spec a c) as [->|]; [|discriminate]. eauto.
Qed.

Lemma run_plus (p : ascii -> bool) (s : string) (g : Re.groups)
  (k : string -> Re.groups -> option Re.groups) (m : Re.groups) :
  Re.run false (Re.Plus p) s g k = Some m ->
  exists s1 s',
    s = s1 +:+ s' /\ Py.truthy s1 = true /\ Py.all_chars p s1 = true
    /\ k s' g = Some m.
Proof.
  destruct s as [|a s]; simpl; [discriminate|].
  destruct (p a) eqn:Hp; [|discriminate]. intros H.
  destruct (star_some _ _ _ _ H) as (s1 & s' & -> & Ha & Hk).
  exists (String a s1), s'. simpl. rewrite Hp. auto.
Qed.

(** The matcher only answers with matches of the expression. *)
Lemma run_sound (icase : bool) (r : Re.regex) :
  forall s g k m,
    Re.run icase r s g k = Some m ->
    exists s1 s' g',
      s = s1 +:+ s' /\ Matches icase r s1 s' g g' /\ k s' g' = Some m.
Proof.
  induction r as [c|p|r1 IH1 r2 IH2|r IH|p|n p|name r IH|];
    intros s g k m H; simpl in H.
  - destruct s as [|a s]; [discriminate H|].
    destruct (Re.same_char icase a c) eqn:Hc; [|discriminate H].
    exists (String a EmptyString), s, g. repeat split; auto. now constructor.
  - destruct s as [|a s]; [discriminate H|].
    destruct (p a) eqn:Hp; [|discriminate H].
    exists (String a EmptyString), s, g. repeat split; auto. now constructor.
  - destruct (IH1 _ _ _ _ H) as (s1 & s' & g1 & -> & M1 & H2).
    destruct (IH2 _ _ _ _ H2) as (s2 & s'' & g2 & -> & M2 & H3).
    exists (s1 +:+ s2), s'', g2. rewrite append_assoc.
    repeat split; auto. econstructor; eauto.
  - destruct (Re.run icase r s g k) as [m'|] eqn:Hr.
    + injection H as <-. destruct (IH _ _ _ _ Hr) as (s1 & s' & g' & -> & M & Hk).
      exists s1, s', g'. repeat split; auto. now constructor.
    + exists EmptyString, s, g. repeat split; auto. apply M_opt_skipped.
  - destruct (star_some _ _ _ _ H) as (s1 & s' & -> & Ha & Hk).
    exists s1, s', g. repeat split; auto. now constructor.
  - destruct (rep_some _ _ _ _ _ H) as (s1 & s' & -> & Hl & Ha & Hk).
    exists s1, s', g. repeat split; auto. now constructor.
  - destruct (IH _ _ _ _ H) as (s1 & s' & g' & -> & M & Hk).
    rewrite consumed_append in Hk.
    exists s1, s', (Re.record name s1 g'). repeat split; auto. now constructor.
  - exists EmptyString, s, g. split; [reflexivity|].
    destruct s as [|c [|c' s]]; try discriminate H.
    + split; [constructor; auto|exact H].
    + destruct (Nat.eqb_spec (Py.code c) 10) as [Hc|]; [|discriminate H].
      split; [|exact H]. constructor. right. f_equal.
      unfold Py.code in Hc. rewrite <- Hc. now rewrite ascii_nat_embedding.
Qed.

Lemma match_sound (r : Re.regex) (s : string) (m : Re.groups) :
  Re.match_ r s = Some m ->
  exists s1 s', s = s1 +:+ s' /\ Matches false r s1 s' [] m.
Proof.
  intros H. destruct (run_sound _ _ _ _ _ _ H) as (s1 & s' & g' & -> & M & Hk).
  injection Hk as <-. eauto.
Qed.

Ltac invert_matches :=
  repeat match goal with
    | H : Matches _ (Re.Seq _ _) _ _ _ _ |- _ => inversion H; subst; clear H
    | H : Matches _ (Re.Grp _ _) _ _ _ _ |- _ => inversion H; subst; clear H
    | H : Matches _ (Re.Chr _) _ _ _ _ |- _ => inversion H; subst; clear H
    | H : Matches _ (Re.Cls _) _ _ _ _ |- _ => inversion H; subst; clear H
    | H : Matches _ (Re.Star _) _ _ _ _ |- _ => inversion H; subst; clear H
    | H : Matches _ (Re.Rep _ _) _ _ _ _ |- _ => inversion H; subst; clear H
    | H : Matches _ Re.Eos _ _ _ _ |- _ => inversion H; subst; clear H
    end.

Lemma same_char_exact (a c : ascii) : Re.same_char false a c = true -> a = c.
Proof. unfold Re.same_char. now intros H%Ascii.eqb_eq. Qed.

(** What a match of the synset pattern looks like: the element starts
    with [n] and eight digits, which is the group LABEL; the group EXT,
    when it took part, is [_] and digits right after it. *)
Lemma synset_match_shape (elem : string) (m : Re.groups) :
  Re.match_ _synset_label_pattern elem = Some m ->
  exists ds rest,
    elem = String "n" ds +:+ rest
    /\ String.length ds = 8%nat /\ all_digits ds
    /\ Re.group "LABEL" m = Some (String "n" ds)
    /\ (forall ext, Re.group "EXT" m = Some ext ->
        exists xs rest',
          ext = String "_" xs /\ Py.truthy xs = true /\ all_digits xs
          /\ rest = ext +:+ rest').
Proof.
  intros H. destruct (match_sound _ _ _ H) as (s1 & s' & -> & M). clear H.
  unfold _synset_label_pattern, Re.Plus in M. invert_matches.
  repeat match goal with
         | H : Matches _ (Re.Opt _) _ _ _ _ |- _ => inversion H; subst; clear H
         end; invert_matches.
  all: repeat match goal with
         | H : Re.same_char false _ _ = true |- _ =>
             apply same_char_exact in H; subst
         end.
  all: match goal with
       | H : String.length ?d = 8%nat |- _ => exists d
       end; eexists.
  all: (split; [rewrite ?append_assoc; reflexivity|]).
  all: (split; [assumption|]); (split; [assumption|]).
  all: (split; [reflexivity|]).
  all: intros ext Hx; lazy in Hx; try discriminate Hx.
  all: injection Hx as <-.
  all: eexists _, _; split; [reflexivity|]; split; [reflexivity|].
  all: (split; [|rewrite ?append_assoc; reflexivity]).
  all: unfold all_digits; cbn [Py.all_chars].
  all: match goal with
       | Hp : Py.is_digit ?a = true |- Py.is_digit ?a && _ = true => rewrite Hp
       end.
  all: assumption.
Qed.

(** What a match of the COCO pattern looks like: the text ends with twelve
    digits (and possibly a newline), which are the group LABEL; what is in
    front of them is empty, or is the group META and starts with [COCO_]. *)
Lemma coco_match_shape (elem : string) (m : Re.groups) :
  Re.match_ _coco_label_pattern elem = Some m ->
  exists pre label tail,
    elem = pre +:+ label +:+ tail
    /\ String.length label = 12%nat /\ all_digits label
    /\ Re.group "LABEL" m = Some label
    /\ (tail = EmptyString \/ tail = newline)
    /\ ((Re.group "META" m = None /\ pre = EmptyString)
        \/ (Re.group "META" m = Some pre /\ Py.startswith pre "COCO_" = true)).
Proof.
  intros H. destruct (match_sound _ _ _ H) as (s1 & s' & -> & M). clear H.
  unfold _coco_label_pattern in M. invert_matches.
  repeat match goal with
         | H : Matches _ (Re.Opt _) _ _ _ _ |- _ => inversion H; subst; clear H
         end; cbn [Re.Lit] in *; invert_matches.
  all: repeat match goal with
         | H : Re.same_char false _ _ = true |- _ =>
             apply same_char_exact in H; subst
         end.
  - match goal with
    | Hl : String.length ?l = 12%nat, Ha : Py.all_chars Py.is_any ?x = true |- _ =>
        exists ("COCO_" +:+ x), l, s'
    end.
    split; [rewrite !append_assoc; reflexivity|].
    repeat (split; [assumption || reflexivity|]).
    right. split; [reflexivity|]. apply prefix_append.
  - match goal with
    | Hl : String.length ?l = 12%nat |- _ => exists EmptyString, l, s'
    end.
    split; [rewrite !append_assoc; reflexivity|].
    repeat (split; [assumption || reflexivity|]).
    left. split; reflexivity.
Qed.

(** ** The two loops over the elements of a path *)

Lemma synset_loop_some (elems : list string) (r : result LabelInfo) :
  synset_loop elems = Some r ->
  exists elem m,
    In elem elems
    /\ Re.match_ _synset_label_pattern elem = Some m
    /\ r = synset_result m.
Proof.
  induction elems as [|e rest IH]; intros H; [discriminate H|].
  simpl in H. destruct (Py.truthy e); simpl in H.
  - destruct (Re.match_ _synset_label_pattern e) as [m|] eqn:Hm.
    + injection H as <-. exists e, m. simpl. auto.
    + destruct (IH H) as (elem & m & Hin & Hm' & Hr). exists elem, m.
      simpl. auto.
  - destruct (IH H) as (elem & m & Hin & Hm' & Hr). exists elem, m.
    simpl. auto.
Qed.

Lemma synset_loop_none (elems : list string) :
  synset_loop elems = None ->
  forall elem, In elem elems -> Re.match_ _synset_label_pattern elem = None.
Proof.
  induction elems as [|e rest IH]; intros H elem Hin; [destruct Hin|].
  simpl in H. destruct (Py.truthy e) eqn:Ht; simpl in H.
  - destruct (Re.match_ _synset_label_pattern e) eqn:Hm; [discriminate H|].
    destruct Hin as [<-|Hin]; [exact Hm|now apply IH].
  - destruct Hin as [<-|Hin]; [|now apply IH].
    destruct e; [reflexivity|discriminate Ht].
Qed.

(** The three conventions of [guess_label].  A result comes from one of
    three cases, which exclude each other.  Some component matches the
    synset pattern: it starts with [n] and eight digits, an underscore and
    digits, which are label and full label (a prefix of that component),
    with a meta [IN_...].  Or no component matches the synset pattern and
    the stem of the file name matches the COCO pattern: it ends in twelve
    digits, or in twelve digits and one newline, since [$] also matches
    before a final newline; the digits are the full label and, read as a
    number, the label; what precedes them is empty or starts with [COCO_],
    and the meta is [COCO_] followed by it.  Or neither pattern matches,
    and the answer of the synset service to the parent directory name and
    the stem is used as label, full label and meta. *)
Theorem guess_label_conventions
  (sc : option Synsetizer) (path : string)
  (label : LabelId) (full_label meta : string) :
  guess_label sc path = Ok (label, full_label, meta) ->
  let stem := fst (OsPath.splitext (OsPath.basename path)) in
  let no_synset :=
    forall elem, In elem (elements path) ->
                 Re.match_ _synset_label_pattern elem = None in
  (exists elem ds xs tag,
      In elem (elements path)
      /\ is_Some (Re.match_ _synset_label_pattern elem)
      /\ label = LStr (String "n" ds)
      /\ String.length ds = 8%nat /\ all_digits ds
      /\ full_label = String "n" ds +:+ String "_" xs
      /\ Py.truthy xs = true /\ all_digits xs
      /\ Py.startswith elem full_label = true
      /\ meta = "IN_" +:+ tag)
  \/ (exists n pre tail,
        no_synset
        /\ is_Some (Re.match_ _coco_label_pattern stem)
        /\ label = LInt n /\ Py.int full_label = Ok n
        /\ String.length full_label = 12%nat /\ all_digits full_label
        /\ stem = pre +:+ full_label +:+ tail
        /\ (tail = EmptyString \/ tail = newline)
        /\ (pre = EmptyString \/ Py.startswith pre "COCO_" = true)
        /\ meta = "COCO_" +:+ pre)
  \/ (exists syn,
        no_synset
        /\ Re.match_ _coco_label_pattern stem = None
        /\ sc = Some syn
        /\ syn (OsPath.basename (OsPath.dirname path)) (OsPath.basename stem)
           = Ok full_label
        /\ label = LStr full_label /\ meta = full_label).
Proof.
  intros H stem no_synset. unfold guess_label in H.
  destruct (synset_loop (elements path)) as [r|] eqn:Hloop.
  - left. subst r.
    destruct (synset_loop_some _ _ Hloop) as (elem & m & Hin & Hm & Hr).
    assert (Hsome : is_Some (Re.match_ _synset_label_pattern elem))
      by (rewrite Hm; eexists; reflexivity).
    destruct (synset_match_shape _ _ Hm) as (ds & rest & -> & Hl & Hd & HL & HE).
    unfold synset_result in Hr. rewrite HL in Hr.
    destruct (Re.group "EXT" m) as [ext|] eqn:Hext; [|discriminate Hr].
    destruct (HE ext eq_refl) as (xs & rest' & -> & Hx & Hxd & ->).
    cbn [bind str_add from_option id or_empty Py.truthy String.append] in Hr.
    injection Hr as -> -> ->.
    exists (String "n" ds +:+ String "_" xs +:+ rest'), ds, xs,
      (or_empty (Re.group "META" m)).
    repeat split; auto.
    unfold Py.startswith. rewrite <- append_assoc. apply prefix_append.
  - right. fold stem in H.
    destruct (Re.match_ _coco_label_pattern stem) as [m|] eqn:Hm.
    + left.
      destruct (coco_match_shape _ _ Hm)
        as (pre & l & tail & Hs & Hl & Hd & HL & Ht & HM).
      rewrite HL in H. cbn [from_option id] in H.
      destruct (Py.int l) as [n|] eqn:Hn; [|discriminate H].
      cbn [bind] in H. injection H as <- <- <-.
      exists n, pre, tail.
      split; [exact (synset_loop_none _ Hloop)|].
      split; [eexists; reflexivity|].
      repeat (split; [assumption || reflexivity|]).
      split; [destruct HM as [[_ ->]|[_ Hp]]; auto|].
      destruct HM as [[-> ->]|[-> Hp]]; [reflexivity|].
      destruct pre; [discriminate Hp|reflexivity].
    + right. unfold synset_offset in H.
      destruct sc as [syn|]; [|discriminate H].
      destruct (syn _ _) as [l|] eqn:Hs; [|discriminate H].
      cbn [bind] in H. injection H as <- <- <-.
      exists syn. repeat split; auto. exact (synset_loop_none _ Hloop).
Qed.

Lemma guess_label_conventions_witness :
  guess_label None "/root_path/training/COCO_val2014_000000006818.jpg"
  = Ok (LInt 6818, "000000006818", "COCO_COCO_val2014_")
  /\ exists pre tail,
       "COCO_val2014_000000006818" = pre +:+ "000000006818" +:+ tail
       /\ (tail = EmptyString \/ tail = newline)
       /\ (pre = EmptyString \/ Py.startswith pre "COCO_" = true)
       /\ "COCO_COCO_val2014_" = "COCO_" +:+ pre.
Proof.
  split; [reflexivity|].
  destruct (guess_label_conventions None
              "/root_path/training/COCO_val2014_000000006818.jpg"
              (LInt 6818) "000000006818" "COCO_COCO_val2014_" eq_refl)
    as [(elem & ds & xs & tag & _ & _ & Hl & _)
       |[(n & pre & tail & _ & _ & _ & _ & _ & _ & Hs & Ht & Hp & Hm)
        |(syn & _ & _ & Hsc & _)]].
  - discriminate Hl.
  - exists pre, tail. auto.
  - discriminate Hsc.
Defined.

(** A stem that ends in a newline after the twelve digits takes the COCO
    convention too. *)
Example label_of_coco_stem_with_newline :
  guess_label None ("/data/000000000001" +:+ newline +:+ ".jpg")
  = Ok (LInt 1, "000000000001", "COCO_").
Proof. reflexivity. Qed.

(* ================================================================== *)
(** * Further properties: phases and gathering *)

Lemma names_phase_empty : names_phase EmptyString = false.
Proof. reflexivity. Qed.

Lemma guess_phase_loop_first (elems : list string) :
  (guess_phase_loop elems = EmptyString
   /\ Forall (fun e => names_phase e = false) elems)
  \/ (exists before after,
        elems = before ++ guess_phase_loop elems :: after
        /\ Forall (fun e => names_phase e = false) before
        /\ names_phase (guess_phase_loop elems) = true).
Proof.
  induction elems as [|e rest IH]; [left; split; [reflexivity|constructor]|].
  cbn [guess_phase_loop].
  assert (Hskip :
            names_phase e = false ->
            (guess_phase_loop rest = EmptyString
             /\ Forall (fun e => names_phase e = false) (e :: rest))
            \/ (exists before after,
                  e :: rest = before ++ guess_phase_loop rest :: after
                  /\ Forall (fun e => names_phase e = false) before
                  /\ names_phase (guess_phase_loop rest) = true)).
  { intros He. destruct IH as [[H0 HF]|(before & after & Heq & HF & Hn)].
    - left. split; [exact H0|]. constructor; assumption.
    - right. exists (e :: before), after. split; [|split].
      + cbn [app]. f_equal. exact Heq.
      + constructor; assumption.
      + exact Hn. }
  destruct (Py.truthy e) eqn:Ht; cbn [negb].
  - destruct (names_phase e) eqn:He; [|now apply Hskip].
    right. exists [], rest. split; [reflexivity|]. split; [constructor|exact He].
  - apply Hskip. destruct e; [reflexivity|discriminate Ht].
Qed.

(** [guess_phase] returns the last component of the path (the first from
    the end) that contains [train], [test] or [val] in any letter case,
    whole, and the empty string when no component does. *)
Theorem guess_phase_first_from_the_end (path : string) :
  (guess_phase path = EmptyString
   /\ Forall (fun e => names_phase e = false) (elements path))
  \/ (exists before after,
        elements path = before ++ guess_phase path :: after
        /\ Forall (fun e => names_phase e = false) before
        /\ names_phase (guess_phase path) = true).
Proof. apply guess_phase_loop_first. Qed.

(** ** What [add_image] keeps and adds *)

Lemma add_image_in (phase : string) (r : ImageRecord) (d : ImageData)
  (phase' : string) (rs : list ImageRecord) (x : ImageRecord) :
  In (phase', rs) (add_image phase r d) ->
  In x rs ->
  (phase' = phase /\ x = r)
  \/ (exists rs0, In (phase', rs0) d /\ In x rs0).
Proof.
  induction d as [|[k v] d IH]; cbn [add_image]; intros Hin Hx.
  - destruct Hin as [[= <- <-]|[]]. destruct Hx as [<-|[]]. now left.
  - destruct (String.eqb_spec k phase) as [->|Hne].
    + destruct Hin as [[= <- <-]|Hin].
      * apply in_app_or in Hx as [Hx|[<-|[]]]; [|now left].
        right. exists v. split; [now left|exact Hx].
      * right. exists rs. split; [now right|exact Hx].
    + destruct Hin as [[= <- <-]|Hin].
      * right. exists v. split; [now left|exact Hx].
      * destruct (IH Hin Hx) as [H|(rs0 & H0 & H1)]; [now left|].
        right. exists rs0. split; [now right|exact H1].
Qed.

Lemma add_image_keeps (phase : string) (r : ImageRecord) (d : ImageData)
  (phase' : string) (rs : list ImageRecord) :
  In (phase', rs) d ->
  exists more, In (phase', rs ++ more) (add_image phase r d).
Proof.
  induction d as [|[k v] d IH]; intros Hin; [destruct Hin|].
  cbn [add_image]. destruct (String.eqb k phase).
  - destruct Hin as [[= <- <-]|Hin].
    + exists [r]. now left.
    + exists []. rewrite app_nil_r. now right.
  - destruct Hin as [[= <- <-]|Hin].
    + exists []. rewrite app_nil_r. now left.
    + destruct (IH Hin) as [more H]. exists more. now right.
Qed.

Lemma add_image_phases (phase : string) (r : ImageRecord) (d : ImageData) :
  map fst (add_image phase r d)
  = map fst d ++ (if existsb (String.eqb phase) (map fst d) then [] else [phase]).
Proof.
  induction d as [|[k v] d IH]; [reflexivity|].
  cbn [add_image map fst existsb]. rewrite (String.eqb_sym phase k).
  destruct (String.eqb k phase); cbn [orb map fst].
  - now rewrite app_nil_r.
  - rewrite IH. reflexivity.
Qed.

Lemma add_image_nodup (phase : string) (r : ImageRecord) (d : ImageData) :
  NoDup (map fst d) -> NoDup (map fst (add_image phase r d)).
Proof.
  intros Hd. rewrite add_image_phases.
  destruct (existsb (String.eqb phase) (map fst d)) eqn:He.
  - now rewrite app_nil_r.
  - apply NoDup_app. split; [exact Hd|]. split; [|apply NoDup_singleton].
    intros x Hx Hk. apply list_elem_of_singleton in Hk. subst x.
    apply list_elem_of_In in Hx.
    assert (existsb (String.eqb phase) (map fst d) = true).
    { apply existsb_exists. exists phase. split; [exact Hx|apply String.eqb_refl]. }
    congruence.
Qed.

Lemma add_image_nonempty (phase : string) (r : ImageRecord) (d : ImageData) :
  Forall (fun kv => snd kv <> []) d ->
  Forall (fun kv => snd kv <> []) (add_image phase r d).
Proof.
  induction 1 as [|[k v] d Hv Hd IH]; cbn [add_image].
  - repeat constructor. discriminate.
  - destruct (String.eqb k phase); constructor; auto.
    cbn [snd]. destruct v; discriminate.
Qed.

Lemma place_image_shape (s0 phase : string) (label : LabelId)
  (full_label meta : string) (st : GatherState) (c : gmap LabelId Z) :
  exists bucket out,
    imagedata (place_image s0 phase (label, full_label, meta) st c)
    = add_image bucket
        {| img_path := s0; img_label := label;
           img_full_label := full_label; img_meta := meta |} (imagedata st)
    /\ printed (place_image s0 phase (label, full_label, meta) st c)
       = printed st ++ out
    /\ counts (place_image s0 phase (label, full_label, meta) st c) = c
    /\ (bucket = phase \/ phase = EmptyString).
Proof.
  unfold place_image. destruct phase as [|a phase]; cbn [Py.truthy negb].
  - eexists _, [_]. repeat split; auto.
  - exists (String a phase), []. rewrite app_nil_r. repeat split; auto.
Qed.

Lemma count_label_grows (label : LabelId) (cap : pyfloat)
  (cs c : gmap LabelId Z) :
  count_label label cap cs = Some c ->
  forall l n, cs !! l = Some n -> exists n', c !! l = Some n' /\ (n <= n')%Z.
Proof.
  unfold count_label. intros H l n Hl.
  destruct (decide (label = l)) as [->|Hne].
  - rewrite Hl in H. destruct (int_ge n cap); [discriminate H|].
    injection H as <-. exists (n + 1)%Z. rewrite lookup_insert_eq. split; [reflexivity|lia].
  - exists n. split; [|lia].
    destruct (cs !! label); [destruct (int_ge z cap); [discriminate H|]|];
      injection H as <-; now rewrite lookup_insert_ne.
Qed.

Lemma continues_refl (st : GatherState) : continues st st.
Proof.
  repeat split.
  - intros phase rs H. exists []. now rewrite app_nil_r.
  - exists []. now rewrite app_nil_r.
  - exists []. now rewrite app_nil_r.
  - intros label n H. exists n. split; [exact H|lia].
Qed.

Lemma continues_trans (a b c : GatherState) :
  continues a b -> continues b c -> continues a c.
Proof.
  intros (Hb1 & [k1 Hk1] & [o1 Ho1] & Hc1) (Hb2 & [k2 Hk2] & [o2 Ho2] & Hc2).
  repeat split.
  - intros phase rs H. destruct (Hb1 _ _ H) as [m1 H1].
    destruct (Hb2 _ _ H1) as [m2 H2]. exists (m1 ++ m2). now rewrite app_assoc.
  - exists (k1 ++ k2). now rewrite Hk2, Hk1, app_assoc.
  - exists (o1 ++ o2). now rewrite Ho2, Ho1, app_assoc.
  - intros label n H. destruct (Hc1 _ _ H) as (n1 & H1 & Hle1).
    destruct (Hc2 _ _ H1) as (n2 & H2 & Hle2). exists n2. split; [exact H2|lia].
Qed.

Section GatherInvariants.
Context {World : Type} {os : OS World}.
Variable _syn_cache : option Synsetizer.
Variable w : World.

Lemma gather_file_continues (s0 phase : string) (cap : pyfloat)
  (st st' : GatherState) :
  gather_file _syn_cache s0 phase cap st = Ok st' -> continues st st'.
Proof.
  unfold gather_file. intros H.
  destruct (negb (has_valid_extension s0));
    [injection H as <-; apply continues_refl|].
  destruct (guess_label _syn_cache s0) as [[[l f] m]|]; [|discriminate H].
  cbn [bind fst] in H.
  destruct (count_label l cap (counts st)) as [c|] eqn:Hc;
    injection H as <-; [|apply continues_refl].
  destruct (place_image_shape s0 phase l f m st c)
    as (bucket & out & Hd & Hp & Hcs & _).
  repeat split.
  - intros ph rs Hin. rewrite Hd. now apply add_image_keeps.
  - rewrite Hd, add_image_phases. eauto.
  - rewrite Hp. eauto.
  - rewrite Hcs. now apply (count_label_grows l cap).
Qed.

(** Gathering only appends.  Whatever the directory tree is, the state it
    ends in continues the state it started from: no image, phase or
    printed line is removed or moved, new images come after the old ones
    of their phase and new phases after the old phases, and no counter
    goes down. *)
Theorem gathering_only_appends
  (depth : nat) (root : string) (cap : pyfloat) (st st' : GatherState) :
  gather_images _syn_cache w depth root cap st = Ok st' ->
  continues st st'.
Proof.
  apply (gather_images_preserves _syn_cache w (continues st) cap).
  - intros s0 s s' Hs Hrun.
    exact (continues_trans _ _ _ Hs (gather_file_continues _ _ _ _ _ Hrun)).
  - apply continues_refl.
Qed.

Lemma gather_file_well_filed (cap : pyfloat) (s0 : string)
  (st st' : GatherState) :
  well_filed _syn_cache st ->
  gather_file _syn_cache s0 (guess_phase s0) cap st = Ok st' ->
  well_filed _syn_cache st'.
Proof.
  intros (Hn & He & Hf). unfold gather_file. intros H.
  destruct (has_valid_extension s0) eqn:Hx; cbn [negb] in H;
    [|injection H as <-; exact (conj Hn (conj He Hf))].
  destruct (guess_label _syn_cache s0) as [[[l f] m]|] eqn:Hl; [|discriminate H].
  cbn [bind fst] in H.
  destruct (count_label l cap (counts st)) as [c|];
    injection H as <-; [|exact (conj Hn (conj He Hf))].
  destruct (place_image_shape s0 (guess_phase s0) l f m st c)
    as (bucket & out & Hd & _ & _ & Hb).
  unfold well_filed. rewrite Hd. split; [now apply add_image_nodup|].
  split; [now apply add_image_nonempty|].
  intros phase rs r Hin Hr.
  destruct (add_image_in _ _ _ _ _ _ Hin Hr) as [[-> ->]|(rs0 & H0 & H1)];
    [|now apply (Hf phase rs0)].
  repeat split; cbn [img_path]; auto.
  destruct Hb as [->|Hb]; auto.
Qed.

(** After gathering from the empty mappings of [main]: the phases are
    distinct, no phase is without an image, and every image is filed with
    an image extension, with the label, full label and meta that
    [guess_label] gives for its path, and under the phase its path names
    when it names one. *)
Theorem gathered_images_are_well_filed
  (depth : nat) (root : string) (cap : pyfloat) (st' : GatherState) :
  gather_images _syn_cache w depth root cap empty_state = Ok st' ->
  NoDup (map fst (imagedata st'))
  /\ Forall (fun kv => snd kv <> []) (imagedata st')
  /\ forall phase rs r,
       In (phase, rs) (imagedata st') -> In r rs ->
       filed_under _syn_cache phase r.
Proof.
  apply (gather_images_preserves _syn_cache w (well_filed _syn_cache) cap
           (gather_file_well_filed cap)).
  split; [constructor|]. split; [constructor|]. intros phase rs r [].
Qed.
End GatherInvariants.

Lemma gathering_only_appends_witness :
  let old_val := {| img_path := "/old/val/n00000005_1.jpg";
                    img_label := LStr "n00000005";
                    img_full_label := "n00000005_1"; img_meta := "IN_" |} in
  let old_test := {| img_path := "/old/test/n00000001_9.jpg";
                     img_label := LStr "n00000001";
                     img_full_label := "n00000001_9"; img_meta := "IN_" |} in
  let st := {| imagedata := [("val", [old_val]); ("test", [old_test])];
               counts := <[LStr "n00000005" := 1%Z]>
                           (<[LStr "n00000001" := 1%Z]> ∅);
               printed := ["earlier"] |} in
  exists st',
    gather_images (os := Demo.os) None Demo.two_phases 10 "/data" PosInf st
    = Ok st'
    /\ map (fun kv => (fst kv, map img_path (snd kv))) (imagedata st')
       = [("val", ["/old/val/n00000005_1.jpg"; "/data/val/n00000001_2.jpg"]);
          ("test", ["/old/test/n00000001_9.jpg"]);
          ("train", ["/data/train/n00000001_1.jpg"])]
    /\ counts st' !! LStr "n00000001" = Some 3%Z
    /\ counts st' !! LStr "n00000005" = Some 1%Z
    /\ printed st' = ["earlier"]
    /\ continues st st'.
Proof.
  intros old_val old_test st.
  eexists. split; [vm_compute; reflexivity|].
  split; [reflexivity|]. split; [reflexivity|]. split; [reflexivity|].
  split; [reflexivity|].
  refine (gathering_only_appends (os := Demo.os) None Demo.two_phases 10 "/data"
            PosInf st _ _).
  vm_compute. reflexivity.
Defined.

Lemma gathered_images_are_well_filed_witness :
  exists st',
    gather_images (os := Demo.os) None Demo.two_phases 10 "/data" PosInf
      empty_state = Ok st'
    /\ NoDup (map fst (imagedata st'))
    /\ Forall (fun kv => snd kv <> []) (imagedata st')
    /\ forall phase rs r,
         In (phase, rs) (imagedata st') -> In r rs -> filed_under None phase r.
Proof.
  destruct (gather_images (os := Demo.os) None Demo.two_phases 10 "/data" PosInf
              empty_state) as [st'|e] eqn:Hrun;
    [|vm_compute in Hrun; discriminate Hrun].
  exists st'. split; [reflexivity|].
  exact (gathered_images_are_well_filed (os := Demo.os) None Demo.two_phases 10
           "/data" PosInf st' Hrun).
Defined.

(* ================================================================== *)
(** * Further properties: the cap as a float *)

Lemma int_ge_ceiling (n : Z) (q : Q) :
  int_ge n (Finite q) = int_ge n (Finite (inject_Z (Qceiling q))).
Proof.
  unfold int_ge. apply eq_true_iff_eq. rewrite !Qle_bool_iff. split; intros H.
  - rewrite <- Zle_Qle. rewrite <- (Qceiling_Z n). now apply Qceiling_resp_le.
  - eapply Qle_trans; [apply Qle_ceiling|exact H].
Qed.

Section CapValues.
Context {World : Type} {os : OS World}.
Variable _syn_cache : option Synsetizer.
Variable w : World.
Variables cap1 cap2 : pyfloat.
Hypothesis same_test : forall n, int_ge n cap1 = int_ge n cap2.

Lemma gather_file_same_cap (s0 phase : string) (st : GatherState) :
  gather_file _syn_cache s0 phase cap1 st
  = gather_file _syn_cache s0 phase cap2 st.
Proof.
  unfold gather_file, count_label.
  destruct (negb (has_valid_extension s0)); [reflexivity|].
  destruct (guess_label _syn_cache s0) as [info|]; [|reflexivity].
  cbn [bind]. destruct (counts st !! info.1.1); [|reflexivity].
  now rewrite same_test.
Qed.

Lemma gather_loop_same_cap
  (rec1 rec2 : string -> GatherState -> result GatherState) (root : string) :
  (forall s0 st, rec1 s0 st = rec2 s0 st) ->
  forall names st,
    gather_loop _syn_cache w rec1 root names cap1 st
    = gather_loop _syn_cache w rec2 root names cap2 st.
Proof.
  intros Hrec. induction names as [|s0 rest IH]; intros st; [reflexivity|].
  cbn [gather_loop]. destruct (hidden s0); [apply IH|].
  rewrite Hrec, gather_file_same_cap.
  destruct (isdir w (OsPath.join root s0)).
  - destruct (rec2 _ st); [apply IH|reflexivity].
  - destruct (gather_file _ _ _ cap2 st); [apply IH|reflexivity].
Qed.

Lemma gather_images_same_cap (depth : nat) :
  forall root st,
    gather_images _syn_cache w depth root cap1 st
    = gather_images _syn_cache w depth root cap2 st.
Proof.
  induction depth as [|depth IH]; intros root st; [reflexivity|].
  cbn [gather_images]. destruct (listdir w root) as [names|]; [|reflexivity].
  cbn [bind]. now apply gather_loop_same_cap.
Qed.
End CapValues.

(** The cap is a float, and only its comparisons with the integer counters
    matter: a fractional cap acts as the next integer above it ([2.5] keeps
    three images of a label), and a NaN cap, which no counter reaches, acts
    as no cap at all. *)
Theorem cap_acts_as_its_ceiling {World : Type} {os : OS World}
  (_syn_cache : option Synsetizer) (w : World) (depth : nat) (root : string)
  (st : GatherState) :
  (forall q : Q,
      gather_images _syn_cache w depth root (Finite q) st
      = gather_images _syn_cache w depth root
          (Finite (inject_Z (Qceiling q))) st)
  /\ gather_images _syn_cache w depth root NaN st
     = gather_images _syn_cache w depth root PosInf st.
Proof.
  split.
  - intros q. apply gather_images_same_cap. intros n. apply int_ge_ceiling.
  - apply gather_images_same_cap. reflexivity.
Qed.

Section FirstImage.
Context {World : Type} {os : OS World}.
Variable _syn_cache : option Synsetizer.
Variable w : World.
Variable recurse : string -> GatherState -> result GatherState.
Variable root : string.
Variable label : LabelId.
Variable cap : pyfloat.
Hypothesis cap_at_most_one : int_ge 1 cap = true.

Lemma saturated_at_one (names : list string) (st : GatherState) :
  counts st !! label = Some 1%Z ->
  Forall (image_of _syn_cache w root label) names ->
  gather_loop _syn_cache w recurse root names cap st = Ok st.
Proof.
  intros Hc HF. induction HF as [|name rest Himg _ IH]; [reflexivity|].
  destruct (gather_loop_image _syn_cache w recurse root label name Himg)
    as (fl & m & Hstep).
  rewrite Hstep. unfold count_label. now rewrite Hc, cap_at_most_one.
Qed.

(** The first image of a label is kept before the cap is looked at: with
    a cap of one or less (zero, a negative number, minus infinity), the
    loop over images of one label that has no counter yet keeps exactly the
    first of them. *)
Theorem first_image_is_kept_under_any_cap
  (name : string) (rest : list string) (st : GatherState) :
  Forall (image_of _syn_cache w root label) (name :: rest) ->
  counts st !! label = None ->
  exists st',
    gather_loop _syn_cache w recurse root (name :: rest) cap st = Ok st'
    /\ gather_loop _syn_cache w recurse root [name] PosInf st = Ok st'
    /\ counts st' !! label = Some 1%Z
    /\ image_count (imagedata st') = S (image_count (imagedata st)).
Proof.
  intros HF Hnone. inversion HF as [|? ? Himg HFrest]; subst.
  destruct (gather_loop_image _syn_cache w recurse root label name Himg)
    as (fl & m & Hstep).
  rewrite !Hstep. unfold count_label. rewrite Hnone.
  eexists. split; [|split; [reflexivity|split]].
  - apply saturated_at_one; [|exact HFrest].
    now rewrite place_image_counts, lookup_insert_eq.
  - now rewrite place_image_counts, lookup_insert_eq.
  - apply place_image_count.
Qed.
End FirstImage.

Lemma first_image_is_kept_under_any_cap_witness :
  let run := gather_loop (os := Demo.os) None [] (fun _ st => Ok st) "/data/train" in
  int_ge 1 (Finite 0) = true
  /\ exists st',
       run Demo.five (Finite 0) empty_state = Ok st'
       /\ run ["n00000001_1.jpg"] PosInf empty_state = Ok st'
       /\ counts st' !! LStr "n00000001" = Some 1%Z
       /\ image_count (imagedata st') = 1%nat.
Proof.
  intros run. split; [reflexivity|].
  assert (HF : Forall (image_of (os := Demo.os) None [] "/data/train"
                         (LStr "n00000001")) Demo.five).
  { repeat (constructor;
            [repeat (split; [reflexivity|]); eexists _, _; reflexivity|]).
    constructor. }
  exact (first_image_is_kept_under_any_cap (os := Demo.os) None []
           (fun _ st => Ok st) "/data/train" (LStr "n00000001") (Finite 0)
           eq_refl "n00000001_1.jpg" (tl Demo.five) empty_state HF eq_refl).
Defined.

(* ================================================================== *)
(** * Further properties: annotations *)

(** [bbox[2] += bbox[0] - 1; bbox[3] += bbox[1] - 1] needs four elements
    and raises [IndexError] on a shorter list; it leaves the first two
    elements and everything after the fourth as they are. *)
Theorem to_rect_needs_four (bbox : list Z) :
  to_rect bbox
  = match bbox with
    | x :: y :: bw :: bh :: rest =>
        Ok (x :: y :: (bw + (x - 1))%Z :: (bh + (y - 1))%Z :: rest)
    | _ => Raise IndexError
    end.
Proof. destruct bbox as [|x [|y [|bw [|bh rest]]]]; reflexivity. Qed.

Lemma add_box_lookup (i id : Z) (b : Box) (m : gmap Z (list Box)) :
  add_box i b m !! id
  = if decide (i = id) then Some (default [] (m !! i) ++ [b]) else m !! id.
Proof.
  unfold add_box. destruct (decide (i = id)) as [->|Hne].
  - destruct (m !! id); now rewrite lookup_insert_eq.
  - destruct (m !! i); now rewrite lookup_insert_ne.
Qed.

Lemma coco_loop_counts (_syn_cache : option Synsetizer)
  (categories : gmap Z (string * string)) (anns : list CocoAnnotation) :
  forall acc res image,
    coco_loop _syn_cache categories anns acc = Ok res ->
    (res !! image = None <-> acc !! image = None /\ count_image image anns = 0%nat)
    /\ length (default [] (res !! image))
       = (length (default [] (acc !! image)) + count_image image anns)%nat.
Proof.
  induction anns as [|a rest IH]; intros acc res image Hrun.
  - injection Hrun as <-. cbn. split; [tauto|lia].
  - cbn [coco_loop] in Hrun.
    destruct (categories !! ann_category_id a) as [[name parent]|];
      [|discriminate Hrun].
    destruct (synset_offset _syn_cache name parent) as [l|]; [|discriminate Hrun].
    destruct (to_rect (ann_bbox a)) as [bbox|]; [|discriminate Hrun].
    cbn [bind] in Hrun. destruct (IH _ _ image Hrun) as [Hnone Hlen].
    rewrite Hnone, Hlen, add_box_lookup. unfold count_image.
    cbn [List.filter]. destruct (decide (ann_image_id a = image)) as [->|Hne].
    + rewrite Z.eqb_refl. cbn [length from_option id]. rewrite length_app.
      cbn [length]. split; [|lia]. split; [intros [[=] _]|intros [_ [=]]].
    + destruct (Z.eqb_spec (ann_image_id a) image); [contradiction|]. tauto.
Qed.

(** The keys of a parsed COCO file are the images that have annotations:
    an image is absent exactly when no annotation names it, and
    otherwise its list has one box per annotation of that image. *)
Theorem coco_keys_are_the_annotated_images {World : Type} {os : OS World}
  (_syn_cache : option Synsetizer) (w : World) (path : string)
  (content : CocoContent) (parsed : gmap Z (list Box)) :
  json_load w path = Ok content ->
  get_coco_bboxes _syn_cache w path = Ok parsed ->
  forall image,
    (parsed !! image = None <-> count_image image (annotations_of content) = 0%nat)
    /\ length (default [] (parsed !! image))
       = count_image image (annotations_of content).
Proof.
  intros Hload Hparse image. unfold get_coco_bboxes in Hparse.
  rewrite Hload in Hparse. cbn [bind] in Hparse.
  destruct (coco_loop_counts _ _ _ _ _ image Hparse) as [Hnone Hlen].
  rewrite Hnone, Hlen, lookup_empty. cbn. split; [tauto|reflexivity].
Qed.

Lemma coco_keys_are_the_annotated_images_witness :
  exists parsed,
    get_coco_bboxes (os := Demo.os) (Some Demo.syn) Demo.coco_world
      "/ann/instances_train2017.json" = Ok parsed
    /\ forall image,
         (parsed !! image = None
          <-> count_image image (annotations_of Demo.instances) = 0%nat)
         /\ length (default [] (parsed !! image))
            = count_image image (annotations_of Demo.instances).
Proof.
  destruct (get_coco_bboxes (os := Demo.os) (Some Demo.syn) Demo.coco_world
              "/ann/instances_train2017.json") as [parsed|e] eqn:Hp;
    [|vm_compute in Hp; discriminate Hp].
  exists parsed. split; [reflexivity|].
  exact (coco_keys_are_the_annotated_images (os := Demo.os) (Some Demo.syn)
           Demo.coco_world "/ann/instances_train2017.json" Demo.instances
           parsed eq_refl Hp).
Defined.

(** ** VOC files *)

Lemma all_ok_readable {A : Type} (l : list (result A)) :
  Forall (fun b => exists a, b = Ok a) l -> all_ok l = Ok (oks l).
Proof.
  induction 1 as [|b rest [a ->] _ IH]; [reflexivity|].
  cbn [all_ok oks bind]. now rewrite IH.
Qed.

Lemma xml_loop_keeps_wanted (path : string) (label : LabelId)
  (objs : list VocObject) :
  Forall readable objs ->
  forall rects out,
  exists out',
    xml_loop path label objs rects out
    = Ok (rects ++ flat_map (fun o => oks (obj_bndboxes o))
                     (List.filter (wanted label) objs),
          out ++ out')
    /\ (length out' + length (List.filter (wanted label) objs))%nat
       = length objs.
Proof.
  induction 1 as [|o rest [[d Hd] Hb] _ IH]; intros rects out.
  - exists []. cbn. now rewrite !app_nil_r.
  - cbn [xml_loop List.filter].
    destruct (name_differs (obj_name o) label) eqn:Hn.
    + assert (Hw : wanted label o = false) by (unfold wanted; now rewrite Hn).
      rewrite Hw.
      destruct (IH rects (out ++ ["Ignore label " +:+ dquote +:+ obj_name o
                                   +:+ dquote +:+ " != " +:+ show_label label
                                   +:+ " in " +:+ path]))
        as (out' & -> & Hlen).
      eexists (_ :: out'). rewrite <- app_assoc. split; [reflexivity|].
      cbn [length]. lia.
    + rewrite Hd. cbn [bind]. destruct (Z.eqb_spec d 0) as [->|Hne]; cbn [negb].
      * assert (Hw : wanted label o = true)
          by (unfold wanted; now rewrite Hn, Hd).
        rewrite Hw, (all_ok_readable _ Hb). cbn [bind flat_map].
        destruct (IH (rects ++ oks (obj_bndboxes o)) out) as (out' & -> & Hlen).
        exists out'. rewrite <- app_assoc. split; [reflexivity|].
        cbn [length]. lia.
      * assert (Hw : wanted label o = false).
        { unfold wanted. rewrite Hn, Hd. cbn [negb andb].
          now destruct (Z.eqb_spec d 0). }
        rewrite Hw.
        destruct (IH rects (out ++ ["Ignore difficult label " +:+ dquote
                                      +:+ show_label label +:+ dquote
                                      +:+ " in " +:+ path]))
          as (out' & -> & Hlen).
        eexists (_ :: out'). rewrite <- app_assoc. split; [reflexivity|].
        cbn [length]. lia.
Qed.

(** For a VOC file whose objects all read as integers, [get_xml_rects]
    returns the boxes of the objects whose name is the label and whose
    difficult flag is zero, in the order of the file, and prints one line
    for every other object. *)
Theorem get_xml_rects_keeps_the_wanted {World : Type} {os : OS World}
  (w : World) (path : string) (label : LabelId) (objs : list VocObject) :
  xml_objects w path = Ok objs ->
  Forall readable objs ->
  exists out,
    get_xml_rects w path label
    = Ok (flat_map (fun o => oks (obj_bndboxes o))
            (List.filter (wanted label) objs), out)
    /\ (length out + length (List.filter (wanted label) objs))%nat
       = length objs.
Proof.
  intros Hx HF. unfold get_xml_rects. rewrite Hx. cbn [bind].
  destruct (xml_loop_keeps_wanted path label objs HF [] []) as (out & -> & Hlen).
  exists out. split; [reflexivity|exact Hlen].
Qed.

Lemma get_xml_rects_keeps_the_wanted_witness :
  xml_objects xml_world "/x/n00000001_1.xml" = Ok cheese_objects
  /\ Forall readable cheese_objects
  /\ exists out,
       get_xml_rects (os := Demo.os) xml_world "/x/n00000001_1.xml"
         (LStr "n00000001")
       = Ok ([[1; 2; 3; 4]%Z], out)
       /\ length out = 2%nat.
Proof.
  assert (HF : Forall readable cheese_objects).
  { repeat constructor; eauto. }
  split; [reflexivity|]. split; [exact HF|].
  destruct (get_xml_rects_keeps_the_wanted (os := Demo.os) xml_world
              "/x/n00000001_1.xml" (LStr "n00000001") cheese_objects eq_refl HF)
    as (out & Hrun & Hlen).
  exists out. split; [exact Hrun|]. cbn in Hlen. lia.
Defined.

Lemma xml_loop_integer_label (path : string) (n : Z) (objs : list VocObject) :
  forall rects out,
  exists out',
    xml_loop path (LInt n) objs rects out = Ok (rects, out ++ out')
    /\ length out' = length objs.
Proof.
  induction objs as [|o rest IH]; intros rects out.
  - exists []. now rewrite app_nil_r.
  - cbn [xml_loop name_differs].
    destruct (IH rects (out ++ ["Ignore label " +:+ dquote +:+ obj_name o
                                 +:+ dquote +:+ " != " +:+ show_label (LInt n)
                                 +:+ " in " +:+ path]))
      as (out' & -> & Hlen).
    eexists (_ :: out'). rewrite <- app_assoc. split; [reflexivity|].
    cbn [length]. now rewrite Hlen.
Qed.

Section VocFacts.
Context {World : Type} {os : OS World}.

(** An integer label equals no object name.  So when a COCO image finds
    no [instances] file and the search for a VOC file does find one (a name
    that starts with the twelve digits), every object is ignored, whatever
    its other elements are: [get_boxes] returns the empty list, which makes
    [main] skip the image, and prints one line per object. *)
Theorem integer_label_finds_no_voc_box
  (syn : Synsetizer) (depth : nat) (phase full_label : string) (n : Z)
  (meta : string) (annotations : list string)
  (cache : gmap string (gmap Z (list Box))) (w w1 w2 : World)
  (path : string) (objs : list VocObject) :
  Py.startswith meta "COCO_" = true ->
  scan_sources depth (Re.Lit ".json") None (is_instances_of phase) annotations w
  = Miss w1 ->
  scan_sources depth (Re.Lit ".xml") (Some (voc_ann_filter (LInt n)))
    (is_annotation_of full_label) annotations w1 = Hit path w2 ->
  xml_objects w2 path = Ok objs ->
  exists out,
    get_boxes (Some syn) depth phase full_label (LInt n) meta annotations cache w
    = Ok {| boxes := []; cache_after := cache; world_after := w2; lines := out |}
    /\ length out = length objs.
Proof.
  intros Hmeta Hjson Hxml Hobjs.
  destruct (xml_loop_integer_label path n objs [] []) as (out & Hloop & Hlen).
  exists out. split; [|exact Hlen].
  unfold get_boxes. rewrite Hmeta, Hjson. unfold voc_boxes. rewrite Hxml.
  unfold get_xml_rects. rewrite Hobjs. cbn [bind]. rewrite Hloop. reflexivity.
Qed.

Lemma voc_boxes_classes (depth : nat) (full_label : string) (label : LabelId)
  (annotations : list string) (cache : gmap string (gmap Z (list Box)))
  (w : World) (r : BoxesResult) :
  voc_boxes depth full_label label annotations cache w = Ok r ->
  cache_after r = cache /\ Forall (fun b => box_class b = label) (boxes r).
Proof.
  unfold voc_boxes. intros H.
  destruct (scan_sources _ _ _ _ _ _) as [path w'|w'|e]; [| |discriminate H].
  - destruct (get_xml_rects w' path label) as [[rects out]|]; [|discriminate H].
    cbn [bind fst snd] in H. injection H as <-. cbn [cache_after boxes].
    split; [reflexivity|]. apply Forall_forall. intros b Hb.
    apply list_elem_of_In, in_map_iff in Hb as (rect & <- & _). reflexivity.
  - injection H as <-. split; [reflexivity|]. repeat constructor.
Qed.

(** What [get_boxes] does to its cache and what classes it gives.  The
    cache only grows: an entry that is there stays as it is, so a parsed
    COCO file is never parsed again or replaced.  For an image whose meta
    does not start with [COCO_], the cache is not touched and every box
    carries the label of the image as its class. *)
Theorem get_boxes_cache_and_classes
  (_syn_cache : option Synsetizer) (depth : nat) (phase full_label : string)
  (label : LabelId) (meta : string) (annotations : list string)
  (cache : gmap string (gmap Z (list Box))) (w : World) (r : BoxesResult) :
  get_boxes _syn_cache depth phase full_label label meta annotations cache w
  = Ok r ->
  (forall fname parsed,
      cache !! fname = Some parsed -> cache_after r !! fname = Some parsed)
  /\ (Py.startswith meta "COCO_" = false ->
      cache_after r = cache
      /\ Forall (fun b => box_class b = label) (boxes r)).
Proof.
  unfold get_boxes. intros H.
  destruct (Py.startswith meta "COCO_").
  - split; [|discriminate].
    destruct _syn_cache as [syn|]; [|discriminate H].
    destruct (scan_sources _ _ _ _ _ _) as [path w'|w'|e]; [| |discriminate H].
    + destruct (cache !! OsPath.basename path) as [old|] eqn:Hc.
      * cbn [bind] in H.
        destruct (boxes_of label _); injection H as <-; auto.
      * destruct (get_coco_bboxes (Some syn) w' path) as [parsed|];
          [|discriminate H].
        cbn [bind] in H.
        assert (Hkeep : forall fname p,
                   cache !! fname = Some p ->
                   <[OsPath.basename path := parsed]> cache !! fname = Some p).
        { intros fname p Hf. rewrite lookup_insert_ne; [exact Hf|].
          intros <-. congruence. }
        destruct (boxes_of label _); injection H as <-; exact Hkeep.
    + destruct (voc_boxes_classes _ _ _ _ _ _ _ H) as [-> _]. auto.
  - destruct (voc_boxes_classes _ _ _ _ _ _ _ H) as [-> HF]. auto.
Qed.
End VocFacts.

Lemma integer_label_finds_no_voc_box_witness :
  exists out,
    get_boxes (os := Demo.os) (Some Demo.syn) 5 "train2017" "000000000001"
      (LInt 1) "COCO_" ["/y/000000000001.xml"] ∅ xml_world
    = Ok {| boxes := []; cache_after := ∅; world_after := xml_world;
            lines := out |}
    /\ length out = 3%nat.
Proof.
  exact (integer_label_finds_no_voc_box (os := Demo.os) Demo.syn 5 "train2017"
           "000000000001" 1%Z "COCO_" ["/y/000000000001.xml"] ∅
           xml_world xml_world xml_world "/y/000000000001.xml" cheese_objects
           eq_refl eq_refl eq_refl eq_refl).
Defined.

Lemma get_boxes_cache_and_classes_witness :
  exists r,
    get_boxes (os := Demo.os) None 5 "train" "n00000001_1" (LStr "n00000001")
      "IN_" ["/x"] ∅ xml_world = Ok r
    /\ boxes r = [{| box_class := LStr "n00000001"; box_rect := [1; 2; 3; 4]%Z |}]
    /\ (forall fname parsed,
          (∅ : gmap string (gmap Z (list Box))) !! fname = Some parsed ->
          cache_after r !! fname = Some parsed)
    /\ (Py.startswith "IN_" "COCO_" = false ->
        cache_after r = ∅
        /\ Forall (fun b => box_class b = LStr "n00000001") (boxes r)).
Proof.
  destruct (get_boxes (os := Demo.os) None 5 "train" "n00000001_1"
              (LStr "n00000001") "IN_" ["/x"] ∅ xml_world) as [r|e] eqn:Hr;
    [|vm_compute in Hr; discriminate Hr].
  exists r. split; [reflexivity|].
  split; [vm_compute in Hr; injection Hr as <-; reflexivity|].
  exact (get_boxes_cache_and_classes (os := Demo.os) None 5 "train"
           "n00000001_1" (LStr "n00000001") "IN_" ["/x"] ∅ xml_world r Hr).
Defined.

(* ================================================================== *)
(** * Further properties: archives and enumeration *)

Lemma prefix_nil (s : string) : String.prefix EmptyString s = true.
Proof. destruct s; reflexivity. Qed.

Lemma commonprefix_is_prefix (a b : string) :
  String.eqb (AbsPath.commonprefix a b) a = String.prefix a b.
Proof.
  revert b. induction a as [|x a IH]; intros b.
  - cbn. now rewrite prefix_nil.
  - destruct b as [|y b]; [reflexivity|].
    cbn [AbsPath.commonprefix String.prefix].
    destruct (Ascii.eqb_spec x y) as [->|Hne].
    + cbn [String.eqb]. rewrite Ascii.eqb_refl, IH.
      now destruct (ascii_dec y y).
    + cbn [String.eqb]. now destruct (ascii_dec x y).
Qed.

Section SafeExtract.
Context {World : Type} {os : OS World}.

Lemma is_within_directory_is_prefix (w : World) (directory target : string) :
  is_within_directory w directory target
  = String.prefix (AbsPath.abspath (getcwd w) directory)
      (AbsPath.abspath (getcwd w) target).
Proof. unfold is_within_directory. apply commonprefix_is_prefix. Qed.

Lemma check_members_forallb (w : World) (path : string) (members : list string) :
  check_members w path members
  = if forallb (member_passes w path) members then Ok tt
    else Raise path_traversal.
Proof.
  induction members as [|name rest IH]; [reflexivity|].
  cbn [check_members forallb]. rewrite is_within_directory_is_prefix.
  fold (member_passes w path name).
  destruct (member_passes w path name); [exact IH|reflexivity].
Qed.

(** [safe_extract] looks at every member before it extracts anything: it
    calls [extractall] when, for each member, the absolute destination is
    a prefix, as a string, of the absolute joined path, and otherwise it
    raises the path-traversal exception and extracts nothing. *)
Theorem safe_extract_checks_every_member
  (w : World) (archive path : string) (members : list string) :
  tar_getmembers w archive = Ok members ->
  safe_extract w archive path
  = if forallb (member_passes w path) members
    then tar_extractall w archive path
    else Raise path_traversal.
Proof.
  intros Hm. unfold safe_extract. rewrite Hm. cbn [bind].
  rewrite check_members_forallb.
  destruct (forallb (member_passes w path) members); reflexivity.
Qed.
End SafeExtract.

Lemma safe_extract_checks_every_member_witness :
  tar_getmembers traversal_world "/data/b.tar" = Ok ["ok.txt"; "../../evil"]
  /\ forallb (member_passes traversal_world "/data/extracted_b")
       ["ok.txt"; "../../evil"] = false
  /\ safe_extract (os := Demo.os) traversal_world "/data/b.tar"
       "/data/extracted_b" = Raise path_traversal.
Proof.
  split; [reflexivity|]. split; [reflexivity|].
  exact (safe_extract_checks_every_member (os := Demo.os) traversal_world
           "/data/b.tar" "/data/extracted_b" ["ok.txt"; "../../evil"] eq_refl).
Defined.

(** ** What the walker yields *)

Lemma yields_gen_then {World : Type} (g : Gen World) (k : World -> Gen World)
  (x : string * World) :
  In x (yields (gen_then g k)) ->
  In x (yields g) \/ exists w1, outcome g = Ok w1 /\ In x (yields (k w1)).
Proof.
  induction g as [w0|p w0 rest IH|e]; cbn [gen_then yields outcome].
  - intros H. right. eauto.
  - intros [<-|H]; [left; now left|].
    destruct (IH H) as [H'|H']; [left; now right|now right].
  - intros [].
Qed.

Lemma yields_gen_each {World : Type} (f : World -> string -> Gen World)
  (names : list string) :
  forall (w : World) (x : string * World),
    In x (yields (gen_each f names w)) ->
    exists s0 w1, In s0 names /\ In x (yields (f w1 s0)).
Proof.
  induction names as [|s0 rest IH]; intros w x; cbn [gen_each yields];
    [intros []|].
  intros H. apply yields_gen_then in H as [H|(w1 & _ & H)].
  - exists s0, w. split; [now left|exact H].
  - destruct (IH _ _ H) as (s1 & w2 & Hin & Hy). exists s1, w2.
    split; [now right|exact Hy].
Qed.

Section Yields.
Context {World : Type} {os : OS World}.

Lemma yields_lift {A : Type} (r : result A) (k : A -> Gen World)
  (x : string * World) :
  In x (yields (lift r k)) -> exists a, r = Ok a /\ In x (yields (k a)).
Proof. destruct r as [a|e]; cbn [lift yields]; [eauto|intros []]. Qed.

(** Every path [listarchive] yields is, in the world of that moment, not
    a directory, and its compound extension is none of [.tar], [.tar.gz],
    [.zip] and matches the extension pattern: directories and archives
    are walked into, never yielded. *)
Theorem listarchive_yields_matching_files (depth : nat) :
  forall (w : World) (path : string) (is_root : bool)
         (extension_pattern : Re.regex)
         (filter_func : option (string -> result bool))
         (p : string) (w' : World),
    In (p, w') (yields (listarchive depth w path is_root extension_pattern
                          filter_func)) ->
    isdir w' p = false
    /\ exists ext,
         file_extension p = Some ext
         /\ existsb (String.eqb ext) archive_exts = false
         /\ is_Some (Re.match_icase extension_pattern ext).
Proof.
  induction depth as [|depth IH];
    intros w path is_root pat flt p w'; cbn [listarchive]; [intros []|].
  destruct (isdir w path) eqn:Hdir.
  - intros H. apply yields_lift in H as (names & _ & H).
    apply yields_lift in H as ([subs flt'] & _ & H).
    apply yields_gen_each in H as (s0 & w1 & _ & H). exact (IH _ _ _ _ _ _ _ H).
  - unfold file_extension.
    destruct (OsPath.split path) as [local_path fname] eqn:Hsplit.
    destruct (OsPath.splitext fname) as [basename ext0] eqn:Hext.
    destruct (compound_ext basename (Py.lower ext0)) as [ext|] eqn:Hc;
      [|intros []].
    destruct (existsb (String.eqb ext) archive_exts) eqn:Harch; cbn [negb].
    + destruct (path_exists w _); [apply IH|].
      intros H. apply yields_lift in H as (w1 & _ & H).
      apply yields_gen_then in H as [H|(w2 & _ & H)]; [exact (IH _ _ _ _ _ _ _ H)|].
      destruct is_root; cbn [negb] in H; [destruct H|].
      apply yields_lift in H as (w3 & _ & []).
    + destruct (Re.match_icase pat ext) as [m|] eqn:Hm; [|intros []].
      intros [[= <- <-]|[]]. split; [exact Hdir|].
      rewrite Hsplit, Hext, Hc. exists ext. rewrite Hm. eauto.
Qed.
End Yields.

Lemma listarchive_yields_matching_files_witness :
  In ("/voc/n00000001/n00000001_1.xml", Demo.voc_world)
    (yields (listarchive (os := Demo.os) 3 Demo.voc_world "/voc" true
               (Re.Lit ".xml") None))
  /\ isdir Demo.voc_world "/voc/n00000001/n00000001_1.xml" = false
  /\ exists ext,
       file_extension "/voc/n00000001/n00000001_1.xml" = Some ext
       /\ existsb (String.eqb ext) archive_exts = false
       /\ is_Some (Re.match_icase (Re.Lit ".xml") ext).
Proof.
  assert (H : In ("/voc/n00000001/n00000001_1.xml", Demo.voc_world)
                (yields (listarchive (os := Demo.os) 3 Demo.voc_world "/voc" true
                           (Re.Lit ".xml") None))).
  { vm_compute. auto. }
  split; [exact H|].
  exact (listarchive_yields_matching_files (os := Demo.os) 3 Demo.voc_world
           "/voc" true (Re.Lit ".xml") None "/voc/n00000001/n00000001_1.xml"
           Demo.voc_world H).
Defined.

(** ** The loop that peels extensions *)

Lemma rfind_split_append (c : ascii) (s h t : string) :
  Py.rfind_split c s = Some (h, t) -> s = h +:+ t.
Proof.
  revert h t. induction s as [|a s IH]; intros h t H; [discriminate H|].
  cbn [Py.rfind_split] in H.
  destruct (Py.rfind_split c s) as [[h' t']|].
  - injection H as <- <-. cbn [String.append]. f_equal. now apply IH.
  - destruct (Ascii.eqb a c); [|discriminate H]. now injection H as <- <-.
Qed.

Lemma rfind_split_tail (c : ascii) (s h t : string) :
  Py.rfind_split c s = Some (h, t) ->
  exists t', t = String c t' /\ Py.rfind_split c t' = None.
Proof.
  revert h t. induction s as [|a s IH]; intros h t H; [discriminate H|].
  cbn [Py.rfind_split] in H.
  destruct (Py.rfind_split c s) as [[h' t']|] eqn:Hs.
  - injection H as <- <-. now apply (IH h' t').
  - destruct (Ascii.eqb_spec a c) as [->|]; [|discriminate H].
    injection H as <- <-. eauto.
Qed.

Lemma rfind_split_none_append (c : ascii) (a b : string) :
  Py.rfind_split c (a +:+ b) = None -> Py.rfind_split c a = None.
Proof.
  induction a as [|x a IH]; [reflexivity|].
  cbn [String.append Py.rfind_split].
  destruct (Py.rfind_split c (a +:+ b)) as [[h t]|]; [discriminate|].
  destruct (Ascii.eqb x c); [discriminate|]. intros _. now rewrite IH.
Qed.

Lemma rfind_split_none_contains (c : ascii) (s : string) :
  Py.rfind_split c s = None -> Py.contains (String c EmptyString) s = false.
Proof.
  induction s as [|a s IH]; [reflexivity|].
  cbn [Py.rfind_split Py.contains String.prefix].
  destruct (Py.rfind_split c s) as [[h t]|]; [discriminate|].
  destruct (Ascii.eqb_spec a c) as [->|Hne]; [discriminate|]. intros _.
  rewrite IH by reflexivity.
  destruct (ascii_dec c a) as [->|]; [contradiction|reflexivity].
Qed.

Lemma contains_head (c : ascii) (s : string) :
  Py.contains (String c EmptyString) (String c s) = true.
Proof.
  cbn [Py.contains String.prefix].
  destruct (ascii_dec c c); [|contradiction]. now rewrite prefix_nil.
Qed.

(** What is left of the last slash has no slash. *)
Lemma basename_no_slash (p : string) :
  Py.rfind_split "/" (OsPath.basename p) = None.
Proof.
  unfold OsPath.basename, OsPath.cut.
  destruct (Py.rfind_split "/" p) as [[h t]|] eqn:H; [|exact H].
  destruct (rfind_split_tail _ _ _ _ H) as (t' & -> & Ht). exact Ht.
Qed.

Lemma splitext_no_slash (s : string) :
  Py.rfind_split "/" s = None ->
  OsPath.splitext s
  = match Py.rfind_split "." s with
    | Some (stem, ext) =>
        if Py.all_chars (Ascii.eqb ".") stem then (s, EmptyString)
        else (stem, ext)
    | None => (s, EmptyString)
    end.
Proof. intros H. unfold OsPath.splitext, OsPath.cut. now rewrite H. Qed.

(** A name that starts with a dot keeps its dot, whatever is peeled. *)
Lemma splitext_hidden (r : string) :
  Py.rfind_split "/" (String "." r) = None ->
  exists r',
    fst (OsPath.splitext (String "." r)) = String "." r'
    /\ Py.rfind_split "/" (String "." r') = None.
Proof.
  intros Hs. rewrite (splitext_no_slash _ Hs).
  destruct (Py.rfind_split "." (String "." r)) as [[stem ext]|] eqn:Hd;
    [|exists r; auto].
  destruct (Py.all_chars (Ascii.eqb ".") stem) eqn:Ha; [exists r; auto|].
  pose proof (rfind_split_append _ _ _ _ Hd) as Heq.
  destruct stem as [|a stem]; [discriminate Ha|].
  cbn [String.append] in Heq. injection Heq as <- Hr.
  exists stem. split; [reflexivity|].
  apply (rfind_split_none_append _ _ ext). cbn [String.append]. now rewrite <- Hr.
Qed.

Lemma peel_ext_hidden (n : nat) :
  forall r ext,
    Py.rfind_split "/" (String "." r) = None ->
    peel_ext n (String "." r) ext = None.
Proof.
  induction n as [|n IH]; intros r ext Hs; cbn [peel_ext];
    rewrite contains_head; [reflexivity|].
  destruct (splitext_hidden r Hs) as (r' & Hfst & Hs').
  destruct (OsPath.splitext (String "." r)) as [sn se]. cbn [fst] in Hfst.
  subst sn. destruct (Py.truthy se); [now apply IH|reflexivity].
Qed.

(** A name that does not start with a dot loses an extension at each turn. *)
Lemma splitext_visible (s : string) :
  Py.rfind_split "/" s = None ->
  Py.startswith s "." = false ->
  forall stem ext,
    OsPath.splitext s = (stem, ext) ->
    Py.rfind_split "/" stem = None
    /\ Py.startswith stem "." = false
    /\ (String.length stem <= String.length s)%nat
    /\ (Py.contains "." s = true ->
        Py.truthy ext = true /\ (String.length stem < String.length s)%nat).
Proof.
  intros Hs Hv stem ext. rewrite (splitext_no_slash _ Hs).
  destruct (Py.rfind_split "." s) as [[stem' ext']|] eqn:Hd.
  - pose proof (rfind_split_append _ _ _ _ Hd) as Heq.
    destruct (rfind_split_tail _ _ _ _ Hd) as (t' & -> & _).
    destruct stem' as [|a stem'].
    + subst s. cbn in Hv. destruct (ascii_dec "." "."); [|contradiction].
      now rewrite prefix_nil in Hv.
    + assert (Ha : Ascii.eqb "." a = false).
      { subst s. unfold Py.startswith in Hv. cbn [String.append String.prefix] in Hv.
        destruct (ascii_dec "." a) as [<-|Hne]; [now rewrite prefix_nil in Hv|].
        now apply Ascii.eqb_neq. }
      cbn [Py.all_chars]. rewrite Ha. cbn [andb]. intros [= <- <-].
      split; [subst s; now apply (rfind_split_none_append _ _ (String "." t'))|].
      split.
      { unfold Py.startswith. cbn [String.prefix].
        destruct (ascii_dec "." a) as [<-|]; [|reflexivity].
        now rewrite Ascii.eqb_refl in Ha. }
      subst s. rewrite length_append. cbn [String.length]. split; [lia|].
      intros _. split; [reflexivity|lia].
  - intros [= <- <-]. split; [exact Hs|]. split; [exact Hv|]. split; [lia|].
    intros Hc. rewrite (rfind_split_none_contains _ _ Hd) in Hc. discriminate Hc.
Qed.

Lemma peel_ext_visible (n : nat) :
  forall s ext,
    (String.length s <= n)%nat ->
    Py.rfind_split "/" s = None ->
    Py.startswith s "." = false ->
    is_Some (peel_ext n s ext).
Proof.
  induction n as [|n IH]; intros s ext Hlen Hs Hv; cbn [peel_ext].
  - destruct s; [eauto|cbn [String.length] in Hlen; lia].
  - destruct (Py.contains "." s) eqn:Hc; [|eauto].
    destruct (OsPath.splitext s) as [stem e] eqn:Hsplit.
    destruct (splitext_visible s Hs Hv stem e Hsplit) as (H1 & H2 & _ & H4).
    destruct (H4 Hc) as [-> Hlt]. apply IH; [lia|exact H1|exact H2].
Qed.

Lemma split_basename (path : string) :
  snd (OsPath.split path) = OsPath.basename path.
Proof. unfold OsPath.split, OsPath.basename. now destruct (OsPath.cut path). Qed.

Lemma file_extension_visible_iff (path : string) :
  file_extension path = None
  <-> Py.startswith (OsPath.basename path) "." = true.
Proof.
  unfold file_extension. pose proof (split_basename path) as Hb.
  destruct (OsPath.split path) as [local_path fname]. cbn [snd] in Hb. subst fname.
  pose proof (basename_no_slash path) as Hs.
  destruct (Py.startswith (OsPath.basename path) ".") eqn:Hv.
  - split; [reflexivity|]. intros _.
    apply prefix_split in Hv as [r Hr]. cbn [String.append] in Hr.
    rewrite Hr in *. destruct (splitext_hidden r Hs) as (r' & Hfst & Hs').
    destruct (OsPath.splitext (String "." r)) as [basename ext0].
    cbn [fst] in Hfst. subst basename. now apply peel_ext_hidden.
  - split; [|discriminate]. intros Hnone. exfalso.
    destruct (OsPath.splitext (OsPath.basename path)) as [basename ext0] eqn:Hx.
    destruct (splitext_visible _ Hs Hv _ _ Hx) as (H1 & H2 & _ & _).
    destruct (peel_ext_visible (String.length basename) basename
                (Py.lower ext0) (Nat.le_refl _) H1 H2) as [ext Hext].
    unfold compound_ext in Hnone. congruence.
Qed.

(** The loop [while '.' in shortname] ends exactly when the file name
    does not start with a dot.  On a path that is not a directory and
    whose name starts with a dot (listings leave those out, but a path
    given as annotation source can be one), [splitext] finds nothing to
    peel and the loop never ends: [listarchive] does not return. *)
Theorem hidden_file_names_never_return :
  (forall path,
      file_extension path = None
      <-> Py.startswith (OsPath.basename path) "." = true)
  /\ (forall (World : Type) (os : OS World) (depth : nat) (w : World)
             (path : string) (is_root : bool) (extension_pattern : Re.regex)
             (filter_func : option (string -> result bool)),
         isdir w path = false ->
         Py.startswith (OsPath.basename path) "." = true ->
         listarchive (S depth) w path is_root extension_pattern filter_func
         = Throw Diverges).
Proof.
  split; [exact file_extension_visible_iff|].
  intros World os depth w path is_root pat flt Hdir Hv.
  apply file_extension_visible_iff in Hv. unfold file_extension in Hv.
  cbn [listarchive]. rewrite Hdir.
  destruct (OsPath.split path) as [local_path fname].
  destruct (OsPath.splitext fname) as [basename ext0].
  now rewrite Hv.
Qed.

Lemma hidden_file_names_never_return_witness :
  isdir (@nil (string * Demo.Node)) "/data/.annotations.zip" = false
  /\ Py.startswith (OsPath.basename "/data/.annotations.zip") "." = true
  /\ listarchive (os := Demo.os) 1 [] "/data/.annotations.zip" true
       (Re.Lit ".json") None = Throw Diverges.
Proof.
  split; [reflexivity|]. split; [reflexivity|].
  destruct hidden_file_names_never_return as [_ H].
  exact (H Demo.FS Demo.os 0%nat [] "/data/.annotations.zip" true
           (Re.Lit ".json") None eq_refl eq_refl).
Defined.

(* ================================================================== *)
(** * Further properties: the files written *)

Lemma join_rows_app (a b : list string) :
  join_rows (a ++ b) = join_rows a +:+ join_rows b.
Proof.
  induction a as [|r a IH]; [reflexivity|].
  cbn [app join_rows]. now rewrite IH, append_assoc.
Qed.

Lemma offsets_app (start : nat) (a b : list string) :
  offsets start (a ++ b)
  = offsets start a ++ offsets (start + String.length (join_rows a)) b.
Proof.
  revert start. induction a as [|r a IH]; intros start.
  - cbn. now rewrite Nat.add_0_r.
  - cbn [app offsets join_rows]. rewrite IH, length_append.
    now rewrite Nat.add_assoc.
Qed.

Lemma index_lines_app (a b : list nat) :
  index_lines (a ++ b) = index_lines a +:+ index_lines b.
Proof. unfold index_lines. now rewrite map_app, join_rows_app. Qed.

Section Files.
Context {World : Type} {os : OS World}.
Variable _syn_cache : option Synsetizer.
Variable json_dumps : list Box -> string.
Variable relpath : string -> string -> string.

(** What one image adds to the two files: nothing, or one row and the
    offset at which it starts. *)
Lemma emit_image_rows (depth : nat) (root_path phase : string)
  (annotation : list string) (v : ImageRecord) (e e' : Emit) :
  emit_image _syn_cache json_dumps relpath depth root_path phase annotation v e
  = Ok e' ->
  exists rows,
    (length rows <= 1)%nat
    /\ Forall (fun row => exists body, row = body +:+ newline) rows
    /\ tsv_file e' = tsv_file e +:+ join_rows rows
    /\ idx_file e'
       = idx_file e +:+ index_lines (offsets (String.length (tsv_file e)) rows).
Proof.
  unfold emit_image. intros H.
  destruct (get_boxes _ _ _ _ _ _ _ _ _) as [r|]; [|discriminate H].
  cbn [bind] in H. destruct (boxes r) as [|b bs]; injection H as <-.
  - exists []. cbn. rewrite !append_nil_r. repeat split; auto.
  - exists [img_full_label v +:+ tab +:+ json_dumps (b :: bs) +:+ tab
            +:+ Py.replace "\" "/" (relpath (img_path v) root_path)
            +:+ newline].
    cbn [length join_rows offsets index_lines map tsv_file idx_file].
    rewrite !append_nil_r. split; [lia|]. split; [|split; reflexivity].
    repeat constructor.
    exists (img_full_label v +:+ tab +:+ json_dumps (b :: bs) +:+ tab
            +:+ Py.replace "\" "/" (relpath (img_path v) root_path)).
    rewrite !append_assoc. reflexivity.
Qed.

Lemma emit_images_rows (depth : nat) (root_path phase : string)
  (annotation : list string) (vs : list ImageRecord) :
  forall e e',
    emit_images _syn_cache json_dumps relpath depth root_path phase annotation
      vs e = Ok e' ->
    exists rows,
      (length rows <= length vs)%nat
      /\ Forall (fun row => exists body, row = body +:+ newline) rows
      /\ tsv_file e' = tsv_file e +:+ join_rows rows
      /\ idx_file e'
         = idx_file e
             +:+ index_lines (offsets (String.length (tsv_file e)) rows).
Proof.
  induction vs as [|v rest IH]; intros e e' H.
  - injection H as <-. exists []. cbn. rewrite !append_nil_r. repeat split; auto.
  - cbn [emit_images] in H.
    destruct (emit_image _ _ _ _ _ _ _ v e) as [e1|] eqn:H1; [|discriminate H].
    cbn [bind] in H.
    destruct (emit_image_rows _ _ _ _ _ _ _ H1) as (r1 & L1 & F1 & T1 & I1).
    destruct (IH _ _ H) as (r2 & L2 & F2 & T2 & I2).
    exists (r1 ++ r2). split; [rewrite length_app; cbn [length]; lia|].
    split; [now apply Forall_app|]. split.
    + now rewrite T2, T1, join_rows_app, append_assoc.
    + rewrite I2, I1, T1, offsets_app, index_lines_app, length_append.
      now rewrite append_assoc.
Qed.

Lemma emit_phases_files (depth : nat) (root_path : string) (multi_phase : bool)
  (annotation : list string) (images : ImageData) :
  forall r r',
    emit_phases _syn_cache json_dumps relpath depth root_path multi_phase
      annotation images r = Ok r' ->
    exists new,
      files r' = files r ++ new
      /\ map (fun f => fst (fst f)) new = map fst images
      /\ Forall indexed new.
Proof.
  induction images as [|[phase vs] rest IH]; intros r r' H.
  - injection H as <-. exists []. rewrite app_nil_r. repeat split; constructor.
  - cbn [emit_phases] in H.
    destruct (emit_images _ _ _ _ _ _ _ vs _) as [e|] eqn:He; [|discriminate H].
    cbn [bind] in H.
    destruct (emit_images_rows _ _ _ _ _ _ _ He) as (rows & _ & F & T & I).
    cbn [tsv_file idx_file String.append String.length] in T, I.
    destruct (IH _ _ H) as (new & Hf & Hp & Hi). cbn [files] in Hf.
    exists ((phase, tsv_file e, idx_file e) :: new).
    split; [now rewrite Hf, <- app_assoc|].
    split; [cbn [map fst]; now rewrite Hp|].
    constructor; [|exact Hi]. exists rows. cbn [fst snd]. auto.
Qed.

(** What a run writes.  [main] writes one pair of files per phase of the
    gathering, in the order of the phases; in every pair the TSV file is a
    sequence of rows, each ended by a newline, at most one per image of
    the phase, and the line index holds, one per line, the offset at which
    each row starts.  It returns the mappings gathering built. *)
Theorem main_writes_indexed_files
  (depth : nat) (w : World) (root_path : string) (keep : pyfloat)
  (annotation : list string) (r : Run) (images : ImageData)
  (counters : gmap LabelId Z) :
  main _syn_cache json_dumps relpath depth w root_path keep annotation
  = Ok (r, (images, counters)) ->
  (exists st,
      gather_images _syn_cache w depth root_path keep empty_state = Ok st
      /\ images = imagedata st /\ counters = counts st)
  /\ map (fun f => fst (fst f)) (files r) = map fst images
  /\ Forall indexed (files r).
Proof.
  unfold main. intros H.
  destruct (gather_images _ _ _ _ _ _) as [st|]; [|discriminate H].
  cbn [bind] in H.
  destruct (emit_phases _ _ _ _ _ _ _ _ _) as [r1|] eqn:He; [|discriminate H].
  cbn [bind] in H. injection H as <- <- <-.
  destruct (emit_phases_files _ _ _ _ _ _ _ He) as (new & Hf & Hp & Hi).
  cbn [files app] in Hf. rewrite Hf. split; [eauto|]. split; assumption.
Qed.
End Files.

Lemma main_writes_indexed_files_witness :
  exists r images counters,
    main (os := Demo.os) None (fun _ => "[]") (fun p _ => p) 5 tiny_dataset "/data"
      PosInf ["/x"] = Ok (r, (images, counters))
    /\ map (fun f => fst (fst f)) (files r) = map fst images
    /\ map fst images = ["train"]
    /\ Forall indexed (files r).
Proof.
  destruct (main (os := Demo.os) None (fun _ => "[]") (fun p _ => p) 5 tiny_dataset
              "/data" PosInf ["/x"]) as [[r [images counters]]|e] eqn:H;
    [|vm_compute in H; discriminate H].
  exists r, images, counters. split; [reflexivity|].
  destruct (main_writes_indexed_files (os := Demo.os) None (fun _ => "[]")
              (fun p _ => p) 5 tiny_dataset "/data" PosInf ["/x"] r images counters H)
    as (_ & Hp & Hi).
  split; [exact Hp|]. split; [|exact Hi].
  vm_compute in H. injection H as _ <- _. reflexivity.
Defined.

(* ================================================================== *)
(** * Further properties: what is ignored and what fails *)

Section Ignored.
Context {World : Type} {os : OS World}.
Variable _syn_cache : option Synsetizer.
Variable w : World.

(** Gathering ignores the entries that are hidden and the files without
    an image extension: the loop over a listing does what it does on the
    other entries alone, in the same order. *)
Theorem gathering_ignores_other_entries
  (recurse : string -> GatherState -> result GatherState)
  (root_path : string) (names : list string) (cap : pyfloat)
  (st : GatherState) :
  gather_loop _syn_cache w recurse root_path names cap st
  = gather_loop _syn_cache w recurse root_path
      (List.filter (looked_at w root_path) names) cap st.
Proof.
  revert st. induction names as [|s0 rest IH]; intros st; [reflexivity|].
  cbn [List.filter]. unfold looked_at at 1.
  destruct (hidden s0) eqn:Hh; cbn [negb andb].
  - cbn [gather_loop]. rewrite Hh. apply IH.
  - destruct (isdir w (OsPath.join root_path s0)) eqn:Hd; cbn [orb].
    + cbn [gather_loop]. rewrite Hh, Hd.
      destruct (recurse _ st); [apply IH|reflexivity].
    + destruct (has_valid_extension (OsPath.join root_path s0)) eqn:Hx.
      * cbn [gather_loop]. rewrite Hh, Hd.
        destruct (gather_file _ _ _ _ st); [apply IH|reflexivity].
      * cbn [gather_loop]. rewrite Hh, Hd. unfold gather_file at 1.
        rewrite Hx. cbn [negb bind]. apply IH.
Qed.
End Ignored.

(** ** A COCO file with an annotation that cannot be parsed *)

Lemma to_rect_ok_iff (bbox : list Z) :
  (exists rect, to_rect bbox = Ok rect) <-> (4 <= length bbox)%nat.
Proof.
  destruct bbox as [|x [|y [|bw [|bh rest]]]]; cbn [length];
    (split;
     [intros [rect H]; try discriminate H; lia
     |intros H; try lia; eexists; reflexivity]).
Qed.

Lemma coco_loop_ok_iff (_syn_cache : option Synsetizer)
  (categories : gmap Z (string * string)) (anns : list CocoAnnotation) :
  forall acc,
    (exists res, coco_loop _syn_cache categories anns acc = Ok res)
    <-> Forall (parsable _syn_cache categories) anns.
Proof.
  induction anns as [|a rest IH]; intros acc.
  - split; [constructor|eauto].
  - cbn [coco_loop]. split.
    + intros [res H].
      destruct (categories !! ann_category_id a) as [[name parent]|] eqn:Hc;
        [|discriminate H].
      destruct (synset_offset _syn_cache name parent) as [l|] eqn:Hs;
        [|discriminate H].
      destruct (to_rect (ann_bbox a)) as [bbox|] eqn:Hr; [|discriminate H].
      cbn [bind] in H. constructor.
      * split; [eauto|]. apply to_rect_ok_iff. eauto.
      * apply (IH (add_box (ann_image_id a)
                     {| box_class := LStr l; box_rect := bbox |} acc)). eauto.
    + intros HF. inversion HF as [|? ? [(name & parent & l & Hc & Hs) Hlen] HF'];
        subst.
      rewrite Hc, Hs. apply to_rect_ok_iff in Hlen as [bbox Hr].
      rewrite Hr. cbn [bind]. now apply IH.
Qed.

(** [get_coco_bboxes] gives no partial result.  When the file is of the
    COCO format and one of its annotations cannot be turned into a box
    (its category is not in the table, the synset service fails on the
    category, or its bbox has fewer than four elements), the call raises,
    wherever that annotation stands in the file and whatever the others
    are. *)
Theorem coco_bad_annotation_fails_the_parse {World : Type} {os : OS World}
  (_syn_cache : option Synsetizer) (w : World) (path : string)
  (content : CocoContent) :
  json_load w path = Ok content ->
  Exists (fun ann => ~ parsable _syn_cache
                        (category_table (categories_of content)) ann)
    (annotations_of content) ->
  exists e, get_coco_bboxes _syn_cache w path = Raise e.
Proof.
  intros Hload Hbad. unfold get_coco_bboxes. rewrite Hload. cbn [bind].
  destruct (coco_loop _syn_cache (category_table (categories_of content))
              (annotations_of content) ∅) as [parsed|e] eqn:Hrun;
    [|eexists; reflexivity].
  exfalso.
  assert (Hall : Forall (parsable _syn_cache
                           (category_table (categories_of content)))
                   (annotations_of content))
    by (apply (coco_loop_ok_iff _ _ _ ∅); eexists; exact Hrun).
  apply Exists_exists in Hbad as (ann & Hin & Hno). apply Hno.
  rewrite Forall_forall in Hall. apply Hall, Hin.
Qed.

Lemma coco_bad_annotation_fails_the_parse_witness :
  json_load short_bbox_world "/ann/instances_val2017.json"
  = Ok short_bbox_instances
  /\ get_coco_bboxes (os := Demo.os) (Some Demo.syn) short_bbox_world
       "/ann/instances_val2017.json" = Raise IndexError
  /\ exists e,
       get_coco_bboxes (os := Demo.os) (Some Demo.syn) short_bbox_world
         "/ann/instances_val2017.json" = Raise e.
Proof.
  split; [reflexivity|]. split; [reflexivity|].
  apply (coco_bad_annotation_fails_the_parse (os := Demo.os) (Some Demo.syn)
           short_bbox_world "/ann/instances_val2017.json" short_bbox_instances
           eq_refl).
  apply Exists_cons_tl, Exists_cons_hd.
  intros [_ Hlen]. cbn in Hlen. lia.
Defined.

(** ** The VOC search with an integer label *)

Section IntegerLabel.
Context {World : Type} {os : OS World}.

Lemma listarchive_integer_filter (depth : nat) (w : World) (path : string)
  (is_root : bool) (extension_pattern : Re.regex) (n : Z)
  (names : list string) :
  isdir w path = true ->
  listdir w path = Ok names ->
  List.filter (fun s0 => negb (hidden s0)) names <> [] ->
  listarchive (S depth) w path is_root extension_pattern
    (Some (voc_ann_filter (LInt n)))
  = Throw TypeError.
Proof.
  intros Hd Hl Hne. cbn [listarchive]. rewrite Hd, Hl. cbn [lift].
  unfold select.
  destruct (List.filter (fun s0 => negb (hidden s0)) names) as [|s0 rest];
    [congruence|reflexivity].
Qed.

(** A COCO image for which no [instances] file is found makes the run
    fail as soon as the first annotation source is a directory with an
    entry that is not hidden: the filter of the VOC search evaluates
    [label in elem] with the integer label, which raises [TypeError]. *)
Theorem integer_label_breaks_the_voc_search
  (syn : Synsetizer) (depth : nat) (phase full_label : string) (n : Z)
  (meta : string) (ann_path : string) (others : list string)
  (cache : gmap string (gmap Z (list Box))) (w w1 : World)
  (names : list string) :
  Py.startswith meta "COCO_" = true ->
  scan_sources (S depth) (Re.Lit ".json") None (is_instances_of phase)
    (ann_path :: others) w = Miss w1 ->
  isdir w1 ann_path = true ->
  listdir w1 ann_path = Ok names ->
  List.filter (fun s0 => negb (hidden s0)) names <> [] ->
  get_boxes (Some syn) (S depth) phase full_label (LInt n) meta
    (ann_path :: others) cache w
  = Raise TypeError.
Proof.
  intros Hmeta Hjson Hd Hl Hne. unfold get_boxes. rewrite Hmeta, Hjson.
  unfold voc_boxes. cbn [scan_sources].
  now rewrite (listarchive_integer_filter depth w1 ann_path true (Re.Lit ".xml")
                 n names Hd Hl Hne).
Qed.
End IntegerLabel.

Lemma integer_label_breaks_the_voc_search_witness :
  scan_sources (os := Demo.os) 5 (Re.Lit ".json") None
    (is_instances_of "train2017") ["/voc"] Demo.voc_world = Miss Demo.voc_world
  /\ listdir Demo.voc_world "/voc" = Ok ["n00000001"; "n00000002"; ".git"]
  /\ get_boxes (os := Demo.os) (Some Demo.syn) 5 "train2017" "000000006818"
       (LInt 6818) "COCO_" ["/voc"] ∅ Demo.voc_world
     = Raise TypeError.
Proof.
  split; [reflexivity|]. split; [reflexivity|].
  apply (integer_label_breaks_the_voc_search (os := Demo.os) Demo.syn 4
           "train2017" "000000006818" 6818%Z "COCO_" "/voc" [] ∅
           Demo.voc_world Demo.voc_world ["n00000001"; "n00000002"; ".git"]
           eq_refl eq_refl eq_refl eq_refl).
  discriminate.
Defined.
